(** * TelecomAIAssistent: the routing core and its handlers

    A shallow embedding of the Python sources

      - [orchestration/state.py], [orchestration/graph.py]
      - [agents/billing_agents.py], [agents/network_agents.py],
        [agents/service_agents.py], [agents/knowledge_agents.py]
      - [utils/database.py], [config/config.py], [ui/streamlit_app.py]

    Python [str] is a [string]; a [dict] is an insertion-ordered association
    list; an exception is a value of [exn] carried by [Raise]; calls that
    leave the repository (SQLite, the model services, the vector index) are
    answered by a [World] and recorded, in order, in a trace.

    The first part holds the embedding, the second part the properties. *)

From Stdlib Require Import String Ascii List Bool ZArith QArith Lia DecimalString.
Import ListNotations.
Local Open Scope string_scope.

(** * Part I: the embedding *)

(** ** Python strings *)

Module PyStr.

(** The one-character strings ["\n"] and the double quote. *)
Definition nl : string := String "010"%char EmptyString.
Definition dq : string := String "034"%char EmptyString.

(** [q.startswith(w)] *)
Fixpoint starts_with (w q : string) : bool :=
  match w with
  | EmptyString => true
  | String a w' =>
      match q with
      | EmptyString => false
      | String b q' => Ascii.eqb a b && starts_with w' q'
      end
  end.

(** [w in q] for two strings: [w] occurs in [q] at some offset. *)
Fixpoint str_in (w q : string) : bool :=
  starts_with w q ||
  match q with
  | EmptyString => false
  | String _ q' => str_in w q'
  end.

(** What [w in q] says: [q] splits around an occurrence of [w]. *)
Definition occurs_in (w q : string) : Prop :=
  exists pre post, q = pre ++ w ++ post.

(** [sep.join(parts)] *)
Fixpoint join (sep : string) (parts : list string) : string :=
  match parts with
  | [] => EmptyString
  | [p] => p
  | p :: rest => p ++ sep ++ join sep rest
  end.

(** A text given line by line: the lines joined by ["\n"]. *)
Definition text (lines : list string) : string := join nl lines.

(** ASCII case folding: what [str.lower] does on ASCII text. *)
Definition ascii_lower_char (c : ascii) : ascii :=
  let n := nat_of_ascii c in
  if (65 <=? n)%nat && (n <=? 90)%nat then ascii_of_nat (n + 32) else c.

Fixpoint ascii_lower (s : string) : string :=
  match s with
  | EmptyString => EmptyString
  | String c s' => String (ascii_lower_char c) (ascii_lower s')
  end.

End PyStr.

(** ** Python values, dictionaries, exceptions *)

(** The values [sqlite3] hands back in a row ([None], [int], finite [float],
    [str], [bytes]) and that the code passes on as query parameters. *)
Inductive value : Type :=
| VNone
| VInt (z : Z)
| VFloat (q : Q)
| VStr (s : string)
| VBytes (b : string).

(** Truth value of an object, as [if v:], [v and ...], [v or ...] test it. *)
Definition truthy (v : value) : bool :=
  match v with
  | VNone => false
  | VInt z => negb (z =? 0)%Z
  | VFloat q => negb (Qeq_bool q 0)
  | VStr s => negb (s =? EmptyString)
  | VBytes b => negb (b =? EmptyString)
  end.

(** [a == b] *)
Definition py_eq (a b : value) : bool :=
  match a, b with
  | VNone, VNone => true
  | VInt x, VInt y => (x =? y)%Z
  | VInt x, VFloat q | VFloat q, VInt x => Qeq_bool (inject_Z x) q
  | VFloat p, VFloat q => Qeq_bool p q
  | VStr s, VStr t => (s =? t)
  | VBytes s, VBytes t => (s =? t)
  | _, _ => false
  end.

(** [x in xs] for a list of values *)
Definition py_in (x : value) (xs : list value) : bool := existsb (py_eq x) xs.

(** An optional [str]: [None] or a string; its truth value and [a or b]. *)
Definition opt_truthy (a : option string) : bool :=
  match a with
  | Some s => negb (s =? EmptyString)
  | None => false
  end.

Definition opt_or (a b : option string) : option string :=
  if opt_truthy a then a else b.

(** [a or "default"] and [f"{a}"] for an optional [str] *)
Definition opt_or_str (a : option string) (default : string) : string :=
  match a with
  | Some s => if s =? EmptyString then default else s
  | None => default
  end.

Definition opt_str (a : option string) : string :=
  match a with
  | Some s => s
  | None => "None"
  end.

(** A [dict] with [str] keys, in insertion order. *)
Definition dict (V : Type) : Type := list (string * V).

Module Dict.
Section Ops.
Context {V : Type}.

(** [d.get(k)], [None] when the key is absent *)
Fixpoint get (k : string) (d : dict V) : option V :=
  match d with
  | [] => None
  | (k', v) :: d' => if k' =? k then Some v else get k d'
  end.

(** [d[k] = v]: an existing key keeps its position, a new key goes last. *)
Fixpoint set (k : string) (v : V) (d : dict V) : dict V :=
  match d with
  | [] => [(k, v)]
  | (k', v') :: d' =>
      if k' =? k then (k', v) :: d' else (k', v') :: set k v d'
  end.

(** [list(d.keys())] and [list(d.values())] *)
Definition keys (d : dict V) : list string := map fst d.
Definition values (d : dict V) : list V := map snd d.

(** The dictionary built by inserting the pairs left to right. *)
Definition of_inserts (kvs : list (string * V)) : dict V :=
  fold_left (fun d kv => set (fst kv) (snd kv) d) kvs [].

End Ops.
End Dict.

(** A row as [dict(sqlite3.Row)] gives it; [r.get(k)] on a row. *)
Definition row : Type := dict value.

Definition row_get (k : string) (r : row) : value :=
  match Dict.get k r with
  | Some v => v
  | None => VNone
  end.

(** A raised exception: [type(e).__name__] and [str(e)]. *)
Record exn : Type := Exn { exn_type : string; exn_msg : string }.

Inductive result (A : Type) : Type :=
| Ok (a : A)
| Raise (e : exn).
Arguments Ok {A} a.
Arguments Raise {A} e.

(** The text of [f"{type(e).__name__}: {e}"] *)
Definition exn_text (e : exn) : string := exn_type e ++ ": " ++ exn_msg e.

(** ** The world outside the repository *)

(** A chat message: role and content. *)
Definition message : Type := (string * string)%type.

(** Handles of the vector index and of a query engine built on it. *)
Inductive index_t : Type := Index (id : nat).
Inductive engine_t : Type := Engine (idx : index_t) (similarity_top_k : nat).

(** One call that leaves the repository, with the arguments the code passes. *)
Inductive event : Type :=
| SqlExecute (sql : string) (params : dict value)
| CrewKickoff (model temperature : string) (inputs : dict string)
| ChatCompletionsCreate (model : string) (messages : list message) (temperature : string)
| ChatOpenAIInvoke (model temperature : string) (messages : list message)
| BuildIndexFaiss
| BuildIndexDefault
| AsQueryEngine (idx : index_t) (similarity_top_k : nat)
| EngineQuery (e : engine_t) (question : string)
| CompileGraph.

(** What the outside answers. Every answer may depend on the calls made so
    far, and every call may raise; [str_lower], [py_str] and [py_repr] are
    the interpreter's [str.lower], [str(v)] / [f"{v}"] and [repr(v)]. *)
Class World : Type := {
  str_lower : string -> string;
  py_str : value -> string;
  py_repr : value -> string;
  db_path_posix : string;
  env_OPENAI_API_KEY : option string;
  env_OPENAI_MODEL : option string;
  HAS_FAISS : bool;
  sqlite_execute : list event -> string -> dict value -> result (list row);
  crew_kickoff : list event -> string -> string -> dict string -> result string;
  chat_completions_create :
    list event -> string -> list message -> string -> result string;
  chat_openai_invoke :
    list event -> string -> string -> list message -> result string;
  faiss_index_build : list event -> result index_t;
  default_index_build : list event -> result index_t;
  index_as_query_engine : list event -> index_t -> nat -> result engine_t;
  query_engine_query : list event -> engine_t -> string -> result string;
  state_graph_compile : list event -> result unit
}.

(** A chat turn of the transcript: [{"role": ..., "content": ...}] *)
Definition turn : Type := dict string.

(** [st.session_state]: a key is absent ([None]) until it is first set. *)
Record Session : Type := {
  ss_authenticated : option bool;
  ss_user_type : option (option string);
  ss_email : option (option string);
  ss_chat_history : option (list turn);
  ss_graph : option bool;
  ss_graph_loaded : option bool;
  ss_graph_error : option (option string)
}.

(** The mutable state of the process: the calls made so far (oldest first),
    the module global [_INDEX] of [knowledge_agents.py], and the session. *)
Record proc : Type := {
  trace : list event;
  INDEX : option index_t;
  session : Session
}.

Definition log_event (ev : event) (p : proc) : proc :=
  {| trace := (trace p ++ [ev])%list; INDEX := INDEX p; session := session p |}.

Definition set_INDEX (i : option index_t) (p : proc) : proc :=
  {| trace := trace p; INDEX := i; session := session p |}.

Definition set_session (s : Session) (p : proc) : proc :=
  {| trace := trace p; INDEX := INDEX p; session := s |}.

(** ** Computations: process state and exceptions *)

Definition M (A : Type) : Type := proc -> proc * result A.

Definition ret {A} (a : A) : M A := fun p => (p, Ok a).

Definition bind {A B} (m : M A) (k : A -> M B) : M B :=
  fun p =>
    match m p with
    | (p', Ok a) => k a p'
    | (p', Raise e) => (p', Raise e)
    end.

(** [raise e] *)
Definition raise {A} (e : exn) : M A := fun p => (p, Raise e).

(** [try: body / except Exception as e: handler(e)] *)
Definition try_except {A} (body : M A) (handler : exn -> M A) : M A :=
  fun p =>
    match body p with
    | (p', Ok a) => (p', Ok a)
    | (p', Raise e) => handler e p'
    end.

(** A call to the outside: recorded, then answered from the calls before it. *)
Definition extern {A} (ev : event) (answer : list event -> result A) : M A :=
  fun p => (log_event ev p, answer (trace p)).

(** A step that touches nothing outside but may raise. *)
Definition lift {A} (r : result A) : M A := fun p => (p, r).

Definition get_proc : M proc := fun p => (p, Ok p).
Definition put_proc (p' : proc) : M unit := fun _ => (p', Ok tt).

Declare Scope py_scope.
Delimit Scope py_scope with py.
Notation "x <- m ;; k" := (bind m (fun x => k))
  (at level 61, m at next level, right associativity) : py_scope.
Notation "m ;;; k" := (bind m (fun _ => k))
  (at level 61, right associativity) : py_scope.
Local Open Scope py_scope.

(** [[f(x) for x in xs]] where [f] may raise *)
Fixpoint map_result {A B} (f : A -> result B) (xs : list A) : result (list B) :=
  match xs with
  | [] => Ok []
  | x :: xs' =>
      match f x with
      | Raise e => Raise e
      | Ok y =>
          match map_result f xs' with
          | Raise e => Raise e
          | Ok ys => Ok (y :: ys)
          end
      end
  end.

(** [lines.append(x)] on a list held in a local variable *)
Definition append {A} (xs : list A) (x : A) : list A := (xs ++ [x])%list.

(** [r[k]] on a row: [KeyError] when the column is absent. *)
Definition getitem `{World} (k : string) (r : row) : result value :=
  match Dict.get k r with
  | Some v => Ok v
  | None => Raise (Exn "KeyError" (py_repr (VStr k)))
  end.

(** ** config/config.py and utils/database.py *)

Section Backend.
Context `{W : World}.

(** [get_openai_api_key()]: [os.getenv("OPENAI_API_KEY")] *)
Definition get_openai_api_key : option string := env_OPENAI_API_KEY.

(** [get_openai_model()]: [os.getenv("OPENAI_MODEL", "gpt-4o-mini")] *)
Definition get_openai_model : string :=
  match env_OPENAI_MODEL with
  | Some m => m
  | None => "gpt-4o-mini"
  end.

(** [get_db_uri()] *)
Definition get_db_uri : string := "sqlite:///" ++ db_path_posix.

(** [run_query(query, params=None)]: connect, execute with [params or {}],
    fetch all rows as dictionaries. *)
Definition run_query (query : string) (params : option (dict value)) : M (list row) :=
  let params' :=
    match params with
    | Some ((_ :: _) as d) => d
    | _ => []
    end in
  extern (SqlExecute query params') (fun h => sqlite_execute h query params').

Definition get_tables_sql : string :=
  "SELECT name FROM sqlite_master WHERE type='table' ORDER BY name".

(** [get_tables()] *)
Definition get_tables : M (list value) :=
  rows <- run_query get_tables_sql None ;;
  lift (map_result (getitem "name") rows).

(** ** agents/billing_agents.py *)

(** The [LLM(model=..., temperature=0.2)] object of CrewAI. *)
Record LLM : Type := { llm_model : string; llm_temperature : string }.

(** [_build_llm()] *)
Definition billing_build_llm : M LLM :=
  if opt_truthy get_openai_api_key
  then ret {| llm_model := get_openai_model; llm_temperature := "0.2" |}
  else raise (Exn "RuntimeError"
                "OPENAI_API_KEY is not set. Please add it to your .env file.").

(** [f"{col}={r[col]!r}"] for each column, joined by a comma. *)
Definition format_row (columns : list string) (r : row) : result string :=
  match map_result
          (fun col =>
             match getitem col r with
             | Ok v => Ok (col ++ "=" ++ py_repr v)
             | Raise e => Raise e
             end) columns with
  | Ok parts => Ok ("  - " ++ PyStr.join ", " parts)
  | Raise e => Raise e
  end.

(** [_format_rows(rows, max_rows=5)] *)
Definition _format_rows (rows : list row) : result string :=
  match rows with
  | [] => Ok ("  (no rows)" ++ PyStr.nl)
  | r0 :: _ =>
      let rows' := firstn 5 rows in
      let columns := Dict.keys r0 in
      match map_result (format_row columns) rows' with
      | Ok ls =>
          Ok (PyStr.join PyStr.nl (("  Columns: " ++ PyStr.join ", " columns) :: ls)
              ++ PyStr.nl)
      | Raise e => Raise e
      end
  end.

Definition candidate_columns : list string :=
  ["customer_id"; "customerid"; "email"; "phone"; "msisdn"; "account_id"].

(** [f"SELECT * FROM {table} WHERE {col} = :val LIMIT 5"] *)
Definition filter_sql (table : value) (col : string) : string :=
  "SELECT * FROM " ++ py_str table ++ " WHERE " ++ col ++ " = :val LIMIT 5".

(** [f"SELECT * FROM {table} LIMIT 5"] *)
Definition sample_sql (table : value) : string :=
  "SELECT * FROM " ++ py_str table ++ " LIMIT 5".

(** The loop [for col in candidate_columns] of [_build_db_snapshot], run on
    the columns still to try. [lines] and [filtered_rows] are the local
    variables of the same names; they keep what was assigned before an
    exception, which the [except] clause answers with [continue]. *)
Fixpoint try_columns (table : value) (customer_identifier : string)
    (cols : list string) (lines : list string) (filtered_rows : list row)
    : M (list string * list row) :=
  match cols with
  | [] => ret (lines, filtered_rows)
  | col :: cols' =>
      fun p =>
        match run_query (filter_sql table col)
                (Some [("val", VStr customer_identifier)]) p with
        | (p', Raise _) => try_columns table customer_identifier cols' lines filtered_rows p'
        | (p', Ok []) => try_columns table customer_identifier cols' lines [] p'
        | (p', Ok ((_ :: _) as rows)) =>
            let lines1 :=
              append lines ("  Rows for " ++ col ++ " = "
                            ++ py_repr (VStr customer_identifier) ++ ":") in
            match _format_rows rows with
            | Ok txt => (p', Ok (append lines1 txt, rows))
            | Raise _ => try_columns table customer_identifier cols' lines1 rows p'
            end
        end
  end.

(** The part of the loop body after the column loop: the unfiltered sample. *)
Definition sample_table (table : value) (lines : list string) : M (list string) :=
  fun p =>
    match run_query (sample_sql table) None p with
    | (p', Ok sample_rows) =>
        let lines1 := append lines "  Sample rows:" in
        match _format_rows sample_rows with
        | Ok txt => (p', Ok (append lines1 txt))
        | Raise e =>
            (p', Ok (append lines1 ("  (Failed to query table " ++ py_str table
                                    ++ ": " ++ exn_text e ++ ")")))
        end
    | (p', Raise e) =>
        (p', Ok (append lines ("  (Failed to query table " ++ py_str table
                               ++ ": " ++ exn_text e ++ ")")))
    end.

(** The body of the loop [for table in tables] of [_build_db_snapshot]. *)
Definition snapshot_table (customer_identifier : option string)
    (table : value) (lines : list string) : M (list string) :=
  let lines0 := append lines (PyStr.nl ++ "Table: " ++ py_str table) in
  found <-
    match customer_identifier with
    | Some ident =>
        if opt_truthy customer_identifier
        then try_columns table ident candidate_columns lines0 []
        else ret (lines0, [])
    | None => ret (lines0, [])
    end ;;
  match snd found with
  | [] => sample_table table (fst found)
  | _ :: _ => ret (fst found)
  end.

(** The loop [for table in tables] of [_build_db_snapshot]. *)
Fixpoint snapshot_tables (customer_identifier : option string)
    (tables : list value) (lines : list string) : M (list string) :=
  match tables with
  | [] => ret lines
  | table :: tables' =>
      lines2 <- snapshot_table customer_identifier table lines ;;
      snapshot_tables customer_identifier tables' lines2
  end.

(** [_build_db_snapshot(customer_identifier)] *)
Definition _build_db_snapshot (customer_identifier : option string) : M string :=
  let lines := ["Database URI: " ++ get_db_uri; "Discovered tables:"] in
  fun p =>
    match get_tables p with
    | (p', Raise e) =>
        (p', Ok ("(Failed to inspect database tables: " ++ exn_text e ++ ")"))
    | (p', Ok []) => (p', Ok "(No tables found in the database.)")
    | (p', Ok ((_ :: _) as tables)) =>
        (lines' <- snapshot_tables customer_identifier tables lines ;;
         ret (PyStr.join PyStr.nl lines')) p'
    end.

(** [create_billing_crew(db_snapshot)]: the crew's fixed agents and tasks are
    built around the model of [_build_llm()]; the snapshot argument is not
    read, it reaches the tasks through the inputs of [kickoff]. *)
Definition create_billing_crew (db_snapshot : string) : M LLM := billing_build_llm.

(** [process_billing_query(customer_identifier, query)] *)
Definition process_billing_query (customer_identifier : option string)
    (query : string) : M string :=
  db_snapshot <- _build_db_snapshot customer_identifier ;;
  crew <- create_billing_crew db_snapshot ;;
  let inputs :=
    [("customer_identifier", opt_or_str customer_identifier "unknown");
     ("query", query);
     ("db_snapshot", db_snapshot)] in
  extern (CrewKickoff (llm_model crew) (llm_temperature crew) inputs)
         (fun h => crew_kickoff h (llm_model crew) (llm_temperature crew) inputs).

(** ** agents/network_agents.py *)

(** [_build_client()]: the client holds the key. *)
Definition _build_client : M string :=
  match get_openai_api_key with
  | Some key =>
      if key =? EmptyString
      then raise (Exn "RuntimeError"
                    "Missing OPENAI_API_KEY in your environment or .env")
      else ret key
  | None => raise (Exn "RuntimeError"
                     "Missing OPENAI_API_KEY in your environment or .env")
  end.

Definition diagnostics_system_prompt : string :=
  PyStr.text
    [ EmptyString;
      "You are a Telecom Network Diagnostics Specialist.";
      "Analyze network issues including:";
      "- slow internet";
      "- no signal";
      "- call drops";
      "- VoLTE not working";
      "- 5G issues";
      "- SIM/network registration failures";
      EmptyString;
      "Follow this structure:";
      "1. Identify possible root causes";
      "2. Check if it is device-related or network-area-related";
      "3. Mention what parameters need to be checked (signal strength, APN, VoLTE toggle)";
      "4. Give a technical summary (NOT customer-facing)";
      EmptyString ].

Definition diagnostics_message (query : string) (customer_id : option string) : string :=
  "Customer identifier: " ++ opt_str customer_id ++ PyStr.nl ++
  "Reported issue: " ++ query ++ PyStr.nl ++
  "Generate your technical diagnostic analysis:".

(** [_diagnostics_agent(query, customer_id)] *)
Definition _diagnostics_agent (query : string) (customer_id : option string) : M string :=
  client <- _build_client ;;
  let messages :=
    [("system", diagnostics_system_prompt);
     ("user", diagnostics_message query customer_id)] in
  extern (ChatCompletionsCreate get_openai_model messages "0.2")
         (fun h => chat_completions_create h get_openai_model messages "0.2").

Definition resolution_system_prompt : string :=
  PyStr.text
    [ EmptyString;
      "You are a Telecom Network Resolution Specialist.";
      "Your job is to convert technical diagnostics into:";
      "- a clear explanation";
      "- friendly language";
      "- 3–5 clear steps the customer can follow";
      "- a possible root cause";
      "- optional tips to prevent it in future";
      EmptyString;
      "Do NOT be too technical. Be helpful.";
      EmptyString ].

Definition resolution_message (diagnostics_summary : string) : string :=
  "Here is the technical diagnostics summary from the engineering system:"
  ++ PyStr.nl ++ PyStr.nl ++
  diagnostics_summary ++ PyStr.nl ++ PyStr.nl ++
  "Convert this into a helpful customer-facing explanation with steps.".

(** [_resolution_agent(diagnostics_summary)] *)
Definition _resolution_agent (diagnostics_summary : string) : M string :=
  client <- _build_client ;;
  let messages :=
    [("system", resolution_system_prompt);
     ("user", resolution_message diagnostics_summary)] in
  extern (ChatCompletionsCreate get_openai_model messages "0.4")
         (fun h => chat_completions_create h get_openai_model messages "0.4").

(** The text [process_network_query] assembles from the two passes. *)
Definition network_final_response (diagnostics resolution : string) : string :=
  "### Network Diagnostics (Internal)" ++ PyStr.nl ++
  diagnostics ++ PyStr.nl ++ PyStr.nl ++
  "### Final Explanation" ++ PyStr.nl ++
  resolution.

(** [process_network_query(query, customer_identifier=None)] *)
Definition process_network_query (query : string)
    (customer_identifier : option string) : M string :=
  try_except
    (diagnostics <- _diagnostics_agent query customer_identifier ;;
     resolution <- _resolution_agent diagnostics ;;
     ret (network_final_response diagnostics resolution))
    (fun e => ret ("Network troubleshooting failed: " ++ exn_text e)).

(** ** agents/service_agents.py *)

(** The [profile] dictionary of [_load_customer_profile]. *)
Record Profile : Type := {
  pf_customer : option row;
  pf_current_plan : option row;
  pf_usage : option row;
  pf_plans : option (list row)
}.

Definition plans_sql : string := "SELECT * FROM service_plans".

Definition customer_sql : string :=
  "SELECT * FROM customers WHERE email = :email LIMIT 1".

Definition usage_sql : string :=
  PyStr.text
    [ EmptyString;
      "            SELECT * FROM customer_usage";
      "            WHERE customer_id = :cid";
      "            ORDER BY billing_period_end DESC";
      "            LIMIT 1";
      "            " ].

(** The loop [for p in profile["plans"]]: the first plan whose [plan_id]
    equals the customer's [service_plan_id]. *)
Fixpoint find_current_plan (plan_id : value) (plans : list row) : result (option row) :=
  match plans with
  | [] => Ok None
  | p :: plans' =>
      match getitem "plan_id" p with
      | Raise e => Raise e
      | Ok pid => if py_eq pid plan_id then Ok (Some p) else find_current_plan plan_id plans'
      end
  end.

(** [_load_customer_profile(customer_email)] *)
Definition _load_customer_profile (customer_email : option string) : M Profile :=
  tables <- get_tables ;;
  plans <-
    (if py_in (VStr "service_plans") tables
     then rows <- run_query plans_sql None ;; ret (Some rows)
     else ret None) ;;
  let profile0 :=
    {| pf_customer := None; pf_current_plan := None;
       pf_usage := None; pf_plans := plans |} in
  match customer_email with
  | None => ret profile0
  | Some email =>
      if email =? EmptyString then ret profile0 else
      rows <- run_query customer_sql (Some [("email", VStr email)]) ;;
      match rows with
      | [] => ret profile0
      | customer :: _ =>
          current_plan <-
            match plans with
            | Some ((_ :: _) as ps) =>
                if truthy (row_get "service_plan_id" customer)
                then plan_id <- lift (getitem "service_plan_id" customer) ;;
                     lift (find_current_plan plan_id ps)
                else ret None
            | _ => ret None
            end ;;
          usage <-
            (if py_in (VStr "customer_usage") tables
             then cid <- lift (getitem "customer_id" customer) ;;
                  usage_rows <- run_query usage_sql (Some [("cid", cid)]) ;;
                  ret (hd_error usage_rows)
             else ret None) ;;
          ret {| pf_customer := Some customer; pf_current_plan := current_plan;
                 pf_usage := usage; pf_plans := plans |}
      end
  end.

(** Sequencing of steps that only may raise. *)
Definition rbind {A B} (r : result A) (k : A -> result B) : result B :=
  match r with
  | Ok a => k a
  | Raise e => Raise e
  end.

Notation "'let?' x := r 'in' k" := (rbind r (fun x => k))
  (at level 10, x name, r at level 100, k at level 200).

(** ["Unlimited" if p[flag] else f"{p[amount]}<unit>"] *)
Definition plan_allowance (p : row) (flag amount unit_ : string) : result string :=
  let? u := getitem flag p in
  if truthy u then Ok "Unlimited"
  else let? a := getitem amount p in Ok (py_str a ++ unit_).

(** [_format_plan(p)] *)
Definition _format_plan (p : row) : result string :=
  let? data := plan_allowance p "unlimited_data" "data_limit_gb" "GB" in
  let? voice := plan_allowance p "unlimited_voice" "voice_minutes" " min" in
  let? sms := plan_allowance p "unlimited_sms" "sms_count" " SMS" in
  let? name := getitem "name" p in
  let? plan_id := getitem "plan_id" p in
  let? cost := getitem "monthly_cost" p in
  Ok ("- " ++ py_str name ++ " (" ++ py_str plan_id ++ "): ₹" ++ py_str cost
      ++ " / month | " ++ data ++ " | " ++ voice ++ " | " ++ sms).

(** [_build_llm()]: the [ChatOpenAI(model=..., temperature=0.2, ...)] object. *)
Definition service_build_llm : M LLM :=
  if opt_truthy get_openai_api_key
  then ret {| llm_model := get_openai_model; llm_temperature := "0.2" |}
  else raise (Exn "RuntimeError" "Missing OPENAI_API_KEY in .env").

(** The plan catalogue blob. *)
Definition plan_text_of (plans : list row) : result string :=
  match plans with
  | [] => Ok "(No plans)"
  | _ :: _ => let? ls := map_result _format_plan plans in Ok (PyStr.join PyStr.nl ls)
  end.

(** The customer profile blob. *)
Definition customer_text_of (customer current_plan : option row) : result string :=
  match customer, current_plan with
  | Some ((_ :: _) as c), Some ((_ :: _) as cp) =>
      let? cid := getitem "customer_id" c in
      let? name := getitem "name" c in
      let? pname := getitem "name" cp in
      let? pid := getitem "plan_id" cp in
      let? cost := getitem "monthly_cost" cp in
      Ok ("Customer ID: " ++ py_str cid ++ PyStr.nl ++
          "Name: " ++ py_str name ++ PyStr.nl ++
          "Current Plan: " ++ py_str pname ++ " (" ++ py_str pid ++ ")" ++ PyStr.nl ++
          "Monthly Cost: ₹" ++ py_str cost ++ PyStr.nl)
  | _, _ => Ok ("No customer profile available." ++ PyStr.nl)
  end.

(** The usage blob. *)
Definition usage_text_of (usage : option row) : result string :=
  match usage with
  | Some ((_ :: _) as u) =>
      let? ps := getitem "billing_period_start" u in
      let? pe := getitem "billing_period_end" u in
      let? data := getitem "data_used_gb" u in
      let? voice := getitem "voice_minutes_used" u in
      let? sms := getitem "sms_count_used" u in
      let? total := getitem "total_bill_amount" u in
      Ok ("Billing Period: " ++ py_str ps ++ " → " ++ py_str pe ++ PyStr.nl ++
          "Last Billing Period Usage:" ++ PyStr.nl ++
          "- Data: " ++ py_str data ++ " GB" ++ PyStr.nl ++
          "- Voice: " ++ py_str voice ++ " min" ++ PyStr.nl ++
          "- SMS: " ++ py_str sms ++ PyStr.nl ++
          "- Total Bill Amount: ₹" ++ py_str total ++ PyStr.nl)
  | _ => Ok ("No usage data available." ++ PyStr.nl)
  end.

Definition plan_system_prompt : string :=
  PyStr.text
    [ EmptyString;
      "You are a Telecom Plan Optimization Expert for an Indian telecom operator.";
      " ";
      "You must recommend 1–3 plans based on:";
      "1. User's request in natural language (e.g., cheaper plan, more data, family plan, add-on packs).";
      "2. Current plan vs actual usage (data, voice, SMS).";
      "3. Cost savings or upgrade benefits.";
      "4. All available plans from `service_plans`.";
      "5. Unlimited data/voice/SMS rules.";
      "6. Whether the current plan is already ideal.";
      " ";
      "Also consider add-on packs or upgrades if the user is exceeding data/voice/SMS limits.";
      "If the question is specifically about " ++ PyStr.dq ++ "add-on packs" ++ PyStr.dq
        ++ ", clearly list suitable add-on options";
      "based on their current plan and usage, and explain when they should upgrade the base plan instead.";
      " ";
      "Respond with:";
      "- A short summary";
      "- A ranked list of recommended plans and/or add-on packs";
      "- Reasoning in bullet points";
      "                " ].

(** The user message: the template with its four slots filled. *)
Definition plan_user_prompt (query customer_profile usage plans : string) : string :=
  PyStr.text
    [ EmptyString;
      "User Query:";
      query;
      " ";
      "Customer:";
      customer_profile;
      " ";
      "Usage:";
      usage;
      " ";
      "Available Plans:";
      plans;
      " ";
      "Provide the best personalized plan/add-on recommendations.";
      "                " ].

(** [recommend_personalized_plan(customer_email, user_query)] *)
Definition recommend_personalized_plan (customer_email : option string)
    (user_query : string) : M string :=
  profile <- _load_customer_profile customer_email ;;
  let plans := match pf_plans profile with Some ps => ps | None => [] end in
  plan_text <- lift (plan_text_of plans) ;;
  customer_text <- lift (customer_text_of (pf_customer profile) (pf_current_plan profile)) ;;
  customer_usage_text <- lift (usage_text_of (pf_usage profile)) ;;
  llm <- service_build_llm ;;
  let messages :=
    [("system", plan_system_prompt);
     ("user", plan_user_prompt user_query customer_text customer_usage_text plan_text)] in
  extern (ChatOpenAIInvoke (llm_model llm) (llm_temperature llm) messages)
         (fun h => chat_openai_invoke h (llm_model llm) (llm_temperature llm) messages).

(** ** agents/knowledge_agents.py *)

(** [_init_llama_settings()] *)
Definition _init_llama_settings : M unit :=
  if opt_truthy get_openai_api_key
  then ret tt
  else raise (Exn "RuntimeError"
                "OPENAI_API_KEY is not set. Please add it to your .env file.").

(** [_build_index_default()]: load the documents, build the in-memory index. *)
Definition _build_index_default : M index_t :=
  extern BuildIndexDefault default_index_build.

(** [_build_index_faiss()]: refuse without FAISS, else load the documents and
    build or reload the FAISS-backed index. *)
Definition _build_index_faiss : M index_t :=
  if HAS_FAISS
  then extern BuildIndexFaiss faiss_index_build
  else raise (Exn "RuntimeError" "FAISS or FaissVectorStore is not available").

(** [_get_index()]: the global [_INDEX], built on first use. *)
Definition _get_index : M index_t :=
  p <- get_proc ;;
  match INDEX p with
  | Some index => ret index
  | None =>
      _init_llama_settings ;;;
      index <-
        (if HAS_FAISS
         then try_except _build_index_faiss (fun _ => _build_index_default)
         else _build_index_default) ;;
      p' <- get_proc ;;
      put_proc (set_INDEX (Some index) p') ;;;
      ret index
  end.

Definition knowledge_full_question (query : string) (customer_email : option string)
    : string :=
  "You are a Telecom Technical Support Assistant. Use ONLY the provided " ++
  "documentation and retrieved context to answer precisely." ++ PyStr.nl ++ PyStr.nl ++
  "Customer: " ++ opt_or_str customer_email "unknown" ++ PyStr.nl ++
  "Question: " ++ query ++ PyStr.nl ++ PyStr.nl ++
  "If the exact steps are not clearly in the docs, say that and provide a " ++
  "generic best-practice answer, noting that details may vary by device/operator.".

(** [answer_knowledge_query(query, customer_email=None)]. The first [try]
    returns from its [except] clause; [index.as_query_engine] stands between
    the two [try] statements. *)
Definition answer_knowledge_query (query : string) (customer_email : option string)
    : M string :=
  got <- try_except
           (index <- _get_index ;; ret (inl index))
           (fun e => ret (inr ("Knowledge assistant is not configured correctly."
                               ++ PyStr.nl ++ PyStr.nl ++
                               "Technical details: " ++ exn_text e))) ;;
  match got with
  | inr answer => ret answer
  | inl index =>
      query_engine <- extern (AsQueryEngine index 3)
                             (fun h => index_as_query_engine h index 3) ;;
      let full_question := knowledge_full_question query customer_email in
      try_except
        (extern (EngineQuery query_engine full_question)
                (fun h => query_engine_query h query_engine full_question))
        (fun e => ret ("Sorry, I ran into a problem while searching the knowledge base."
                       ++ PyStr.nl ++ PyStr.nl ++
                       "Technical details: " ++ exn_text e))
  end.

(** ** orchestration/state.py and orchestration/graph.py *)

(** [TelecomAssistantState]. A key read with [state.get] may be absent
    ([None]); [customer_info] maps to [None] or a string. *)
Record TelecomAssistantState : Type := {
  query : string;
  customer_info : option (dict (option string));
  classification : option string;
  intermediate_responses : option (dict string);
  final_response : option string;
  chat_history : list turn
}.

(** [{**state, "classification": cls}] and the like *)
Definition with_classification (cls : string) (st : TelecomAssistantState) :=
  {| query := query st; customer_info := customer_info st;
     classification := Some cls;
     intermediate_responses := intermediate_responses st;
     final_response := final_response st; chat_history := chat_history st |}.

Definition with_intermediate_responses (r : dict string) (st : TelecomAssistantState) :=
  {| query := query st; customer_info := customer_info st;
     classification := classification st;
     intermediate_responses := Some r;
     final_response := final_response st; chat_history := chat_history st |}.

Definition with_final_response (final : string) (st : TelecomAssistantState) :=
  {| query := query st; customer_info := customer_info st;
     classification := classification st;
     intermediate_responses := intermediate_responses st;
     final_response := Some final; chat_history := chat_history st |}.

Definition billing_terms : list string :=
  ["bill"; "charge"; "payment"; "account"; "due date"; "invoice"].
Definition network_terms : list string :=
  ["network"; "signal"; "connection"; "call"; "data"; "slow"; "internet"; "5g"; "4g"].
Definition plan_terms : list string :=
  ["plan"; "recommend"; "upgrade"; "downgrade"; "best"; "family"; "pack"].
Definition howto_terms : list string :=
  ["how"; "what"; "configure"; "setup"; "apn"; "volte"; "roaming"; "esim"].

(** The five intent labels and the five handler nodes. *)
Definition intent_labels : list string :=
  ["billing_account"; "network_troubleshooting"; "service_recommendation";
   "knowledge_retrieval"; "fallback"].

Definition handler_nodes : list string :=
  ["crew_ai_node"; "autogen_node"; "langchain_node"; "llamaindex_node";
   "fallback_handler"].

(** Some keyword of [terms] occurs in [q]. *)
Definition mentions (terms : list string) (q : string) : Prop :=
  exists w, In w terms /\ PyStr.occurs_in w q.

(** [any(w in q for w in terms)] *)
Definition any_in (terms : list string) (q : string) : bool :=
  existsb (fun w => PyStr.str_in w q) terms.

(** The label [classify_query] computes from the query. *)
Definition classify (query : string) : string :=
  let q := str_lower query in
  if any_in billing_terms q then "billing_account"
  else if any_in network_terms q then "network_troubleshooting"
  else if any_in plan_terms q then "service_recommendation"
  else if any_in howto_terms q then "knowledge_retrieval"
  else "fallback".

(** [classify_query(state)] *)
Definition classify_query (state : TelecomAssistantState) : TelecomAssistantState :=
  with_classification (classify (query state)) state.

(** The node [route_query] names for a label. *)
Definition route (cls : string) : string :=
  if cls =? "billing_account" then "crew_ai_node"
  else if cls =? "network_troubleshooting" then "autogen_node"
  else if cls =? "service_recommendation" then "langchain_node"
  else if cls =? "knowledge_retrieval" then "llamaindex_node"
  else "fallback_handler".

(** [route_query(state)] *)
Definition route_query (state : TelecomAssistantState) : string :=
  route (match classification state with
         | Some cls => cls
         | None => "fallback"
         end).

(** [state.get("customer_info") or {}] *)
Definition customer_info_of (state : TelecomAssistantState) : dict (option string) :=
  match customer_info state with
  | Some d => d
  | None => []
  end.

(** [customer_info.get(k)] *)
Definition info_get (k : string) (info : dict (option string)) : option string :=
  match Dict.get k info with
  | Some v => v
  | None => None
  end.

(** [customer_info.get("email") or customer_info.get("id")] *)
Definition customer_identifier_of (state : TelecomAssistantState) : option string :=
  let info := customer_info_of state in
  opt_or (info_get "email" info) (info_get "id" info).

Definition technical_details (apology : string) (e : exn) : string :=
  apology ++ PyStr.nl ++ PyStr.nl ++ "Technical details: " ++ exn_text e.

(** [crew_ai_node(state)] *)
Definition crew_ai_node (state : TelecomAssistantState) : M TelecomAssistantState :=
  let query := query state in
  let customer_identifier := customer_identifier_of state in
  answer <- try_except
              (process_billing_query customer_identifier query)
              (fun e => ret (technical_details
                 "Sorry, I ran into a problem while analyzing your billing question." e)) ;;
  ret (with_intermediate_responses [("crew_ai", answer)] state).

(** [autogen_node(state)] *)
Definition autogen_node (state : TelecomAssistantState) : M TelecomAssistantState :=
  let query := query state in
  let customer_identifier := customer_identifier_of state in
  answer <- try_except
              (process_network_query query customer_identifier)
              (fun e => ret (technical_details
                 "Sorry, I ran into a problem while diagnosing your network issue." e)) ;;
  ret (with_intermediate_responses [("autogen", answer)] state).

(** [langchain_node(state)] *)
Definition langchain_node (state : TelecomAssistantState) : M TelecomAssistantState :=
  let query := query state in
  let customer_email := info_get "email" (customer_info_of state) in
  answer <- try_except
              (recommend_personalized_plan customer_email query)
              (fun e => ret (technical_details
                 "Sorry, I had trouble generating a plan recommendation." e)) ;;
  ret (with_intermediate_responses [("langchain", answer)] state).

(** [llamaindex_node(state)]: the call is not wrapped in a [try]. *)
Definition llamaindex_node (state : TelecomAssistantState) : M TelecomAssistantState :=
  let query := query state in
  let customer_email := info_get "email" (customer_info_of state) in
  answer <- answer_knowledge_query query customer_email ;;
  ret (with_intermediate_responses [("llamaindex", answer)] state).

Definition fallback_text : string :=
  "I’m not sure how to handle that." ++ PyStr.nl ++ PyStr.nl ++
  "You can ask about:" ++ PyStr.nl ++
  "- Billing & account (charges, due dates, invoices)" ++ PyStr.nl ++
  "- Network issues (slow internet, no signal, call drops)" ++ PyStr.nl ++
  "- Plan recommendations (upgrade/downgrade, family plans)" ++ PyStr.nl ++
  "- Technical how-to (APN settings, VoLTE, roaming, eSIM)".

(** [fallback_handler(state)] *)
Definition fallback_handler (state : TelecomAssistantState) : TelecomAssistantState :=
  with_intermediate_responses [("fallback", fallback_text)] state.

Definition something_went_wrong : string :=
  "Something went wrong while generating a response.".

(** The text [formulate_response] picks from the handler outputs:
    [next(iter(responses.values()))] when the mapping is not empty. *)
Definition aggregate (responses : dict string) : string :=
  match Dict.values responses with
  | first :: _ => first
  | [] => something_went_wrong
  end.

(** [formulate_response(state)] *)
Definition formulate_response (state : TelecomAssistantState) : TelecomAssistantState :=
  let responses :=
    match intermediate_responses state with
    | Some r => r
    | None => []
    end in
  with_final_response (aggregate responses) state.

(** *** The workflow graph *)

Definition node_fn : Type := TelecomAssistantState -> M TelecomAssistantState.

(** A [StateGraph] under construction: nodes, conditional edges (the router
    and the mapping from its answers to nodes), plain edges, entry point. *)
Record StateGraph : Type := {
  sg_nodes : dict node_fn;
  sg_branches : dict ((TelecomAssistantState -> string) * dict string);
  sg_edges : dict string;
  sg_entry : option string
}.

Definition END : string := "__end__".

Definition empty_graph : StateGraph :=
  {| sg_nodes := []; sg_branches := []; sg_edges := []; sg_entry := None |}.

Definition add_node (name : string) (f : node_fn) (g : StateGraph) : StateGraph :=
  {| sg_nodes := Dict.set name f (sg_nodes g); sg_branches := sg_branches g;
     sg_edges := sg_edges g; sg_entry := sg_entry g |}.

Definition add_conditional_edges (source : string)
    (path : TelecomAssistantState -> string) (path_map : dict string)
    (g : StateGraph) : StateGraph :=
  {| sg_nodes := sg_nodes g;
     sg_branches := Dict.set source (path, path_map) (sg_branches g);
     sg_edges := sg_edges g; sg_entry := sg_entry g |}.

Definition add_edge (source target : string) (g : StateGraph) : StateGraph :=
  {| sg_nodes := sg_nodes g; sg_branches := sg_branches g;
     sg_edges := Dict.set source target (sg_edges g); sg_entry := sg_entry g |}.

Definition set_entry_point (name : string) (g : StateGraph) : StateGraph :=
  {| sg_nodes := sg_nodes g; sg_branches := sg_branches g;
     sg_edges := sg_edges g; sg_entry := Some name |}.

(** The workflow [create_graph] builds, before [compile()]. *)
Definition workflow : StateGraph :=
  let g := empty_graph in
  let g := add_node "classify_query" (fun st => ret (classify_query st)) g in
  let g := add_node "crew_ai_node" crew_ai_node g in
  let g := add_node "autogen_node" autogen_node g in
  let g := add_node "langchain_node" langchain_node g in
  let g := add_node "llamaindex_node" llamaindex_node g in
  let g := add_node "fallback_handler" (fun st => ret (fallback_handler st)) g in
  let g := add_node "formulate_response" (fun st => ret (formulate_response st)) g in
  let g := add_conditional_edges "classify_query" route_query
             [("crew_ai_node", "crew_ai_node");
              ("autogen_node", "autogen_node");
              ("langchain_node", "langchain_node");
              ("llamaindex_node", "llamaindex_node");
              ("fallback_handler", "fallback_handler")] g in
  let g := add_edge "crew_ai_node" "formulate_response" g in
  let g := add_edge "autogen_node" "formulate_response" g in
  let g := add_edge "langchain_node" "formulate_response" g in
  let g := add_edge "llamaindex_node" "formulate_response" g in
  let g := add_edge "fallback_handler" "formulate_response" g in
  let g := add_edge "formulate_response" END g in
  set_entry_point "classify_query" g.

(** [create_graph()]: build the workflow and compile it. *)
Definition create_graph : M StateGraph :=
  extern CompileGraph state_graph_compile ;;;
  ret workflow.

(** The node that runs after [node] has returned [state]. *)
Definition next_node (g : StateGraph) (node : string) (state : TelecomAssistantState)
    : result string :=
  match Dict.get node (sg_branches g) with
  | Some (path, path_map) =>
      match Dict.get (path state) path_map with
      | Some target => Ok target
      | None => Raise (Exn "KeyError" (py_repr (VStr (path state))))
      end
  | None =>
      match Dict.get node (sg_edges g) with
      | Some target => Ok target
      | None => Ok END
      end
  end.

(** One node per step, from [node] on, for at most [limit] steps. *)
Fixpoint run_from (g : StateGraph) (limit : nat) (node : string)
    (state : TelecomAssistantState) : M TelecomAssistantState :=
  if node =? END then ret state else
  match limit with
  | O => raise (Exn "GraphRecursionError" "Recursion limit reached")
  | S limit' =>
      match Dict.get node (sg_nodes g) with
      | None => raise (Exn "KeyError" (py_repr (VStr node)))
      | Some f =>
          state' <- f state ;;
          target <- lift (next_node g node state') ;;
          run_from g limit' target state'
      end
  end.

Definition recursion_limit : nat := 25.

(** [graph.invoke(state)] on the compiled graph *)
Definition invoke (g : StateGraph) (state : TelecomAssistantState)
    : M TelecomAssistantState :=
  match sg_entry g with
  | Some entry => run_from g recursion_limit entry state
  | None => raise (Exn "ValueError" "Graph must have an entrypoint")
  end.

(** ** ui/streamlit_app.py *)

(** What the widgets return in one run of the script. Calls that only draw
    ([st.title], [st.write], [st.error], ...) are left out. *)
Record Widgets : Type := {
  w_email : string;            (* st.text_input("Email Address") *)
  w_user_type : string;        (* st.selectbox("User Type", ...) *)
  w_login : bool;              (* st.button("Login") *)
  w_logout : bool;             (* st.button("Logout") *)
  w_chat_input : option string (* st.chat_input(...) *)
}.

Definition get_session : M Session := fun p => (p, Ok (session p)).

Definition modify_session (f : Session -> Session) : M unit :=
  fun p => (set_session (f (session p)) p, Ok tt).

(** [st.session_state.<name>]: [AttributeError] while the key is absent. *)
Definition attr {A} (name : string) (field : Session -> option A) : M A :=
  s <- get_session ;;
  match field s with
  | Some a => ret a
  | None => raise (Exn "AttributeError"
                     ("st.session_state has no attribute " ++ name))
  end.

Definition set_authenticated (b : bool) (s : Session) : Session :=
  {| ss_authenticated := Some b; ss_user_type := ss_user_type s;
     ss_email := ss_email s; ss_chat_history := ss_chat_history s;
     ss_graph := ss_graph s; ss_graph_loaded := ss_graph_loaded s;
     ss_graph_error := ss_graph_error s |}.

Definition set_user_type (u : option string) (s : Session) : Session :=
  {| ss_authenticated := ss_authenticated s; ss_user_type := Some u;
     ss_email := ss_email s; ss_chat_history := ss_chat_history s;
     ss_graph := ss_graph s; ss_graph_loaded := ss_graph_loaded s;
     ss_graph_error := ss_graph_error s |}.

Definition set_email (e : option string) (s : Session) : Session :=
  {| ss_authenticated := ss_authenticated s; ss_user_type := ss_user_type s;
     ss_email := Some e; ss_chat_history := ss_chat_history s;
     ss_graph := ss_graph s; ss_graph_loaded := ss_graph_loaded s;
     ss_graph_error := ss_graph_error s |}.

Definition set_chat_history (h : list turn) (s : Session) : Session :=
  {| ss_authenticated := ss_authenticated s; ss_user_type := ss_user_type s;
     ss_email := ss_email s; ss_chat_history := Some h;
     ss_graph := ss_graph s; ss_graph_loaded := ss_graph_loaded s;
     ss_graph_error := ss_graph_error s |}.

(** The three keys [init_session] sets around [create_graph()]; [graph] is
    [true] for the compiled graph and [false] for [None]. *)
Definition set_graph (g loaded : bool) (err : option string) (s : Session) : Session :=
  {| ss_authenticated := ss_authenticated s; ss_user_type := ss_user_type s;
     ss_email := ss_email s; ss_chat_history := ss_chat_history s;
     ss_graph := Some g; ss_graph_loaded := Some loaded;
     ss_graph_error := Some err |}.

(** [if "<key>" not in st.session_state: st.session_state.<key> = default] *)
Definition init_key {A} (field : Session -> option A) (set : Session -> Session) : M unit :=
  s <- get_session ;;
  match field s with
  | Some _ => ret tt
  | None => modify_session set
  end.

(** [init_session()] *)
Definition init_session : M unit :=
  init_key ss_authenticated (set_authenticated false) ;;;
  init_key ss_user_type (set_user_type None) ;;;
  init_key ss_email (set_email None) ;;;
  init_key ss_chat_history (set_chat_history []) ;;;
  s <- get_session ;;
  match ss_graph s with
  | Some _ => ret tt
  | None =>
      try_except
        (create_graph ;;; modify_session (set_graph true true None))
        (fun e => modify_session (set_graph false false (Some (exn_msg e))))
  end.

(** The message of [run_query_through_graph] when the graph is missing. *)
Definition initialization_error (s : Session) : string :=
  let error_msg :=
    match ss_graph_error s with
    | Some e => opt_str e
    | None => "Graph is not initialized. Please check backend / database configuration."
    end in
  "⚠️ System initialization error: " ++ error_msg.

(** The state [run_query_through_graph] prepares for the graph. *)
Definition initial_state (query : string) (email : option string)
    (history : list turn) : TelecomAssistantState :=
  {| query := query;
     customer_info := Some [("email", email)];
     classification := Some EmptyString;
     intermediate_responses := Some [];
     final_response := Some EmptyString;
     chat_history := history |}.

(** What [run_query_through_graph] does once the graph is known to be there. *)
Definition run_loaded_graph (query : string) : M string :=
  email <- attr "email" ss_email ;;
  history <- attr "chat_history" ss_chat_history ;;
  try_except
    (result <- invoke workflow (initial_state query email history) ;;
     ret (match final_response result with
          | Some r => r
          | None => "I couldn't generate a response."
          end))
    (fun e => ret ("❌ Error while processing your request (possible DB/agent issue): "
                   ++ exn_msg e)).

(** [run_query_through_graph(query)] *)
Definition run_query_through_graph (query : string) : M string :=
  s <- get_session ;;
  match ss_graph_loaded s with
  | Some true =>
      graph <- attr "graph" ss_graph ;;
      if graph then run_loaded_graph query
      else ret (initialization_error s)
  | _ => ret (initialization_error s)
  end.

(** [sidebar_login()]; the answer says whether [st.rerun()] was called, which
    ends the run of the script. *)
Definition sidebar_login (w : Widgets) : M bool :=
  authenticated <- attr "authenticated" ss_authenticated ;;
  if negb authenticated then
    if w_login w then
      if negb (w_email w =? EmptyString) && PyStr.str_in "@" (w_email w) then
        modify_session (set_authenticated true) ;;;
        modify_session (set_user_type (Some (w_user_type w))) ;;;
        modify_session (set_email (Some (w_email w))) ;;;
        ret true
      else ret false
    else ret false
  else
    _ <- attr "user_type" ss_user_type ;;
    _ <- attr "email" ss_email ;;
    if w_logout w then
      modify_session (set_authenticated false) ;;;
      modify_session (set_user_type None) ;;;
      modify_session (set_email None) ;;;
      modify_session (set_chat_history []) ;;;
      ret true
    else ret false.

(** [st.session_state.chat_history.append({"role": role, "content": content})] *)
Definition append_turn (role content : string) : M unit :=
  history <- attr "chat_history" ss_chat_history ;;
  modify_session (set_chat_history (append history [("role", role); ("content", content)])).

(** [msg[k]] on a turn of the transcript *)
Definition turn_item (k : string) (msg : turn) : result string :=
  match Dict.get k msg with
  | Some v => Ok v
  | None => Raise (Exn "KeyError" (py_repr (VStr k)))
  end.

(** The loop that shows the previous messages. *)
Definition show_turn (msg : turn) : result unit :=
  match turn_item "role" msg with
  | Raise e => Raise e
  | Ok _ =>
      match turn_item "content" msg with
      | Raise e => Raise e
      | Ok _ => Ok tt
      end
  end.

(** [customer_view()]: the chat tab; the other two tabs only draw. *)
Definition customer_view (w : Widgets) : M unit :=
  history <- attr "chat_history" ss_chat_history ;;
  _ <- lift (map_result show_turn history) ;;
  if opt_truthy (w_chat_input w) then
    let prompt := opt_str (w_chat_input w) in
    append_turn "user" prompt ;;;
    response <- run_query_through_graph prompt ;;
    append_turn "assistant" response
  else ret tt.

(** [admin_view()] only draws. *)
Definition admin_view : M unit := ret tt.

(** [main()]; the answer says whether the run ended in [st.rerun()]. *)
Definition main (w : Widgets) : M bool :=
  init_session ;;;
  rerun <- sidebar_login w ;;
  if rerun then ret true else
  authenticated <- attr "authenticated" ss_authenticated ;;
  (if authenticated then
     user_type <- attr "user_type" ss_user_type ;;
     match user_type with
     | Some u => if u =? "Customer" then customer_view w else admin_view
     | None => admin_view
     end
   else ret tt) ;;;
  ret false.

(** The widgets of the run that [st.rerun()] starts: no button is pressed
    and nothing is submitted. *)
Definition rerun_widgets (w : Widgets) : Widgets :=
  {| w_email := w_email w; w_user_type := w_user_type w;
     w_login := false; w_logout := false; w_chat_input := None |}.

(** One interaction with the page: a run of the script and, when it ends in
    [st.rerun()], the run that follows. *)
Definition script_run (w : Widgets) : M unit :=
  rerun <- main w ;;
  if rerun then (main (rerun_widgets w) ;;; ret tt) else ret tt.

End Backend.

(** ** The snapshot builder's queries, table by table and as one search *)

Section Probes.
Context `{W : World}.

(** Every row of the first five has the columns of the first row, as the
    rows of one [sqlite3] cursor do. *)
Definition rectangular (rows : list row) : bool :=
  match rows with
  | [] => true
  | r0 :: _ =>
      forallb (fun r =>
                 forallb (fun col => match Dict.get col r with
                                     | Some _ => true
                                     | None => false
                                     end) (Dict.keys r0))
              (firstn 5 rows)
  end.

(** The store only answers with such rows. *)
Definition rectangular_store : Prop :=
  forall h sql params rows,
    sqlite_execute h sql params = Ok rows -> rectangular rows = true.

(** The filter query of one table and column. *)
Definition filter_event (table : value) (ident col : string) : event :=
  SqlExecute (filter_sql table col) [("val", VStr ident)].

(** The sampling query of one table. *)
Definition sample_event (table : value) : event := SqlExecute (sample_sql table) [].

(** One table: the candidate columns in sequence, up to and including the
    first whose query yields rows; the calls made, and whether one did. *)
Fixpoint column_probe (h : list event) (table : value) (ident : string)
    (cols : list string) : list event * bool :=
  match cols with
  | [] => ([], false)
  | col :: cols' =>
      match sqlite_execute h (filter_sql table col) [("val", VStr ident)] with
      | Ok (_ :: _) => ([filter_event table ident col], true)
      | _ =>
          let rest := column_probe (h ++ [filter_event table ident col])%list
                        table ident cols' in
          (filter_event table ident col :: fst rest, snd rest)
      end
  end.

(** One table, as the amended claim has it: the column search, then the
    sample when no column yielded rows or no identifier was supplied. *)
Definition table_probe (h : list event) (customer_identifier : option string)
    (table : value) : list event :=
  match customer_identifier with
  | Some ident =>
      if opt_truthy customer_identifier then
        let found := column_probe h table ident candidate_columns in
        if snd found then fst found
        else (fst found ++ [sample_event table])%list
      else [sample_event table]
  | None => [sample_event table]
  end.

(** All tables, each on its own, one after the other. *)
Fixpoint tables_probe (h : list event) (customer_identifier : option string)
    (tables : list value) : list event :=
  match tables with
  | [] => []
  | table :: tables' =>
      let calls := table_probe h customer_identifier table in
      (calls ++ tables_probe (h ++ calls) customer_identifier tables')%list
  end.

(** The claim's words, for comparison: one search through the table/column
    combinations that stops at the first one yielding rows. *)
Fixpoint claimed_search (h : list event) (ident : string) (tables : list value)
    : list event * bool :=
  match tables with
  | [] => ([], false)
  | table :: tables' =>
      let found := column_probe h table ident candidate_columns in
      if snd found then (fst found, true)
      else
        let rest := claimed_search (h ++ fst found)%list ident tables' in
        ((fst found ++ fst rest)%list, snd rest)
  end.

(** The claim's words: the search, and the sample of each table only when
    no combination across all tables yielded rows. *)
Definition claimed_probe (h : list event) (ident : string) (tables : list value)
    : list event :=
  let found := claimed_search h ident tables in
  if snd found then fst found
  else (fst found ++ map sample_event tables)%list.

End Probes.

(** ** A concrete world, for running the embedding *)

Module Demo.

Definition str_of_Z (z : Z) : string := NilEmpty.string_of_int (Z.to_int z).

Definition demo_py_str (v : value) : string :=
  match v with
  | VNone => "None"
  | VInt z => str_of_Z z
  | VFloat q => str_of_Z (Qnum q) ++ "/" ++ str_of_Z (Zpos (Qden q))
  | VStr s => s
  | VBytes b => "b'" ++ b ++ "'"
  end.

Definition demo_py_repr (v : value) : string :=
  match v with
  | VStr s => "'" ++ s ++ "'"
  | _ => demo_py_str v
  end.

Definition asha : row :=
  [("customer_id", VStr "CUST001"); ("name", VStr "Asha Rao");
   ("email", VStr "asha@example.com"); ("service_plan_id", VStr "STD_500")].

Definition plan_basic : row :=
  [("plan_id", VStr "BASIC_199"); ("name", VStr "Basic Plan");
   ("monthly_cost", VInt 199); ("data_limit_gb", VInt 2);
   ("unlimited_data", VInt 0); ("voice_minutes", VInt 300);
   ("unlimited_voice", VInt 0); ("sms_count", VInt 100);
   ("unlimited_sms", VInt 0)].

Definition plan_standard : row :=
  [("plan_id", VStr "STD_500"); ("name", VStr "Standard Plan");
   ("monthly_cost", VInt 799); ("data_limit_gb", VInt 5);
   ("unlimited_data", VInt 0); ("voice_minutes", VInt 0);
   ("unlimited_voice", VInt 1); ("sms_count", VInt 0);
   ("unlimited_sms", VInt 1)].

Definition usage_may : row :=
  [("customer_id", VStr "CUST001");
   ("billing_period_start", VStr "2023-05-01");
   ("billing_period_end", VStr "2023-05-31");
   ("data_used_gb", VInt 3); ("voice_minutes_used", VInt 320);
   ("sms_count_used", VInt 45); ("total_bill_amount", VInt 799)].

Definition usage_april : row :=
  [("customer_id", VStr "CUST001");
   ("billing_period_start", VStr "2023-04-01");
   ("billing_period_end", VStr "2023-04-30");
   ("data_used_gb", VInt 4); ("voice_minutes_used", VInt 280);
   ("sms_count_used", VInt 30); ("total_bill_amount", VInt 799)].

Definition table_names : list row :=
  [[("name", VStr "customer_usage")]; [("name", VStr "customers")];
   [("name", VStr "service_plans")]].

Definition no_such_column : exn := Exn "OperationalError" "no such column".

(** The rows of a three-table store with one customer, by statement text. *)
Definition demo_sqlite (h : list event) (sql : string) (params : dict value)
    : result (list row) :=
  let val := row_get "val" params in
  if sql =? "SELECT name FROM sqlite_master WHERE type='table' ORDER BY name"
  then Ok table_names
  else if sql =? "SELECT * FROM service_plans"
  then Ok [plan_basic; plan_standard]
  else if sql =? "SELECT * FROM customers WHERE email = :email LIMIT 1"
  then (if py_eq (row_get "email" params) (VStr "asha@example.com")
        then Ok [asha] else Ok [])
  else if sql =? usage_sql
  then (if py_eq (row_get "cid" params) (VStr "CUST001")
        then Ok [usage_may] else Ok [])
  else if sql =? "SELECT * FROM customers WHERE customer_id = :val LIMIT 5"
  then (if py_eq val (VStr "CUST001") then Ok [asha] else Ok [])
  else if sql =? "SELECT * FROM customers WHERE email = :val LIMIT 5"
  then (if py_eq val (VStr "asha@example.com") then Ok [asha] else Ok [])
  else if sql =? "SELECT * FROM customer_usage WHERE customer_id = :val LIMIT 5"
  then (if py_eq val (VStr "CUST001") then Ok [usage_april; usage_may] else Ok [])
  else if sql =? "SELECT * FROM customers LIMIT 5" then Ok [asha]
  else if sql =? "SELECT * FROM customer_usage LIMIT 5" then Ok [usage_april; usage_may]
  else if sql =? "SELECT * FROM service_plans LIMIT 5" then Ok [plan_basic; plan_standard]
  else Raise no_such_column.

(** A world around that store; the query-engine factory is a parameter. *)
Definition world_with
    (as_query_engine : list event -> index_t -> nat -> result engine_t) : World :=
  {| str_lower := PyStr.ascii_lower;
     py_str := demo_py_str;
     py_repr := demo_py_repr;
     db_path_posix := "/app/data/telecom.db";
     env_OPENAI_API_KEY := Some "sk-demo";
     env_OPENAI_MODEL := None;
     HAS_FAISS := false;
     sqlite_execute := demo_sqlite;
     crew_kickoff := fun _ _ _ _ => Ok "Your May bill is 799.";
     chat_completions_create :=
       fun _ _ _ temperature =>
         if temperature =? "0.2" then Ok "Weak signal near the cell edge."
         else Ok "Please restart your router and move closer to a window.";
     chat_openai_invoke := fun _ _ _ _ => Ok "1. Basic Plan (BASIC_199)";
     faiss_index_build := fun _ => Raise (Exn "RuntimeError" "faiss missing");
     default_index_build := fun _ => Ok (Index 0);
     index_as_query_engine := as_query_engine;
     query_engine_query := fun _ _ _ => Ok "Open Settings and switch on VoLTE.";
     state_graph_compile := fun _ => Ok tt |}.

Definition world : World := world_with (fun _ idx k => Ok (Engine idx k)).

(** The same world, except that [index.as_query_engine] raises. *)
Definition engine_failure : exn := Exn "ValueError" "Unknown retriever mode".

Definition world_without_engine : World :=
  world_with (fun _ _ _ => Raise engine_failure).

(** A page not yet visited, and the process before any call. *)
Definition fresh_session : Session :=
  {| ss_authenticated := None; ss_user_type := None; ss_email := None;
     ss_chat_history := None; ss_graph := None; ss_graph_loaded := None;
     ss_graph_error := None |}.

Definition start : proc :=
  {| trace := []; INDEX := None; session := fresh_session |}.

(** A logged-in customer with one exchange in the transcript. *)
Definition session_of_asha : Session :=
  {| ss_authenticated := Some true; ss_user_type := Some (Some "Customer");
     ss_email := Some (Some "asha@example.com");
     ss_chat_history :=
       Some [[("role", "user"); ("content", "hello")];
             [("role", "assistant"); ("content", "Hi Asha")]];
     ss_graph := Some true; ss_graph_loaded := Some true;
     ss_graph_error := Some None |}.

Definition proc_of_asha : proc :=
  {| trace := []; INDEX := None; session := session_of_asha |}.

Definition request (q : string) (email : option string) : TelecomAssistantState :=
  {| query := q; customer_info := Some [("email", email)];
     classification := Some EmptyString; intermediate_responses := Some [];
     final_response := Some EmptyString; chat_history := [] |}.

End Demo.

(** ** Vocabulary of the properties *)

(** A computation that leaves [st.session_state] as it found it. *)
Definition keeps_session {A} (m : M A) : Prop :=
  forall p, session (fst (m p)) = session p.

(** The transcript of the session; an absent key shows no turn. *)
Definition transcript (p : proc) : list turn :=
  match ss_chat_history (session p) with
  | Some h => h
  | None => []
  end.

(** The user is logged in before the run. *)
Definition logged_in (p : proc) : bool :=
  match ss_authenticated (session p) with
  | Some b => b
  | None => false
  end.

(** The run presses Logout: the button only exists for a logged-in user. *)
Definition logs_out (w : Widgets) (p : proc) : bool := logged_in p && w_logout w.

(** ** Further concrete worlds: one collaborator changed at a time *)

Module Cases.

(** [Demo.world] with the listed settings and collaborators replaced. *)
Definition remake (key : option string) (has_faiss : bool)
    (sqlite : list event -> string -> dict value -> result (list row))
    (chat : list event -> string -> list message -> string -> result string)
    (default_build : list event -> result index_t)
    (compile : list event -> result unit) : World :=
  {| str_lower := @str_lower Demo.world;
     py_str := @py_str Demo.world;
     py_repr := @py_repr Demo.world;
     db_path_posix := @db_path_posix Demo.world;
     env_OPENAI_API_KEY := key;
     env_OPENAI_MODEL := @env_OPENAI_MODEL Demo.world;
     HAS_FAISS := has_faiss;
     sqlite_execute := sqlite;
     crew_kickoff := @crew_kickoff Demo.world;
     chat_completions_create := chat;
     chat_openai_invoke := @chat_openai_invoke Demo.world;
     faiss_index_build := @faiss_index_build Demo.world;
     default_index_build := default_build;
     index_as_query_engine := @index_as_query_engine Demo.world;
     query_engine_query := @query_engine_query Demo.world;
     state_graph_compile := compile |}.

(** No API key in the environment. *)
Definition no_key : World :=
  remake None false (@sqlite_execute Demo.world)
    (@chat_completions_create Demo.world) (@default_index_build Demo.world)
    (@state_graph_compile Demo.world).

(** FAISS is importable, and building the FAISS index fails. *)
Definition faiss_fails : World :=
  remake (Some "sk-demo") true (@sqlite_execute Demo.world)
    (@chat_completions_create Demo.world) (@default_index_build Demo.world)
    (@state_graph_compile Demo.world).

Definition no_documents : exn :=
  Exn "RuntimeError" "No documents found in knowledge base folder".

(** The knowledge base folder is empty: no index can be built. *)
Definition no_index : World :=
  remake (Some "sk-demo") false (@sqlite_execute Demo.world)
    (@chat_completions_create Demo.world) (fun _ => Raise no_documents)
    (@state_graph_compile Demo.world).

Definition cannot_open : exn :=
  Exn "OperationalError" "unable to open database file".

(** The database file cannot be opened. *)
Definition db_down : World :=
  remake (Some "sk-demo") false (fun _ _ _ => Raise cannot_open)
    (@chat_completions_create Demo.world) (@default_index_build Demo.world)
    (@state_graph_compile Demo.world).

Definition rate_limited : exn := Exn "RateLimitError" "Too many requests".

(** The chat completion service refuses every call. *)
Definition model_down : World :=
  remake (Some "sk-demo") false (@sqlite_execute Demo.world)
    (fun _ _ _ _ => Raise rate_limited) (@default_index_build Demo.world)
    (@state_graph_compile Demo.world).

Definition compile_error : exn := Exn "ValueError" "Found edge starting at unknown node".

(** Compiling the workflow graph fails. *)
Definition compile_fails : World :=
  remake (Some "sk-demo") false (@sqlite_execute Demo.world)
    (@chat_completions_create Demo.world) (@default_index_build Demo.world)
    (fun _ => Raise compile_error).

(** The customer's row names a plan that the plan list no longer has. *)
Definition asha_moved : row :=
  [("customer_id", VStr "CUST001"); ("name", VStr "Asha Rao");
   ("email", VStr "asha@example.com"); ("service_plan_id", VStr "GONE_999")].

Definition stale_plan_key (h : list event) (sql : string) (params : dict value)
    : result (list row) :=
  if sql =? customer_sql
  then (if py_eq (row_get "email" params) (VStr "asha@example.com")
        then Ok [asha_moved] else Ok [])
  else Demo.demo_sqlite h sql params.

Definition dangling_plan : World :=
  remake (Some "sk-demo") false stale_plan_key
    (@chat_completions_create Demo.world) (@default_index_build Demo.world)
    (@state_graph_compile Demo.world).

End Cases.

(** ** Vocabulary of the further properties *)

(** A turn of the transcript that the chat tab can show. *)
Definition shown (t : turn) : bool :=
  match Dict.get "role" t, Dict.get "content" t with
  | Some _, Some _ => true
  | _, _ => false
  end.

(** The key under which each label's handler stores its answer. *)
Definition response_keys : list (string * string) :=
  [("billing_account", "crew_ai"); ("network_troubleshooting", "autogen");
   ("service_recommendation", "langchain"); ("knowledge_retrieval", "llamaindex");
   ("fallback", "fallback")].

(** A page whose keys are set, with nobody logged in. *)
Definition logged_out_page : proc :=
  {| trace := []; INDEX := None;
     session := {| ss_authenticated := Some false; ss_user_type := Some None;
                   ss_email := Some None; ss_chat_history := Some [];
                   ss_graph := Some true; ss_graph_loaded := Some true;
                   ss_graph_error := Some None |} |}.

(** Widgets of three runs: a login, a logout, a submitted message. *)
Definition press_login (email : string) : Widgets :=
  {| w_email := email; w_user_type := "Customer";
     w_login := true; w_logout := false; w_chat_input := None |}.

Definition press_logout : Widgets :=
  {| w_email := EmptyString; w_user_type := "Customer";
     w_login := false; w_logout := true; w_chat_input := None |}.

Definition submit (prompt : string) : Widgets :=
  {| w_email := EmptyString; w_user_type := "Customer";
     w_login := false; w_logout := false; w_chat_input := Some prompt |}.

(** A row that has every one of the columns. *)
Definition has_columns (columns : list string) (r : row) : bool :=
  forallb (fun c => match Dict.get c r with Some _ => true | None => false end)
          columns.

(** The columns the plan handler reads of a plan and of a usage record. *)
Definition plan_columns : list string :=
  ["plan_id"; "name"; "monthly_cost"; "unlimited_data"; "data_limit_gb";
   "unlimited_voice"; "voice_minutes"; "unlimited_sms"; "sms_count"].

Definition usage_columns : list string :=
  ["billing_period_start"; "billing_period_end"; "data_used_gb";
   "voice_minutes_used"; "sms_count_used"; "total_bill_amount"].

(** The catalogue line of a plan that has all its columns. *)
Definition allowance_text `{World} (p : row) (flag amount unit_ : string) : string :=
  if truthy (row_get flag p) then "Unlimited" else py_str (row_get amount p) ++ unit_.

Definition catalogue_line `{World} (p : row) : string :=
  "- " ++ py_str (row_get "name" p) ++ " (" ++ py_str (row_get "plan_id" p)
  ++ "): ₹" ++ py_str (row_get "monthly_cost" p) ++ " / month | "
  ++ allowance_text p "unlimited_data" "data_limit_gb" "GB" ++ " | "
  ++ allowance_text p "unlimited_voice" "voice_minutes" " min" ++ " | "
  ++ allowance_text p "unlimited_sms" "sms_count" " SMS".

(** * Part II: properties *)

(** ** Strings and dictionaries *)

Lemma starts_with_spec w q :
  PyStr.starts_with w q = true <-> exists post, q = w ++ post.
Proof.
  revert q; induction w as [|a w IH]; intros q; simpl.
  - split; [intros _; now exists q | reflexivity].
  - destruct q as [|b q]; simpl.
    + split; [discriminate | intros [post H]; discriminate].
    + rewrite andb_true_iff, Ascii.eqb_eq, IH. split.
      * intros [-> [post ->]]. now exists post.
      * intros [post H]. injection H as -> ->.
        split; [reflexivity | now exists post].
Qed.

Lemma str_in_spec w q : PyStr.str_in w q = true <-> PyStr.occurs_in w q.
Proof.
  unfold PyStr.occurs_in. induction q as [|b q IH]; simpl.
  - rewrite orb_false_r, starts_with_spec. split.
    + intros [post H]. now exists EmptyString, post.
    + intros [pre [post H]]. destruct pre; simpl in H.
      * now exists post.
      * discriminate.
  - rewrite orb_true_iff, starts_with_spec, IH. split.
    + intros [[post H] | [pre [post H]]].
      * now exists EmptyString, post.
      * exists (String b pre), post. simpl. now rewrite H.
    + intros [pre [post H]]. destruct pre as [|c pre]; simpl in H.
      * left. now exists post.
      * right. injection H as _ ->. now exists pre, post.
Qed.

Lemma any_in_spec terms q : any_in terms q = true <-> mentions terms q.
Proof.
  unfold any_in, mentions. rewrite existsb_exists.
  split; intros [w [Hin Hw]]; exists w; split; auto; now apply str_in_spec.
Qed.

Lemma any_in_false terms q : any_in terms q = false <-> ~ mentions terms q.
Proof.
  rewrite <- any_in_spec. destruct (any_in terms q); split; congruence.
Qed.

Lemma str_app_assoc (a b c : string) : (a ++ b) ++ c = a ++ b ++ c.
Proof. induction a as [|x a IH]; simpl; [reflexivity | now rewrite IH]. Qed.

Lemma occurs_in_head (w rest : string) : PyStr.occurs_in w (w ++ rest).
Proof. now exists EmptyString, rest. Qed.

Lemma occurs_in_self (w : string) : PyStr.occurs_in w w.
Proof.
  exists EmptyString, EmptyString. simpl.
  induction w as [|x w IH]; simpl; [reflexivity | now rewrite <- IH].
Qed.

Lemma occurs_in_tail (w a q : string) :
  PyStr.occurs_in w q -> PyStr.occurs_in w (a ++ q).
Proof.
  intros [pre [post ->]]. exists (a ++ pre), post. now rewrite str_app_assoc.
Qed.

(** Finds [w] among the pieces of a text written as [a ++ b ++ ...]. *)
Ltac find_occurrence :=
  repeat first [ apply occurs_in_head | apply occurs_in_self | apply occurs_in_tail ].

Section Classifier.
Context `{W : World}.

Lemma classify_in_intent_labels (query_text : string) :
  In (classify query_text) intent_labels.
Proof.
  unfold classify.
  destruct (any_in billing_terms _); [simpl; tauto|].
  destruct (any_in network_terms _); [simpl; tauto|].
  destruct (any_in plan_terms _); [simpl; tauto|].
  destruct (any_in howto_terms _); simpl; tauto.
Qed.

(** C1. [classify] lowercases the query and tests the billing, network, plan
    and how-to keyword sets in that order: the label is that of the first set
    with a keyword occurring in the lowercased query, and [fallback] when no
    set has one (so also for the empty query, whose lowercase is empty). The
    label is always one of the five, and [classify_query] stores it. *)
Theorem classify_first_match (query_text : string) :
  let q := str_lower query_text in
  (mentions billing_terms q -> classify query_text = "billing_account") /\
  (~ mentions billing_terms q -> mentions network_terms q ->
   classify query_text = "network_troubleshooting") /\
  (~ mentions billing_terms q -> ~ mentions network_terms q ->
   mentions plan_terms q -> classify query_text = "service_recommendation") /\
  (~ mentions billing_terms q -> ~ mentions network_terms q ->
   ~ mentions plan_terms q -> mentions howto_terms q ->
   classify query_text = "knowledge_retrieval") /\
  (~ mentions billing_terms q -> ~ mentions network_terms q ->
   ~ mentions plan_terms q -> ~ mentions howto_terms q ->
   classify query_text = "fallback") /\
  (str_lower EmptyString = EmptyString -> classify EmptyString = "fallback") /\
  In (classify query_text) intent_labels /\
  (forall state, classification (classify_query state) = Some (classify (query state))).
Proof.
  cbv zeta. unfold classify.
  repeat split.
  - intros Hb. apply any_in_spec in Hb. now rewrite Hb.
  - intros Hb Hn. apply any_in_false in Hb. apply any_in_spec in Hn.
    now rewrite Hb, Hn.
  - intros Hb Hn Hp. apply any_in_false in Hb, Hn. apply any_in_spec in Hp.
    now rewrite Hb, Hn, Hp.
  - intros Hb Hn Hp Hh. apply any_in_false in Hb, Hn, Hp. apply any_in_spec in Hh.
    now rewrite Hb, Hn, Hp, Hh.
  - intros Hb Hn Hp Hh. apply any_in_false in Hb, Hn, Hp, Hh.
    now rewrite Hb, Hn, Hp, Hh.
  - intros ->. reflexivity.
  - apply classify_in_intent_labels.
Qed.

End Classifier.

(** The classifier on the queries of the end-to-end scenarios, on a query
    that mentions both a billing and a network keyword, and on the empty
    query, in the concrete world (ASCII lowercasing). *)
Example classify_bill :
  @classify Demo.world "What is my current bill?" = "billing_account".
Proof. reflexivity. Qed.

Example classify_slow_internet :
  @classify Demo.world "My internet is slow" = "network_troubleshooting".
Proof. reflexivity. Qed.

Example classify_cheaper_plan :
  @classify Demo.world "Recommend me a cheaper plan" = "service_recommendation".
Proof. reflexivity. Qed.

Example classify_volte :
  @classify Demo.world "How do I enable VoLTE?" = "knowledge_retrieval".
Proof. reflexivity. Qed.

Example classify_billing_before_network :
  @classify Demo.world "Why was I CHARGED for mobile data?" = "billing_account".
Proof. reflexivity. Qed.

Example classify_empty : @classify Demo.world EmptyString = "fallback".
Proof. reflexivity. Qed.

(** ** The router *)

Lemma route_in_handler_nodes (cls : string) : In (route cls) handler_nodes.
Proof.
  unfold route, handler_nodes.
  repeat match goal with
         | |- context [if ?b then _ else _] => destruct b
         end; simpl; tauto.
Qed.

(** C4. [route] is a function defined on every label; on the five intent
    labels, which are all that [classify] produces, it answers with one of
    the five handler nodes, and with a different one for each label.
    [route_query] is [route] on the label stored in the state. *)
Theorem route_total_injective :
  (forall cls, In (route cls) handler_nodes) /\
  (forall l1 l2, In l1 intent_labels -> In l2 intent_labels ->
                 route l1 = route l2 -> l1 = l2) /\
  map route intent_labels = handler_nodes /\
  NoDup handler_nodes /\
  (forall (W : World) query_text, In (classify query_text) intent_labels) /\
  (forall state cls, classification state = Some cls ->
                     route_query state = route cls).
Proof.
  split; [exact route_in_handler_nodes|].
  split.
  { intros l1 l2 H1 H2.
    simpl in H1, H2.
    repeat match goal with
           | H : _ \/ _ |- _ => destruct H as [H|H]
           | H : False |- _ => destruct H
           end; subst; simpl; intros E; try reflexivity; discriminate E. }
  split; [reflexivity|].
  split.
  { unfold handler_nodes.
    repeat (constructor; [simpl; intros H;
                          repeat (destruct H as [H|H]; [discriminate H|]);
                          exact H|]).
    constructor. }
  split.
  { intros W q. apply classify_in_intent_labels. }
  intros state cls H. unfold route_query. now rewrite H.
Qed.

(** ** The aggregator *)

Lemma set_keeps_head {V} (k : string) (v : V) k0 v0 (rest : dict V) :
  exists v' rest',
    Dict.set k v ((k0, v0) :: rest) = (k0, v') :: rest' /\
    (k0 <> k -> v' = v0).
Proof.
  simpl. destruct (k0 =? k) eqn:E.
  - exists v, rest. split; [reflexivity|].
    intros Hne. apply String.eqb_eq in E. contradiction.
  - exists v0, (Dict.set k v rest). split; auto.
Qed.

Lemma inserts_keep_head {V} (kvs : list (string * V)) k0 v0 (rest : dict V) :
  exists v' rest',
    fold_left (fun d kv => Dict.set (fst kv) (snd kv) d) kvs ((k0, v0) :: rest)
    = (k0, v') :: rest' /\
    (~ In k0 (map fst kvs) -> v' = v0).
Proof.
  revert v0 rest. induction kvs as [|[k v] kvs IH]; intros v0 rest.
  - exists v0, rest. split; auto.
  - cbn [fold_left fst snd].
    destruct (set_keeps_head k v k0 v0 rest) as [v1 [rest1 [E1 Hv1]]].
    rewrite E1.
    destruct (IH v1 rest1) as [v2 [rest2 [E2 Hv2]]].
    exists v2, rest2. split; [exact E2|].
    intros Hnot. simpl in Hnot.
    rewrite Hv2 by tauto. apply Hv1. intros ->. tauto.
Qed.

(** C5. [aggregate] of the empty mapping is the fixed message; of a mapping
    with at least one entry it is the value of the first entry, which is the
    entry of the key inserted first; there is no third behaviour, and
    [formulate_response] stores that text as the final response. *)
Theorem aggregate_first_or_fixed :
  aggregate [] = "Something went wrong while generating a response." /\
  (forall k v rest, aggregate ((k, v) :: rest) = v) /\
  aggregate [("x", "A")] = "A" /\
  (forall k0 v0 later,
      Dict.keys (Dict.of_inserts ((k0, v0) :: later)) <> [] /\
      hd_error (Dict.keys (Dict.of_inserts ((k0, v0) :: later))) = Some k0 /\
      Dict.get k0 (Dict.of_inserts ((k0, v0) :: later))
      = Some (aggregate (Dict.of_inserts ((k0, v0) :: later))) /\
      (~ In k0 (map fst later) ->
       aggregate (Dict.of_inserts ((k0, v0) :: later)) = v0)) /\
  (forall responses,
      (responses = [] /\ aggregate responses = something_went_wrong) \/
      (exists k v rest, responses = (k, v) :: rest /\ aggregate responses = v)) /\
  (forall state,
      final_response (formulate_response state)
      = Some (aggregate (match intermediate_responses state with
                         | Some r => r
                         | None => []
                         end))).
Proof.
  repeat split.
  - unfold Dict.of_inserts. cbn [fold_left fst snd Dict.set].
    destruct (inserts_keep_head later k0 v0 []) as [v' [rest' [E _]]].
    rewrite E. discriminate.
  - unfold Dict.of_inserts. cbn [fold_left fst snd Dict.set].
    destruct (inserts_keep_head later k0 v0 []) as [v' [rest' [E _]]].
    now rewrite E.
  - unfold Dict.of_inserts. cbn [fold_left fst snd Dict.set].
    destruct (inserts_keep_head later k0 v0 []) as [v' [rest' [E _]]].
    rewrite E. simpl. now rewrite String.eqb_refl.
  - intros Hnot. unfold Dict.of_inserts. cbn [fold_left fst snd Dict.set].
    destruct (inserts_keep_head later k0 v0 []) as [v' [rest' [E Hv]]].
    rewrite E. simpl. auto.
  - intros [|[k v] rest]; [left; split; reflexivity|].
    right. now exists k, v, rest.
Qed.

(** ** The workflow graph *)

Section Graph.
Context `{W : World}.

Lemma workflow_nodes :
  sg_nodes workflow =
  [("classify_query", fun st => ret (classify_query st));
   ("crew_ai_node", crew_ai_node);
   ("autogen_node", autogen_node);
   ("langchain_node", langchain_node);
   ("llamaindex_node", llamaindex_node);
   ("fallback_handler", fun st => ret (fallback_handler st));
   ("formulate_response", fun st => ret (formulate_response st))].
Proof. reflexivity. Qed.

Lemma workflow_edges :
  sg_edges workflow =
  [("crew_ai_node", "formulate_response");
   ("autogen_node", "formulate_response");
   ("langchain_node", "formulate_response");
   ("llamaindex_node", "formulate_response");
   ("fallback_handler", "formulate_response");
   ("formulate_response", END)].
Proof. reflexivity. Qed.

Lemma workflow_branches :
  sg_branches workflow =
  [("classify_query",
    (route_query,
     [("crew_ai_node", "crew_ai_node");
      ("autogen_node", "autogen_node");
      ("langchain_node", "langchain_node");
      ("llamaindex_node", "llamaindex_node");
      ("fallback_handler", "fallback_handler")]))].
Proof. reflexivity. Qed.

Lemma workflow_entry : sg_entry workflow = Some "classify_query".
Proof. reflexivity. Qed.

(** The node registered under a handler name. *)
Lemma handler_registered (h : string) :
  In h handler_nodes -> exists f : node_fn, Dict.get h (sg_nodes workflow) = Some f.
Proof.
  rewrite workflow_nodes. unfold handler_nodes. simpl.
  intros [<-|[<-|[<-|[<-|[<-|[]]]]]]; simpl; eauto.
Qed.

Lemma run_from_unfold (g : StateGraph) (n : nat) (node : string)
    (st : TelecomAssistantState) :
  run_from g (S n) node st =
  if node =? END then ret st else
  match Dict.get node (sg_nodes g) with
  | None => raise (Exn "KeyError" (py_repr (VStr node)))
  | Some f =>
      (state' <- f st ;;
       target <- lift (next_node g node state') ;;
       run_from g n target state')
  end.
Proof. reflexivity. Qed.

(** A handler is followed by [formulate_response] and then by the end. *)
Lemma run_from_handler (h : string) (f : node_fn) (n : nat)
    (st : TelecomAssistantState) (p : proc) :
  In h handler_nodes ->
  Dict.get h (sg_nodes workflow) = Some f ->
  run_from workflow (S (S n)) h st p
  = (st1 <- f st ;; ret (formulate_response st1)) p.
Proof.
  intros Hin Hf.
  assert (Hend : (h =? END) = false).
  { unfold handler_nodes in Hin. simpl in Hin.
    destruct Hin as [<-|[<-|[<-|[<-|[<-|[]]]]]]; reflexivity. }
  assert (Hnext : forall st', next_node workflow h st' = Ok "formulate_response").
  { intros st'. unfold next_node. rewrite workflow_branches, workflow_edges.
    unfold handler_nodes in Hin. simpl in Hin.
    destruct Hin as [<-|[<-|[<-|[<-|[<-|[]]]]]]; reflexivity. }
  cbn [run_from]. rewrite Hend, Hf. unfold bind, lift, ret.
  destruct (f st p) as [p1 [st1|e]]; [|reflexivity].
  rewrite Hnext.
  replace ("formulate_response" =? END) with false by reflexivity.
  rewrite workflow_nodes. cbn [Dict.get].
  replace ("formulate_response" =? "formulate_response") with true by reflexivity.
  repeat match goal with
         | |- context [?a =? "formulate_response"] =>
             replace (a =? "formulate_response") with false by reflexivity
         end.
  unfold next_node. rewrite workflow_branches, workflow_edges.
  cbn [Dict.get].
  replace ("classify_query" =? "formulate_response") with false by reflexivity.
  repeat match goal with
         | |- context [?a =? "formulate_response"] =>
             first [ replace (a =? "formulate_response") with false by reflexivity
                   | replace (a =? "formulate_response") with true by reflexivity ]
         end.
  destruct n; reflexivity.
Qed.

(** The whole run: classify, the one routed handler, the aggregator. *)
Lemma invoke_workflow (st : TelecomAssistantState) (p : proc) :
  exists handler : node_fn,
    Dict.get (route_query (classify_query st)) (sg_nodes workflow) = Some handler /\
    invoke workflow st p
    = (st1 <- handler (classify_query st) ;; ret (formulate_response st1)) p.
Proof.
  destruct (handler_registered (route_query (classify_query st))) as [f Hf].
  { unfold route_query. apply route_in_handler_nodes. }
  exists f. split; [exact Hf|].
  unfold invoke. rewrite workflow_entry. unfold recursion_limit.
  rewrite (run_from_unfold workflow 24).
  replace ("classify_query" =? END) with false by reflexivity.
  rewrite workflow_nodes. cbn [Dict.get].
  replace ("classify_query" =? "classify_query") with true by reflexivity.
  unfold bind at 1. unfold ret at 1. unfold bind at 1. unfold lift at 1.
  assert (Hnext : next_node workflow "classify_query" (classify_query st)
                  = Ok (route_query (classify_query st))).
  { unfold next_node. rewrite workflow_branches. cbn [Dict.get].
    replace ("classify_query" =? "classify_query") with true by reflexivity.
    generalize (route_in_handler_nodes
                  (match classification (classify_query st) with
                   | Some cls => cls
                   | None => "fallback"
                   end)).
    fold (route_query (classify_query st)).
    generalize (route_query (classify_query st)). intros h Hin.
    unfold handler_nodes in Hin. simpl in Hin.
    destruct Hin as [<-|[<-|[<-|[<-|[<-|[]]]]]]; reflexivity. }
  rewrite Hnext.
  apply run_from_handler; [|exact Hf].
  unfold route_query. apply route_in_handler_nodes.
Qed.

End Graph.

(** ** Handlers: what reaches [intermediate_responses] *)

Section Handlers.
Context `{W : World}.

(** A [try] whose handler returns a text always returns. *)
Lemma try_except_text {A} (body : M A) (text_of : exn -> A) (p : proc) :
  exists p' a,
    try_except body (fun e => ret (text_of e)) p = (p', Ok a) /\
    (forall q e, body p = (q, Raise e) -> p' = q /\ a = text_of e) /\
    (forall q b, body p = (q, Ok b) -> p' = q /\ a = b).
Proof.
  unfold try_except, ret. destruct (body p) as [q [b|e]].
  - exists q, b. repeat split; congruence.
  - exists q, (text_of e). repeat split; congruence.
Qed.

(** The three nodes that wrap their agent in a [try] return on every input,
    and answer an exception of the agent with the apology followed by the
    exception's type name and message. *)
Lemma guarded_nodes_return (st : TelecomAssistantState) (p : proc) :
  (exists p' answer,
      crew_ai_node st p
      = (p', Ok (with_intermediate_responses [("crew_ai", answer)] st)) /\
      forall q e,
        process_billing_query (customer_identifier_of st) (query st) p = (q, Raise e) ->
        answer = technical_details
                   "Sorry, I ran into a problem while analyzing your billing question." e) /\
  (exists p' answer,
      autogen_node st p
      = (p', Ok (with_intermediate_responses [("autogen", answer)] st)) /\
      forall q e,
        process_network_query (query st) (customer_identifier_of st) p = (q, Raise e) ->
        answer = technical_details
                   "Sorry, I ran into a problem while diagnosing your network issue." e) /\
  (exists p' answer,
      langchain_node st p
      = (p', Ok (with_intermediate_responses [("langchain", answer)] st)) /\
      forall q e,
        recommend_personalized_plan (info_get "email" (customer_info_of st)) (query st) p
        = (q, Raise e) ->
        answer = technical_details
                   "Sorry, I had trouble generating a plan recommendation." e).
Proof.
  repeat split.
  - unfold crew_ai_node, bind.
    destruct (try_except_text
                (process_billing_query (customer_identifier_of st) (query st))
                (technical_details
                   "Sorry, I ran into a problem while analyzing your billing question.") p)
      as [p' [a [E [Hr _]]]].
    rewrite E. exists p', a. split; [reflexivity|].
    intros q e H. now apply (Hr q e).
  - unfold autogen_node, bind.
    destruct (try_except_text
                (process_network_query (query st) (customer_identifier_of st))
                (technical_details
                   "Sorry, I ran into a problem while diagnosing your network issue.") p)
      as [p' [a [E [Hr _]]]].
    rewrite E. exists p', a. split; [reflexivity|].
    intros q e H. now apply (Hr q e).
  - unfold langchain_node, bind.
    destruct (try_except_text
                (recommend_personalized_plan
                   (info_get "email" (customer_info_of st)) (query st))
                (technical_details
                   "Sorry, I had trouble generating a plan recommendation.") p)
      as [p' [a [E [Hr _]]]].
    rewrite E. exists p', a. split; [reflexivity|].
    intros q e H. now apply (Hr q e).
Qed.

(** [process_network_query] catches everything itself. *)
Lemma process_network_query_returns (q : string) (ident : option string) (p : proc) :
  exists p' answer, process_network_query q ident p = (p', Ok answer).
Proof.
  unfold process_network_query.
  destruct (try_except_text
              (diagnostics <- _diagnostics_agent q ident ;;
               resolution <- _resolution_agent diagnostics ;;
               ret (network_final_response diagnostics resolution))
              (fun e => "Network troubleshooting failed: " ++ exn_text e) p)
    as [p' [a [E _]]].
  exists p', a. exact E.
Qed.

(** Whatever a handler node returns is its input state with
    [intermediate_responses] replaced by a one-key mapping. *)
Lemma handler_single_response (h : string) (f : node_fn) :
  In h handler_nodes ->
  Dict.get h (sg_nodes workflow) = Some f ->
  forall s q q' st1,
    f s q = (q', Ok st1) ->
    exists k v, st1 = with_intermediate_responses [(k, v)] s.
Proof.
  intros Hin Hf s q q' st1 Hrun.
  rewrite workflow_nodes in Hf. unfold handler_nodes in Hin. simpl in Hin.
  destruct Hin as [<-|[<-|[<-|[<-|[<-|[]]]]]]; simpl in Hf;
    injection Hf as <-.
  - destruct (guarded_nodes_return s q) as [[p' [a [E _]]] _].
    rewrite E in Hrun. injection Hrun as _ <-. now exists "crew_ai", a.
  - destruct (guarded_nodes_return s q) as [_ [[p' [a [E _]]] _]].
    rewrite E in Hrun. injection Hrun as _ <-. now exists "autogen", a.
  - destruct (guarded_nodes_return s q) as [_ [_ [p' [a [E _]]]]].
    rewrite E in Hrun. injection Hrun as _ <-. now exists "langchain", a.
  - unfold llamaindex_node, bind in Hrun.
    destruct (answer_knowledge_query _ _ q) as [q1 [a|e]]; [|discriminate].
    injection Hrun as _ <-. now exists "llamaindex", a.
  - injection Hrun as _ <-. now exists "fallback", fallback_text.
Qed.

(** A request through the graph returns the transcript it was given. *)
Lemma invoke_keeps_chat_history (st st' : TelecomAssistantState) (p p' : proc) :
  invoke workflow st p = (p', Ok st') -> chat_history st' = chat_history st.
Proof.
  destruct (invoke_workflow st p) as [f [Hf ->]].
  assert (Hin : In (route_query (classify_query st)) handler_nodes)
    by (unfold route_query; apply route_in_handler_nodes).
  unfold bind, ret.
  destruct (f (classify_query st) p) as [p1 [st1|e]] eqn:E; [|discriminate].
  intros H. injection H as _ <-.
  destruct (handler_single_response _ f Hin Hf _ _ _ _ E) as [k [v ->]].
  reflexivity.
Qed.

(** C3. In every request the router's answer names a registered handler
    node; the run is that one handler on the classified state followed by the
    aggregator; and whenever the handler has returned, the mapping
    [intermediate_responses] holds exactly one key, so at most one, which the
    aggregator leaves as it is. *)
Theorem one_handler_one_response (st : TelecomAssistantState) (p : proc) :
  exists handler : node_fn,
    In (route_query (classify_query st)) handler_nodes /\
    Dict.get (route_query (classify_query st)) (sg_nodes workflow) = Some handler /\
    invoke workflow st p
    = (st1 <- handler (classify_query st) ;; ret (formulate_response st1)) p /\
    (forall s q q' st1,
        handler s q = (q', Ok st1) ->
        exists r,
          intermediate_responses st1 = Some r /\
          (length (Dict.keys r) <= 1)%nat /\
          (exists k v, r = [(k, v)]) /\
          intermediate_responses (formulate_response st1) = Some r).
Proof.
  destruct (invoke_workflow st p) as [f [Hf Hrun]].
  assert (Hin : In (route_query (classify_query st)) handler_nodes)
    by (unfold route_query; apply route_in_handler_nodes).
  exists f. repeat split; auto.
  intros s q q' st1 H.
  destruct (handler_single_response _ f Hin Hf s q q' st1 H) as [k [v ->]].
  exists [(k, v)]. split; [reflexivity|].
  split; [simpl; lia|].
  split; [now exists k, v | reflexivity].
Qed.

(** A request classified [fallback] runs no call and returns the fixed text. *)
Lemma invoke_fallback (st : TelecomAssistantState) (p : proc) :
  classify (query st) = "fallback" ->
  invoke workflow st p
  = (p, Ok (formulate_response (fallback_handler (classify_query st)))).
Proof.
  intros Hcls.
  destruct (invoke_workflow st p) as [f [Hf Hrun]].
  rewrite Hrun. clear Hrun.
  assert (Hroute : route_query (classify_query st) = "fallback_handler").
  { unfold route_query, classify_query. simpl. now rewrite Hcls. }
  rewrite Hroute, workflow_nodes in Hf. simpl in Hf. injection Hf as <-.
  reflexivity.
Qed.

End Handlers.

(** C10. Two requests classified [fallback], whatever their queries,
    customers, transcripts, process states and even worlds, both end with the
    same final response, the fixed help text, and neither makes a call:
    their runs return the process state they started from. *)
Theorem fallback_response_is_fixed (W1 W2 : World)
    (st1 st2 : TelecomAssistantState) (p1 p2 : proc) :
  @classify W1 (query st1) = "fallback" ->
  @classify W2 (query st2) = "fallback" ->
  exists r1 r2,
    @invoke W1 (@workflow W1) st1 p1 = (p1, Ok r1) /\
    @invoke W2 (@workflow W2) st2 p2 = (p2, Ok r2) /\
    final_response r1 = Some fallback_text /\
    final_response r2 = final_response r1 /\
    intermediate_responses r1 = Some [("fallback", fallback_text)] /\
    intermediate_responses r2 = intermediate_responses r1.
Proof.
  intros H1 H2.
  exists (formulate_response (fallback_handler (@classify_query W1 st1))),
         (formulate_response (fallback_handler (@classify_query W2 st2))).
  rewrite (@invoke_fallback W1 st1 p1 H1), (@invoke_fallback W2 st2 p2 H2).
  repeat split.
Qed.

Lemma fallback_response_is_fixed_witness :
  exists r1 r2,
    @invoke Demo.world (@workflow Demo.world)
            (Demo.request "hello" (Some "asha@example.com")) Demo.start
    = (Demo.start, Ok r1) /\
    @invoke Demo.world_without_engine (@workflow Demo.world_without_engine)
            (Demo.request EmptyString None) Demo.proc_of_asha
    = (Demo.proc_of_asha, Ok r2) /\
    final_response r1 = Some fallback_text /\
    final_response r2 = final_response r1 /\
    intermediate_responses r1 = Some [("fallback", fallback_text)] /\
    intermediate_responses r2 = intermediate_responses r1.
Proof.
  apply (fallback_response_is_fixed Demo.world Demo.world_without_engine
           (Demo.request "hello" (Some "asha@example.com"))
           (Demo.request EmptyString None)
           Demo.start Demo.proc_of_asha); reflexivity.
Defined.

(** ** The knowledge node *)

(** C2. The knowledge node does not keep an exception of
    [index.as_query_engine] inside: on a how-to question, in a world where
    that call raises [ValueError], [llamaindex_node] raises it, [invoke]
    raises it, and only [run_query_through_graph] turns it into a text, one
    that carries the message without the type name. *)
Theorem llamaindex_node_raises :
  let W := Demo.world_without_engine in
  let st := Demo.request "How do I enable VoLTE?" (Some "asha@example.com") in
  @route_query (@classify_query W st) = "llamaindex_node" /\
  @llamaindex_node W (@classify_query W st) Demo.proc_of_asha
  = ({| trace := [BuildIndexDefault; AsQueryEngine (Index 0) 3];
        INDEX := Some (Index 0);
        session := Demo.session_of_asha |},
     Raise (Exn "ValueError" "Unknown retriever mode")) /\
  snd (@invoke W (@workflow W) st Demo.proc_of_asha)
  = Raise (Exn "ValueError" "Unknown retriever mode") /\
  snd (@run_query_through_graph W "How do I enable VoLTE?" Demo.proc_of_asha)
  = Ok ("❌ Error while processing your request (possible DB/agent issue): "
        ++ "Unknown retriever mode").
Proof. cbv zeta. repeat split; vm_compute; reflexivity. Qed.

(** ** The network handler *)

Section Network.
Context `{W : World}.

(** C8. When the key is set and both model calls answer, the network handler
    makes exactly two calls, the diagnostic pass and then the rewrite pass
    whose user message carries the diagnostic pass's output, and returns the
    internal-diagnostics heading and text followed by the final-explanation
    heading and text. *)
Theorem network_two_chained_calls (query_text : string) (ident : option string)
    (p : proc) (key diagnostics resolution : string) :
  let m1 := [("system", diagnostics_system_prompt);
             ("user", diagnostics_message query_text ident)] in
  let e1 := ChatCompletionsCreate get_openai_model m1 "0.2" in
  let m2 := [("system", resolution_system_prompt);
             ("user", resolution_message diagnostics)] in
  let e2 := ChatCompletionsCreate get_openai_model m2 "0.4" in
  env_OPENAI_API_KEY = Some key ->
  key <> EmptyString ->
  chat_completions_create (trace p) get_openai_model m1 "0.2" = Ok diagnostics ->
  chat_completions_create (trace p ++ [e1])%list get_openai_model m2 "0.4"
  = Ok resolution ->
  exists p',
    process_network_query query_text ident p
    = (p', Ok (network_final_response diagnostics resolution)) /\
    trace p' = (trace p ++ [e1; e2])%list /\
    PyStr.occurs_in diagnostics (resolution_message diagnostics) /\
    network_final_response diagnostics resolution
    = "### Network Diagnostics (Internal)" ++ PyStr.nl ++ diagnostics
      ++ PyStr.nl ++ PyStr.nl ++ "### Final Explanation" ++ PyStr.nl ++ resolution.
Proof.
  cbv zeta. intros Hkey Hne H1 H2.
  assert (Hclient : forall q, _build_client q = (q, Ok key)).
  { intros q. unfold _build_client, get_openai_api_key. rewrite Hkey.
    destruct (key =? EmptyString) eqn:E; [|reflexivity].
    apply String.eqb_eq in E. contradiction. }
  eexists. split; [|split; [|split]].
  - unfold process_network_query, try_except, bind,
      _diagnostics_agent, _resolution_agent, bind, extern.
    rewrite Hclient, H1, Hclient. cbn [trace log_event].
    rewrite H2. reflexivity.
  - cbn [trace log_event]. rewrite <- app_assoc. reflexivity.
  - exists ("Here is the technical diagnostics summary from the engineering system:"
            ++ PyStr.nl ++ PyStr.nl).
    exists (PyStr.nl ++ PyStr.nl ++
            "Convert this into a helpful customer-facing explanation with steps.").
    reflexivity.
  - reflexivity.
Qed.

End Network.

Lemma network_two_chained_calls_witness :
  exists p',
    @process_network_query Demo.world "My internet is slow"
      (Some "asha@example.com") Demo.start
    = (p', Ok (network_final_response
                 "Weak signal near the cell edge."
                 "Please restart your router and move closer to a window.")) /\
    trace p'
    = (trace Demo.start ++
       [ChatCompletionsCreate (@get_openai_model Demo.world)
          [("system", diagnostics_system_prompt);
           ("user", diagnostics_message "My internet is slow"
                      (Some "asha@example.com"))] "0.2";
        ChatCompletionsCreate (@get_openai_model Demo.world)
          [("system", resolution_system_prompt);
           ("user", resolution_message "Weak signal near the cell edge.")] "0.4"])%list /\
    PyStr.occurs_in "Weak signal near the cell edge."
      (resolution_message "Weak signal near the cell edge.") /\
    network_final_response "Weak signal near the cell edge."
      "Please restart your router and move closer to a window."
    = "### Network Diagnostics (Internal)" ++ PyStr.nl
      ++ "Weak signal near the cell edge."
      ++ PyStr.nl ++ PyStr.nl ++ "### Final Explanation" ++ PyStr.nl
      ++ "Please restart your router and move closer to a window.".
Proof.
  apply (@network_two_chained_calls Demo.world "My internet is slow"
           (Some "asha@example.com") Demo.start "sk-demo").
  - reflexivity.
  - discriminate.
  - reflexivity.
  - reflexivity.
Defined.

(** ** The session is not touched by the backend *)

Section KeepsSession.
Context `{W : World}.

Lemma keeps_ret {A} (a : A) : keeps_session (ret a).
Proof. intros p. reflexivity. Qed.

Lemma keeps_raise {A} (e : exn) : keeps_session (@raise A e).
Proof. intros p. reflexivity. Qed.

Lemma keeps_lift {A} (r : result A) : keeps_session (lift r).
Proof. intros p. reflexivity. Qed.

Lemma keeps_extern {A} (ev : event) (answer : list event -> result A) :
  keeps_session (extern ev answer).
Proof. intros p. reflexivity. Qed.

Lemma keeps_bind {A B} (m : M A) (k : A -> M B) :
  keeps_session m -> (forall a, keeps_session (k a)) -> keeps_session (bind m k).
Proof.
  intros Hm Hk p. unfold bind. specialize (Hm p).
  destruct (m p) as [p1 [a|e]]; simpl in *.
  - rewrite (Hk a p1). exact Hm.
  - exact Hm.
Qed.

Lemma keeps_try {A} (body : M A) (handler : exn -> M A) :
  keeps_session body -> (forall e, keeps_session (handler e)) ->
  keeps_session (try_except body handler).
Proof.
  intros Hm Hk p. unfold try_except. specialize (Hm p).
  destruct (body p) as [p1 [a|e]]; simpl in *.
  - exact Hm.
  - rewrite (Hk e p1). exact Hm.
Qed.

Lemma keeps_run_query (sql : string) (params : option (dict value)) :
  keeps_session (run_query sql params).
Proof. apply keeps_extern. Qed.

Ltac keeps :=
  repeat first
    [ apply keeps_ret | apply keeps_raise | apply keeps_lift
    | apply keeps_extern | apply keeps_run_query
    | apply keeps_bind; [|intros]
    | apply keeps_try; [|intros]
    | assumption
    | match goal with
      | |- keeps_session (if ?b then _ else _) => destruct b
      | |- keeps_session (match ?x with _ => _ end) => destruct x
      end ].

Lemma keeps_get_tables : keeps_session get_tables.
Proof. unfold get_tables. keeps. Qed.

Lemma keeps_try_columns table ident cols lines filtered :
  keeps_session (try_columns table ident cols lines filtered).
Proof.
  revert lines filtered. induction cols as [|col cols IH]; intros lines filtered p.
  - reflexivity.
  - cbn [try_columns].
    pose proof (keeps_run_query (filter_sql table col)
                  (Some [("val", VStr ident)]) p) as Hq.
    destruct (run_query _ _ p) as [p1 [[|r rows]|e]]; simpl in Hq.
    + now rewrite IH.
    + destruct (_format_rows (r :: rows)); [exact Hq | now rewrite IH].
    + now rewrite IH.
Qed.

Lemma keeps_sample_table table lines : keeps_session (sample_table table lines).
Proof.
  intros p. unfold sample_table.
  pose proof (keeps_run_query (sample_sql table) None p) as Hq.
  destruct (run_query _ _ p) as [p1 [rows|e]]; simpl in Hq; [|exact Hq].
  destruct (_format_rows rows); exact Hq.
Qed.

Lemma keeps_snapshot_table ident table lines :
  keeps_session (snapshot_table ident table lines).
Proof.
  unfold snapshot_table. apply keeps_bind.
  - destruct ident; [destruct (opt_truthy _)|]; try apply keeps_ret.
    apply keeps_try_columns.
  - intros found.
    destruct (snd found); [apply keeps_sample_table | apply keeps_ret].
Qed.

Lemma keeps_snapshot_tables ident tables lines :
  keeps_session (snapshot_tables ident tables lines).
Proof.
  revert lines. induction tables as [|t tables IH]; intros lines.
  - apply keeps_ret.
  - cbn [snapshot_tables].
    apply keeps_bind; [apply keeps_snapshot_table | intros; apply IH].
Qed.

Lemma keeps_build_db_snapshot ident : keeps_session (_build_db_snapshot ident).
Proof.
  intros p. unfold _build_db_snapshot.
  pose proof (keeps_get_tables p) as Hq.
  destruct (get_tables p) as [p1 [[|t tables]|e]]; simpl in Hq; try exact Hq.
  rewrite <- Hq.
  apply (keeps_bind (snapshot_tables ident (t :: tables) _) _).
  - apply keeps_snapshot_tables.
  - intros. apply keeps_ret.
Qed.

Lemma keeps_process_billing_query ident q :
  keeps_session (process_billing_query ident q).
Proof.
  unfold process_billing_query, create_billing_crew, billing_build_llm.
  apply keeps_bind; [apply keeps_build_db_snapshot|intros]. keeps.
Qed.

Lemma keeps_process_network_query q ident :
  keeps_session (process_network_query q ident).
Proof.
  unfold process_network_query, _diagnostics_agent, _resolution_agent, _build_client.
  keeps.
Qed.

Lemma keeps_load_customer_profile email :
  keeps_session (_load_customer_profile email).
Proof.
  unfold _load_customer_profile.
  apply keeps_bind; [apply keeps_get_tables|intros tables].
  keeps.
Qed.

Lemma keeps_recommend_personalized_plan email q :
  keeps_session (recommend_personalized_plan email q).
Proof.
  unfold recommend_personalized_plan, service_build_llm.
  apply keeps_bind; [apply keeps_load_customer_profile|intros]. keeps.
Qed.

Lemma keeps_get_proc : keeps_session get_proc.
Proof. intros p. reflexivity. Qed.

Lemma keeps_store_index (index : index_t) :
  keeps_session (p' <- get_proc ;; put_proc (set_INDEX (Some index) p') ;;; ret index).
Proof. intros p. reflexivity. Qed.

Lemma keeps_get_index : keeps_session _get_index.
Proof.
  unfold _get_index. apply keeps_bind; [apply keeps_get_proc|intros p0].
  destruct (INDEX p0); [apply keeps_ret|].
  apply keeps_bind; [unfold _init_llama_settings; keeps|intros _].
  apply keeps_bind; [|intros; apply keeps_store_index].
  unfold _build_index_faiss, _build_index_default. keeps.
Qed.

Lemma keeps_answer_knowledge_query q email :
  keeps_session (answer_knowledge_query q email).
Proof.
  unfold answer_knowledge_query.
  apply keeps_bind.
  - apply keeps_try; [|intros; apply keeps_ret].
    apply keeps_bind; [apply keeps_get_index | intros; apply keeps_ret].
  - intros. keeps.
Qed.

Lemma keeps_handler (h : string) (f : node_fn) :
  Dict.get h (sg_nodes workflow) = Some f ->
  forall st, keeps_session (f st).
Proof.
  rewrite workflow_nodes. cbn [Dict.get].
  repeat match goal with
         | |- context [if ?a =? h then _ else _] => destruct (a =? h)
         end;
    intros E; try discriminate E; injection E as <-; intros st.
  - apply keeps_ret.
  - unfold crew_ai_node. apply keeps_bind; [|intros; apply keeps_ret].
    apply keeps_try; [apply keeps_process_billing_query | intros; apply keeps_ret].
  - unfold autogen_node. apply keeps_bind; [|intros; apply keeps_ret].
    apply keeps_try; [apply keeps_process_network_query | intros; apply keeps_ret].
  - unfold langchain_node. apply keeps_bind; [|intros; apply keeps_ret].
    apply keeps_try; [apply keeps_recommend_personalized_plan | intros; apply keeps_ret].
  - unfold llamaindex_node. apply keeps_bind; [|intros; apply keeps_ret].
    apply keeps_answer_knowledge_query.
  - apply keeps_ret.
  - apply keeps_ret.
Qed.

(** A request through the graph leaves the session as it was. *)
Lemma keeps_invoke (st : TelecomAssistantState) : keeps_session (invoke workflow st).
Proof.
  intros p. destruct (invoke_workflow st p) as [f [Hf ->]].
  apply (keeps_bind (f (classify_query st)) _).
  - apply (keeps_handler _ f Hf).
  - intros. apply keeps_ret.
Qed.

End KeepsSession.

(** ** The chat transcript *)

Section Transcript.
Context `{W : World}.

Lemma keeps_get_session : keeps_session get_session.
Proof. intros p. reflexivity. Qed.

Lemma keeps_attr {A} (name : string) (field : Session -> option A) :
  keeps_session (attr name field).
Proof.
  unfold attr. apply keeps_bind; [apply keeps_get_session|intros s].
  destruct (field s); [apply keeps_ret | apply keeps_raise].
Qed.

Lemma keeps_run_query_through_graph (q : string) :
  keeps_session (run_query_through_graph q).
Proof.
  unfold run_query_through_graph.
  apply keeps_bind; [apply keeps_get_session|intros s].
  destruct (ss_graph_loaded s) as [[|]|]; try apply keeps_ret.
  apply keeps_bind; [apply keeps_attr|intros g].
  destruct g; [|apply keeps_ret].
  unfold run_loaded_graph.
  apply keeps_bind; [apply keeps_attr|intros email].
  apply keeps_bind; [apply keeps_attr|intros history].
  apply keeps_try; [|intros; apply keeps_ret].
  apply keeps_bind; [apply keeps_invoke | intros; apply keeps_ret].
Qed.

(** [init_session] returns, sets the absent keys and keeps the others. *)
Lemma init_session_effect (p : proc) :
  exists p1 u e,
    init_session p = (p1, Ok tt) /\
    ss_chat_history (session p1) = Some (transcript p) /\
    ss_authenticated (session p1) = Some (logged_in p) /\
    ss_user_type (session p1) = Some u /\
    ss_email (session p1) = Some e.
Proof.
  destruct p as [tr idx [a u e h g gl ge]].
  unfold init_session, transcript, logged_in.
  destruct a as [a|], u as [u|], e as [e|], h as [h|], g as [g|];
    cbn -[create_graph workflow];
    try (do 3 eexists; repeat split; reflexivity);
    unfold try_except, bind, create_graph, extern, modify_session;
    cbn -[workflow];
    destruct (state_graph_compile tr);
    cbn -[workflow]; do 3 eexists; repeat split; reflexivity.
Qed.

(** [append_turn] puts one turn at the end, or raises and changes nothing. *)
Lemma append_turn_effect (role content : string) (p : proc) :
  exists added, transcript (fst (append_turn role content p)) = (transcript p ++ added)%list.
Proof.
  unfold append_turn, attr, bind, get_session, modify_session, transcript.
  destruct (ss_chat_history (session p)) as [h|] eqn:E; simpl.
  - exists [[("role", role); ("content", content)]]. reflexivity.
  - exists []. now rewrite E.
Qed.

(** [customer_view] only appends to the transcript. *)
Lemma customer_view_extends (w : Widgets) (p : proc) :
  exists added, transcript (fst (customer_view w p)) = (transcript p ++ added)%list.
Proof.
  unfold customer_view.
  unfold bind at 1, attr at 1, bind at 1, get_session at 1.
  destruct (ss_chat_history (session p)) as [h|] eqn:E;
    [|exists []; simpl; now rewrite app_nil_r].
  unfold ret at 1, bind at 1, lift.
  destruct (map_result show_turn h);
    [|exists []; simpl; now rewrite app_nil_r].
  destruct (opt_truthy (w_chat_input w));
    [|exists []; simpl; now rewrite app_nil_r].
  unfold bind at 1.
  destruct (append_turn_effect "user" (opt_str (w_chat_input w)) p) as [a1 H1].
  destruct (append_turn "user" (opt_str (w_chat_input w)) p) as [p1 [[]|e1]];
    simpl in H1; [|exists a1; exact H1].
  unfold bind at 1.
  pose proof (keeps_run_query_through_graph (opt_str (w_chat_input w)) p1) as H2.
  destruct (run_query_through_graph (opt_str (w_chat_input w)) p1)
    as [p2 [response|e2]]; simpl in H2.
  - destruct (append_turn_effect "assistant" response p2) as [a3 H3].
    exists (a1 ++ a3)%list. rewrite H3. unfold transcript at 1.
    rewrite H2. fold (transcript p1). rewrite H1. now rewrite app_assoc.
  - exists a1. simpl. unfold transcript at 1. rewrite H2. exact H1.
Qed.

(** [customer_view] with nothing submitted changes no turn. *)
Lemma customer_view_idle (w : Widgets) (p : proc) :
  w_chat_input w = None -> fst (customer_view w p) = p.
Proof.
  intros Hw. cbv [customer_view bind attr get_session lift ret raise].
  destruct (ss_chat_history (session p)) as [h|]; [|reflexivity].
  destruct (map_result show_turn h); [|reflexivity].
  now rewrite Hw.
Qed.

(** What [sidebar_login] does to a session in which the keys are set. *)
Lemma sidebar_login_effect (w : Widgets) (p : proc) (b : bool)
    (u e : option string) (h : list turn) :
  ss_authenticated (session p) = Some b ->
  ss_user_type (session p) = Some u ->
  ss_email (session p) = Some e ->
  ss_chat_history (session p) = Some h ->
  exists p2 r b2 u2 e2,
    sidebar_login w p = (p2, Ok r) /\
    ss_authenticated (session p2) = Some b2 /\
    ss_user_type (session p2) = Some u2 /\
    ss_email (session p2) = Some e2 /\
    (b && w_logout w = true ->
     r = true /\ b2 = false /\ ss_chat_history (session p2) = Some []) /\
    (b && w_logout w = false -> ss_chat_history (session p2) = Some h) /\
    (w_login w = false -> w_logout w = false -> p2 = p /\ r = false).
Proof.
  intros Ha Hu He Hh.
  destruct p as [tr idx [a0 u0 e0 h0 g gl ge]]. simpl in *. subst.
  unfold sidebar_login, attr, bind, get_session, modify_session, ret. simpl.
  destruct b; simpl.
  - destruct (w_logout w); simpl.
    + do 5 eexists. repeat split; try reflexivity; discriminate.
    + do 5 eexists. repeat split; try reflexivity; discriminate.
  - destruct (w_login w); simpl.
    + destruct (negb (w_email w =? EmptyString) && PyStr.str_in "@" (w_email w));
        simpl; do 5 eexists; repeat split; try reflexivity; discriminate.
    + do 5 eexists. repeat split; try reflexivity; discriminate.
Qed.

End Transcript.

Section Script.
Context `{W : World}.

Lemma transcript_of_history (p : proc) (h : list turn) :
  ss_chat_history (session p) = Some h -> transcript p = h.
Proof. unfold transcript. now intros ->. Qed.

Lemma logged_in_of_authenticated (p : proc) (b : bool) :
  ss_authenticated (session p) = Some b -> logged_in p = b.
Proof. unfold logged_in. now intros ->. Qed.

Lemma attr_present {A} (name : string) (field : Session -> option A)
    (p : proc) (a : A) :
  field (session p) = Some a -> attr name field p = (p, Ok a).
Proof. intros H. cbv [attr bind get_session ret]. now rewrite H. Qed.

(** One run of [main]: Logout empties the transcript and asks for a rerun;
    any other run only appends; a run with no input changes no turn. *)
Lemma main_effect (w : Widgets) (p : proc) :
  exists p' r,
    main w p = (p', r) /\
    (logs_out w p = true ->
     r = Ok true /\ transcript p' = [] /\ logged_in p' = false) /\
    (logs_out w p = false ->
     exists added, transcript p' = (transcript p ++ added)%list) /\
    (w_login w = false -> w_logout w = false -> w_chat_input w = None ->
     transcript p' = transcript p).
Proof.
  destruct (init_session_effect p) as [p1 [u [e [Hinit [Hh [Ha [Hu He]]]]]]].
  destruct (sidebar_login_effect w p1 (logged_in p) u e (transcript p) Ha Hu He Hh)
    as [p2 [r [b2 [u2 [e2 [Hside [Ha2 [Hu2 [He2 [Hout [Hstay Hidle]]]]]]]]]]].
  unfold main. unfold bind at 1. rewrite Hinit.
  unfold bind at 1. rewrite Hside.
  fold (logs_out w p) in Hout, Hstay.
  destruct r.
  - (* the run ends in st.rerun() *)
    exists p2, (Ok true). split; [reflexivity|]. split; [|split].
    + intros Hl. destruct (Hout Hl) as [_ [-> Hc]].
      repeat split.
      * now apply transcript_of_history.
      * now apply logged_in_of_authenticated.
    + intros Hl. exists []. rewrite app_nil_r.
      apply transcript_of_history. now apply Hstay.
    + intros H1 H2 _. destruct (Hidle H1 H2) as [_ Hr]. discriminate Hr.
  - (* the run goes on to the views *)
    assert (Hnot : logs_out w p = false).
    { destruct (logs_out w p); [|reflexivity].
      destruct (Hout eq_refl) as [Hr _]. discriminate Hr. }
    specialize (Hstay Hnot).
    unfold bind at 1. rewrite (attr_present _ _ p2 b2 Ha2).
    assert (Hview :
      exists p3 r3,
        (if b2
         then (user_type <- attr "user_type" ss_user_type ;;
               match user_type with
               | Some u0 => if u0 =? "Customer" then customer_view w else admin_view
               | None => admin_view
               end)
         else ret tt) p2 = (p3, r3) /\
        (exists added, transcript p3 = (transcript p2 ++ added)%list) /\
        (w_chat_input w = None -> transcript p3 = transcript p2)).
    { destruct b2.
      - unfold bind. rewrite (attr_present _ _ p2 u2 Hu2).
        assert (Hnone : exists added, transcript p2 = (transcript p2 ++ added)%list)
          by (exists []; now rewrite app_nil_r).
        destruct u2 as [u0|]; [destruct (u0 =? "Customer")|];
          try (exists p2, (Ok tt); repeat split; assumption).
        destruct (customer_view_extends w p2) as [added Hadd].
        pose proof (customer_view_idle w p2) as Hquiet.
        destruct (customer_view w p2) as [p3 r3]. simpl in Hadd, Hquiet.
        exists p3, r3. repeat split.
        + now exists added.
        + intros Hc. now rewrite (Hquiet Hc).
      - exists p2, (Ok tt). repeat split.
        exists []. now rewrite app_nil_r. }
    destruct Hview as [p3 [r3 [Hrun [[added Hadd] Hquiet]]]].
    unfold bind at 1. rewrite Hrun.
    assert (Hp2 : transcript p2 = transcript p)
      by now apply transcript_of_history.
    exists p3, (match r3 with Ok _ => Ok false | Raise e0 => Raise e0 end).
    split; [destruct r3; reflexivity|]. split; [|split].
    + intros Hl. congruence.
    + intros _. exists added. now rewrite Hadd, Hp2.
    + intros _ _ Hc. now rewrite (Hquiet Hc).
Qed.

(** C9, as the code has it. One interaction with the page either presses
    Logout as a logged-in user, and then the transcript is the empty list, or
    it leaves every earlier turn in place and at most appends turns; a
    request through the graph does not touch the session at all, and hands
    back the transcript it was given. *)
Theorem transcript_appended_unless_logout (w : Widgets) (p : proc) :
  let p' := fst (script_run w p) in
  (logs_out w p = false ->
   exists added, transcript p' = (transcript p ++ added)%list) /\
  (logs_out w p = true -> transcript p' = []) /\
  (forall st, keeps_session (invoke workflow st)) /\
  (forall st st' q q',
      invoke workflow st q = (q', Ok st') -> chat_history st' = chat_history st).
Proof.
  cbv zeta.
  destruct (main_effect w p) as [p1 [r [Hmain [Hout [Hext _]]]]].
  destruct (main_effect (rerun_widgets w) p1)
    as [p2 [r2 [Hmain2 [_ [_ Hquiet]]]]].
  specialize (Hquiet eq_refl eq_refl eq_refl).
  assert (Hrun : transcript (fst (script_run w p)) = transcript p1).
  { unfold script_run, bind at 1. rewrite Hmain.
    destruct r as [[|]|e]; try reflexivity.
    unfold bind. rewrite Hmain2. destruct r2; simpl; exact Hquiet. }
  rewrite Hrun. split; [exact Hext|]. split; [|split].
  - intros Hl. now destruct (Hout Hl) as [_ [Ht _]].
  - exact keeps_invoke.
  - intros st st' q q'. apply invoke_keeps_chat_history.
Qed.

End Script.

(** C9, as stated, fails: a logged-in customer with two turns in the
    transcript presses Logout, and the transcript is empty afterwards, which
    is no extension of the two turns. *)
Lemma logout_clears_transcript :
  let w := {| w_email := EmptyString; w_user_type := "Customer";
              w_login := false; w_logout := true; w_chat_input := None |} in
  transcript Demo.proc_of_asha
  = [[("role", "user"); ("content", "hello")];
     [("role", "assistant"); ("content", "Hi Asha")]] /\
  transcript (fst (@script_run Demo.world w Demo.proc_of_asha)) = [] /\
  ~ (exists added,
        transcript (fst (@script_run Demo.world w Demo.proc_of_asha))
        = (transcript Demo.proc_of_asha ++ added)%list).
Proof.
  cbv zeta. split; [reflexivity|]. split; [reflexivity|].
  intros [added H]. vm_compute in H. discriminate H.
Qed.

(** ** The plan-recommendation handler *)

Section PlanHandler.
Context `{W : World}.

Lemma run_query_answer (sql : string) (params : dict value) (p : proc)
    (rows : list row) :
  sqlite_execute (trace p) sql params = Ok rows ->
  run_query sql (Some params) p = (log_event (SqlExecute sql params) p, Ok rows).
Proof.
  intros H. unfold run_query, extern.
  destruct params; now rewrite H.
Qed.

Lemma run_query_answer_none (sql : string) (p : proc) (rows : list row) :
  sqlite_execute (trace p) sql [] = Ok rows ->
  run_query sql None p = (log_event (SqlExecute sql []) p, Ok rows).
Proof. intros H. unfold run_query, extern. now rewrite H. Qed.

(** With [plan_id] in every plan, the loop is [find] on the plan list. *)
Lemma find_current_plan_is_find (fk : value) (plans : list row) :
  Forall (fun pl => Dict.get "plan_id" pl <> None) plans ->
  find_current_plan fk plans
  = Ok (find (fun pl => py_eq (row_get "plan_id" pl) fk) plans).
Proof.
  induction 1 as [|pl plans Hpl _ IH]; [reflexivity|].
  cbn [find_current_plan find]. unfold getitem, row_get.
  destruct (Dict.get "plan_id" pl) as [pid|]; [|contradiction].
  destruct (py_eq pid fk); [reflexivity | exact IH].
Qed.

Lemma trace_log_event (ev : event) (p : proc) :
  trace (log_event ev p) = (trace p ++ [ev])%list.
Proof. reflexivity. Qed.

(** Columns that a row has can be read, and such a row is not empty. *)
Lemma getitem_column (columns : list string) (k : string) (r : row) :
  has_columns columns r = true -> In k columns -> getitem k r = Ok (row_get k r).
Proof.
  unfold has_columns. rewrite forallb_forall. intros H Hin.
  specialize (H k Hin). unfold getitem, row_get.
  now destruct (Dict.get k r).
Qed.

Lemma has_columns_plan_id (plans : list row) :
  forallb (has_columns plan_columns) plans = true ->
  Forall (fun pl => Dict.get "plan_id" pl <> None) plans.
Proof.
  rewrite forallb_forall, Forall_forall. intros H pl Hpl.
  specialize (H pl Hpl). unfold has_columns in H. rewrite forallb_forall in H.
  specialize (H "plan_id" (or_introl eq_refl)).
  now destruct (Dict.get "plan_id" pl).
Qed.

Lemma plan_allowance_text (p : row) (flag amount unit_ : string) :
  has_columns plan_columns p = true ->
  In flag plan_columns -> In amount plan_columns ->
  plan_allowance p flag amount unit_ = Ok (allowance_text p flag amount unit_).
Proof.
  intros H Hf Ha. unfold plan_allowance, allowance_text.
  rewrite (getitem_column _ _ _ H Hf). cbn [rbind].
  destruct (truthy (row_get flag p)); [reflexivity|].
  now rewrite (getitem_column _ _ _ H Ha).
Qed.

Lemma format_plan_line (p : row) :
  has_columns plan_columns p = true -> _format_plan p = Ok (catalogue_line p).
Proof.
  intros H. unfold _format_plan, catalogue_line.
  rewrite (plan_allowance_text p "unlimited_data") by (try exact H; simpl; tauto).
  cbn [rbind].
  rewrite (plan_allowance_text p "unlimited_voice") by (try exact H; simpl; tauto).
  cbn [rbind].
  rewrite (plan_allowance_text p "unlimited_sms") by (try exact H; simpl; tauto).
  cbn [rbind].
  rewrite (getitem_column _ "name" _ H) by (simpl; tauto). cbn [rbind].
  rewrite (getitem_column _ "plan_id" _ H) by (simpl; tauto). cbn [rbind].
  rewrite (getitem_column _ "monthly_cost" _ H) by (simpl; tauto).
  reflexivity.
Qed.

Lemma format_plans_lines (plans : list row) :
  forallb (has_columns plan_columns) plans = true ->
  map_result _format_plan plans = Ok (map catalogue_line plans).
Proof.
  induction plans as [|pl plans IH]; [reflexivity|].
  cbn [forallb map_result map]. rewrite andb_true_iff. intros [Hpl Hrest].
  now rewrite (format_plan_line pl Hpl), (IH Hrest).
Qed.


End PlanHandler.




(** ** The billing handler's database snapshot *)

Section Snapshot.
Context `{W : World}.

Lemma map_result_ok {A B} (f : A -> result B) (xs : list A) :
  (forall x, In x xs -> exists y, f x = Ok y) ->
  exists ys, map_result f xs = Ok ys.
Proof.
  induction xs as [|x xs IH]; intros H; [now exists []|].
  cbn [map_result].
  destruct (H x (or_introl eq_refl)) as [y ->].
  destruct IH as [ys ->]; [intros z Hz; apply H; now right|].
  now exists (y :: ys).
Qed.

(** Rows of one cursor can always be rendered. *)
Lemma format_rows_rectangular (rows : list row) :
  rectangular rows = true -> exists txt, _format_rows rows = Ok txt.
Proof.
  destruct rows as [|r0 rows]; [now exists ("  (no rows)" ++ PyStr.nl)|].
  unfold rectangular, _format_rows. rewrite forallb_forall. intros Hrect.
  destruct (map_result_ok (format_row (Dict.keys r0)) (firstn 5 (r0 :: rows)))
    as [ls ->]; [|eauto].
  intros r Hr. specialize (Hrect r Hr). rewrite forallb_forall in Hrect.
  unfold format_row.
  destruct (map_result_ok
              (fun col => match getitem col r with
                          | Ok v => Ok (col ++ "=" ++ py_repr v)
                          | Raise e => Raise e
                          end) (Dict.keys r0)) as [parts ->]; [|eauto].
  intros col Hcol. specialize (Hrect col Hcol). unfold getitem.
  destruct (Dict.get col r); [eauto | discriminate].
Qed.

(** The column loop returns on every input. *)
Lemma try_columns_returns table ident cols lines filtered p :
  exists p' found, try_columns table ident cols lines filtered p = (p', Ok found).
Proof.
  revert lines filtered p. induction cols as [|col cols IH]; intros lines filtered p.
  - now exists p, (lines, filtered).
  - cbn [try_columns].
    destruct (run_query _ _ p) as [p1 [[|r rows]|e]]; try apply IH.
    destruct (_format_rows (r :: rows)); [eauto | apply IH].
Qed.

(** The sample step returns and makes exactly the sampling query. *)
Lemma sample_table_probe table lines p :
  exists p' lines',
    sample_table table lines p = (p', Ok lines') /\
    trace p' = (trace p ++ [sample_event table])%list.
Proof.
  unfold sample_table, run_query, extern, sample_event.
  destruct (sqlite_execute (trace p) (sample_sql table) []) as [rows|e].
  - destruct (_format_rows rows); do 2 eexists; split; reflexivity.
  - do 2 eexists; split; reflexivity.
Qed.

Lemma snapshot_table_returns ident table lines p :
  exists p' lines', snapshot_table ident table lines p = (p', Ok lines').
Proof.
  unfold snapshot_table, bind.
  destruct ident as [id0|]; [destruct (opt_truthy (Some id0))|].
  - destruct (try_columns_returns table id0 candidate_columns
                (append lines (PyStr.nl ++ "Table: " ++ py_str table)) [] p)
      as [p1 [found ->]].
    destruct (snd found); [|do 2 eexists; reflexivity].
    destruct (sample_table_probe table (fst found) p1) as [p2 [l2 [E _]]]. eauto.
  - cbn [snd fst ret].
    destruct (sample_table_probe table
                (append lines (PyStr.nl ++ "Table: " ++ py_str table)) p)
      as [p2 [l2 [E _]]]. eauto.
  - cbn [snd fst ret].
    destruct (sample_table_probe table
                (append lines (PyStr.nl ++ "Table: " ++ py_str table)) p)
      as [p2 [l2 [E _]]]. eauto.
Qed.

Lemma snapshot_tables_returns ident tables lines p :
  exists p' lines', snapshot_tables ident tables lines p = (p', Ok lines').
Proof.
  revert lines p. induction tables as [|t tables IH]; intros lines p.
  - now exists p, lines.
  - cbn [snapshot_tables]. unfold bind.
    destruct (snapshot_table_returns ident t lines p) as [p1 [l1 ->]].
    apply IH.
Qed.

(** Under a store with rectangular rows the column loop makes the calls of
    [column_probe], and ends with rows exactly when a column yielded some. *)
Lemma try_columns_probe table ident cols lines p :
  rectangular_store ->
  exists p' lines' rows,
    try_columns table ident cols lines [] p = (p', Ok (lines', rows)) /\
    trace p' = (trace p ++ fst (column_probe (trace p) table ident cols))%list /\
    (snd (column_probe (trace p) table ident cols) = true -> rows <> []) /\
    (snd (column_probe (trace p) table ident cols) = false -> rows = []).
Proof.
  intros Hrect. revert lines p.
  induction cols as [|col cols IH]; intros lines p.
  - exists p, lines, []. cbn. rewrite app_nil_r. repeat split; congruence.
  - cbn [try_columns column_probe]. unfold run_query, extern, filter_event.
    destruct (sqlite_execute (trace p) (filter_sql table col) [("val", VStr ident)])
      as [[|r rows]|e] eqn:E.
    + destruct (IH lines (log_event (SqlExecute (filter_sql table col)
                                       [("val", VStr ident)]) p))
        as [p' [l' [rs [Hrun [Htr [Hhit Hmiss]]]]]].
      exists p', l', rs. rewrite Hrun. cbn [fst snd].
      rewrite trace_log_event in Htr, Hhit, Hmiss.
      rewrite Htr, <- app_assoc. repeat split; assumption.
    + destruct (format_rows_rectangular (r :: rows) (Hrect _ _ _ _ E)) as [txt ->].
      do 3 eexists. split; [reflexivity|]. cbn [fst snd trace log_event].
      repeat split; congruence.
    + destruct (IH lines (log_event (SqlExecute (filter_sql table col)
                                       [("val", VStr ident)]) p))
        as [p' [l' [rs [Hrun [Htr [Hhit Hmiss]]]]]].
      exists p', l', rs. rewrite Hrun. cbn [fst snd].
      rewrite trace_log_event in Htr, Hhit, Hmiss.
      rewrite Htr, <- app_assoc. repeat split; assumption.
Qed.

(** One table: the calls of [table_probe]. *)
Lemma snapshot_table_probe ident table lines p :
  rectangular_store ->
  exists p' lines',
    snapshot_table ident table lines p = (p', Ok lines') /\
    trace p' = (trace p ++ table_probe (trace p) ident table)%list.
Proof.
  intros Hrect. unfold snapshot_table, table_probe, bind.
  destruct ident as [id0|]; [destruct (opt_truthy (Some id0))|].
  - destruct (try_columns_probe table id0 candidate_columns
                (append lines (PyStr.nl ++ "Table: " ++ py_str table)) p Hrect)
      as [p1 [l1 [rows [-> [Htr [Hhit Hmiss]]]]]].
    cbn [fst snd].
    destruct (snd (column_probe (trace p) table id0 candidate_columns)).
    + destruct rows as [|r rows]; [now destruct (Hhit eq_refl)|].
      exists p1, l1. split; [reflexivity | exact Htr].
    + rewrite (Hmiss eq_refl).
      destruct (sample_table_probe table l1 p1) as [p2 [l2 [-> Htr2]]].
      exists p2, l2. split; [reflexivity|].
      now rewrite Htr2, Htr, <- app_assoc.
  - cbn [snd fst ret].
    destruct (sample_table_probe table
                (append lines (PyStr.nl ++ "Table: " ++ py_str table)) p)
      as [p2 [l2 [-> Htr2]]].
    exists p2, l2. split; [reflexivity | exact Htr2].
  - cbn [snd fst ret].
    destruct (sample_table_probe table
                (append lines (PyStr.nl ++ "Table: " ++ py_str table)) p)
      as [p2 [l2 [-> Htr2]]].
    exists p2, l2. split; [reflexivity | exact Htr2].
Qed.

(** The table loop makes the calls of [tables_probe]. *)
Lemma snapshot_tables_probe ident tables lines p :
  rectangular_store ->
  exists p' lines',
    snapshot_tables ident tables lines p = (p', Ok lines') /\
    trace p' = (trace p ++ tables_probe (trace p) ident tables)%list.
Proof.
  intros Hrect. revert lines p.
  induction tables as [|t tables IH]; intros lines p.
  - exists p, lines. cbn. now rewrite app_nil_r.
  - cbn [snapshot_tables tables_probe]. unfold bind.
    destruct (snapshot_table_probe ident t lines p Hrect) as [p1 [l1 [-> Htr]]].
    destruct (IH l1 p1) as [p' [l' [-> Htr']]].
    exists p', l'. split; [reflexivity|].
    now rewrite Htr', Htr, <- app_assoc.
Qed.

End Snapshot.

Section SnapshotClaim.
Context `{W : World}.

(** C6, as the code has it. The snapshot builder returns a text on every
    input: a failing table listing, a failing query or an empty result never
    makes it raise. It lists the tables with one query and then treats each
    table on its own: with an identifier it tries the candidate columns in
    sequence and stops, for that table, at the first column whose query yields
    rows; a table for which no column yielded rows, and every table when no
    identifier is supplied, is sampled unfiltered, whatever the other tables
    gave (rows as one cursor returns them: the same columns in every row). *)
Theorem snapshot_table_by_table (customer_identifier : option string) (p : proc) :
  (exists p' txt, _build_db_snapshot customer_identifier p = (p', Ok txt)) /\
  (forall p1 r, get_tables p = (p1, r) ->
                trace p1 = (trace p ++ [SqlExecute get_tables_sql []])%list) /\
  (forall p1 e, get_tables p = (p1, Raise e) ->
                fst (_build_db_snapshot customer_identifier p) = p1) /\
  (rectangular_store ->
   forall p1 tables,
     get_tables p = (p1, Ok tables) ->
     trace (fst (_build_db_snapshot customer_identifier p))
     = (trace p1 ++ tables_probe (trace p1) customer_identifier tables)%list).
Proof.
  split; [|split; [|split]].
  - unfold _build_db_snapshot.
    destruct (get_tables p) as [p1 [[|t tables]|e]]; try (do 2 eexists; reflexivity).
    unfold bind.
    destruct (snapshot_tables_returns customer_identifier (t :: tables)
                ["Database URI: " ++ get_db_uri; "Discovered tables:"] p1)
      as [p' [lines' ->]].
    do 2 eexists. reflexivity.
  - intros p1 r. unfold get_tables, bind, run_query, extern, lift.
    destruct (sqlite_execute (trace p) get_tables_sql []) as [rows|e];
      intros H; injection H as <- _; reflexivity.
  - intros p1 e H. unfold _build_db_snapshot. now rewrite H.
  - intros Hrect p1 tables H. unfold _build_db_snapshot. rewrite H.
    destruct tables as [|t tables]; [cbn; now rewrite app_nil_r|].
    unfold bind.
    destruct (snapshot_tables_probe customer_identifier (t :: tables)
                ["Database URI: " ++ get_db_uri; "Discovered tables:"] p1 Hrect)
      as [p' [lines' [-> Htr]]].
    exact Htr.
Qed.

End SnapshotClaim.

Lemma demo_store_rectangular : @rectangular_store Demo.world.
Proof.
  intros h sql params rows. cbn [sqlite_execute Demo.world Demo.world_with].
  unfold Demo.demo_sqlite.
  repeat match goal with
         | |- context [if ?b then _ else _] => destruct b
         end;
    intros H; try discriminate H; injection H as <-; reflexivity.
Qed.

Lemma snapshot_table_by_table_witness :
  (exists p' txt,
      @_build_db_snapshot Demo.world (Some "asha@example.com") Demo.start
      = (p', Ok txt)) /\
  trace (fst (@_build_db_snapshot Demo.world (Some "asha@example.com") Demo.start))
  = (SqlExecute get_tables_sql []
     :: @tables_probe Demo.world [SqlExecute get_tables_sql []]
          (Some "asha@example.com")
          [VStr "customer_usage"; VStr "customers"; VStr "service_plans"])%list.
Proof.
  destruct (@snapshot_table_by_table Demo.world (Some "asha@example.com") Demo.start)
    as [Hret [_ [_ Hprobe]]].
  split; [exact Hret|].
  exact (Hprobe demo_store_rectangular
           {| trace := [SqlExecute get_tables_sql []]; INDEX := None;
              session := Demo.fresh_session |}
           [VStr "customer_usage"; VStr "customers"; VStr "service_plans"]
           eq_refl).
Defined.

(** C6, as stated, fails. With the email of a customer as identifier the
    store has one matching combination, [customers] by [email]. A search that
    stops there makes nine filter queries and no sampling query. The builder
    samples [customer_usage] before it reaches [customers], and after the
    match goes on to [service_plans], which it also samples. *)
Lemma snapshot_is_not_one_search :
  let h0 := [SqlExecute get_tables_sql []] in
  let tables := [VStr "customer_usage"; VStr "customers"; VStr "service_plans"] in
  let made :=
    trace (fst (@_build_db_snapshot Demo.world (Some "asha@example.com") Demo.start)) in
  let claimed :=
    (h0 ++ @claimed_probe Demo.world h0 "asha@example.com" tables)%list in
  @get_tables Demo.world Demo.start
  = ({| trace := h0; INDEX := None; session := Demo.fresh_session |}, Ok tables) /\
  snd (@claimed_search Demo.world h0 "asha@example.com" tables) = true /\
  last claimed (SqlExecute EmptyString [])
  = @filter_event Demo.world (VStr "customers") "asha@example.com" "email" /\
  length claimed = 10%nat /\
  length made = 18%nat /\
  In (@sample_event Demo.world (VStr "customer_usage")) made /\
  In (@sample_event Demo.world (VStr "service_plans")) made /\
  ~ In (@sample_event Demo.world (VStr "customer_usage")) claimed /\
  made <> claimed.
Proof.
  cbv zeta. repeat split; try (vm_compute; reflexivity).
  - vm_compute. tauto.
  - vm_compute. tauto.
  - vm_compute. intros H.
    repeat (destruct H as [H|H]; [discriminate H|]). exact H.
  - vm_compute. discriminate.
Qed.

(** * Part III: further properties of the handlers and the page *)

(** ** A missing API key *)

Section MissingKey.
Context `{W : World}.

Lemma build_client_without_key (p : proc) :
  opt_truthy env_OPENAI_API_KEY = false ->
  _build_client p
  = (p, Raise (Exn "RuntimeError"
                 "Missing OPENAI_API_KEY in your environment or .env")).
Proof.
  unfold _build_client, get_openai_api_key, opt_truthy.
  destruct env_OPENAI_API_KEY as [key|]; [|reflexivity].
  destruct (key =? EmptyString); [reflexivity | discriminate].
Qed.

(** The snapshot builder returns on every input. *)
Lemma build_db_snapshot_returns (ident : option string) (p : proc) :
  exists p' txt, _build_db_snapshot ident p = (p', Ok txt).
Proof.
  unfold _build_db_snapshot.
  destruct (get_tables p) as [p1 [[|t tables]|e]]; try (do 2 eexists; reflexivity).
  unfold bind.
  destruct (snapshot_tables_returns ident (t :: tables)
              ["Database URI: " ++ get_db_uri; "Discovered tables:"] p1)
    as [p' [lines' ->]].
  do 2 eexists. reflexivity.
Qed.

(** X1. Without an API key the network handler makes no call at all and
    answers with its failure text naming the [RuntimeError]; the network node
    stores that text. *)
Theorem network_handler_without_key (st : TelecomAssistantState) (p : proc) :
  opt_truthy env_OPENAI_API_KEY = false ->
  let answer :=
    "Network troubleshooting failed: RuntimeError: "
    ++ "Missing OPENAI_API_KEY in your environment or .env" in
  process_network_query (query st) (customer_identifier_of st) p = (p, Ok answer) /\
  autogen_node st p = (p, Ok (with_intermediate_responses [("autogen", answer)] st)).
Proof.
  intros Hkey. cbv zeta.
  assert (H : process_network_query (query st) (customer_identifier_of st) p
              = (p, Ok ("Network troubleshooting failed: RuntimeError: "
                        ++ "Missing OPENAI_API_KEY in your environment or .env"))).
  { unfold process_network_query, try_except, bind, _diagnostics_agent, bind.
    now rewrite (build_client_without_key p Hkey). }
  split; [exact H|].
  unfold autogen_node, bind, try_except. now rewrite H.
Qed.

(** X2. Without an API key the billing handler still queries the store for
    its snapshot, then raises the [RuntimeError] of [_build_llm] before any
    crew is run; the billing node answers with its apology followed by the
    type name and the message. *)
Theorem billing_handler_without_key (st : TelecomAssistantState) (p : proc) :
  opt_truthy env_OPENAI_API_KEY = false ->
  let p' := fst (_build_db_snapshot (customer_identifier_of st) p) in
  let e := Exn "RuntimeError"
             "OPENAI_API_KEY is not set. Please add it to your .env file." in
  process_billing_query (customer_identifier_of st) (query st) p = (p', Raise e) /\
  crew_ai_node st p
  = (p', Ok (with_intermediate_responses
               [("crew_ai",
                 "Sorry, I ran into a problem while analyzing your billing question."
                 ++ PyStr.nl ++ PyStr.nl
                 ++ "Technical details: RuntimeError: "
                 ++ "OPENAI_API_KEY is not set. Please add it to your .env file.")] st)).
Proof.
  intros Hkey. cbv zeta.
  assert (H : process_billing_query (customer_identifier_of st) (query st) p
              = (fst (_build_db_snapshot (customer_identifier_of st) p),
                 Raise (Exn "RuntimeError"
                          "OPENAI_API_KEY is not set. Please add it to your .env file."))).
  { unfold process_billing_query, bind.
    destruct (build_db_snapshot_returns (customer_identifier_of st) p)
      as [p' [txt ->]].
    unfold create_billing_crew, billing_build_llm, get_openai_api_key.
    now rewrite Hkey. }
  split; [exact H|].
  unfold crew_ai_node, bind, try_except. now rewrite H.
Qed.

(** X3. Without an API key, and with no index built yet, the knowledge
    handler makes no call, builds nothing, and answers that it is not
    configured, naming the [RuntimeError]. *)
Theorem knowledge_handler_without_key (q : string) (email : option string) (p : proc) :
  opt_truthy env_OPENAI_API_KEY = false ->
  INDEX p = None ->
  answer_knowledge_query q email p
  = (p, Ok ("Knowledge assistant is not configured correctly."
            ++ PyStr.nl ++ PyStr.nl
            ++ "Technical details: RuntimeError: "
            ++ "OPENAI_API_KEY is not set. Please add it to your .env file.")).
Proof.
  intros Hkey Hidx.
  unfold answer_knowledge_query, bind, try_except, _get_index, bind, get_proc.
  rewrite Hidx. unfold _init_llama_settings, get_openai_api_key.
  now rewrite Hkey.
Qed.

End MissingKey.

Lemma network_handler_without_key_witness :
  @process_network_query Cases.no_key "My internet is slow"
    (Some "asha@example.com") Demo.start
  = (Demo.start,
     Ok ("Network troubleshooting failed: RuntimeError: "
         ++ "Missing OPENAI_API_KEY in your environment or .env")).
Proof.
  apply (@network_handler_without_key Cases.no_key
           (Demo.request "My internet is slow" (Some "asha@example.com"))
           Demo.start).
  reflexivity.
Defined.

Lemma billing_handler_without_key_witness :
  snd (@process_billing_query Cases.no_key (Some "asha@example.com")
         "What is my current bill?" Demo.start)
  = Raise (Exn "RuntimeError"
             "OPENAI_API_KEY is not set. Please add it to your .env file.").
Proof.
  exact (f_equal snd
           (proj1 (@billing_handler_without_key Cases.no_key
                     (Demo.request "What is my current bill?"
                        (Some "asha@example.com"))
                     Demo.start eq_refl))).
Defined.

Lemma knowledge_handler_without_key_witness :
  @answer_knowledge_query Cases.no_key "How do I enable VoLTE?"
    (Some "asha@example.com") Demo.start
  = (Demo.start,
     Ok ("Knowledge assistant is not configured correctly."
         ++ PyStr.nl ++ PyStr.nl
         ++ "Technical details: RuntimeError: "
         ++ "OPENAI_API_KEY is not set. Please add it to your .env file.")).
Proof.
  apply (@knowledge_handler_without_key Cases.no_key); reflexivity.
Defined.

(** ** The knowledge index *)

Section KnowledgeIndex.
Context `{W : World}.

(** The build step of [_get_index]: FAISS first when importable, and the
    in-memory index when FAISS is absent or its build raises. *)
Lemma build_step_cases (p : proc) :
  let build :=
    if HAS_FAISS
    then try_except _build_index_faiss (fun _ => _build_index_default)
    else _build_index_default in
  forall p1 r, build p = (p1, r) ->
    INDEX p1 = INDEX p /\ session p1 = session p.
Proof.
  cbv zeta. intros p1 r.
  unfold _build_index_faiss, _build_index_default, try_except, extern.
  destruct HAS_FAISS.
  - destruct (faiss_index_build (trace p)); intros H; injection H as <- _;
      split; reflexivity.
  - intros H; injection H as <- _; split; reflexivity.
Qed.

(** X4. The index is built once: when [_get_index] has returned an index,
    the global holds it, and the next call returns the same index without any
    call to the outside, leaving the process as it is. *)
Theorem get_index_builds_once (p p' : proc) (index : index_t) :
  _get_index p = (p', Ok index) ->
  INDEX p' = Some index /\ _get_index p' = (p', Ok index).
Proof.
  intros H.
  assert (Hidx : INDEX p' = Some index).
  { revert H. unfold _get_index, bind at 1, get_proc at 1.
    destruct (INDEX p) as [i|] eqn:E.
    - intros H. injection H as <- <-. exact E.
    - unfold bind at 1, _init_llama_settings.
      destruct (opt_truthy get_openai_api_key); [|discriminate].
      unfold ret at 1, bind at 1.
      destruct ((if HAS_FAISS
                 then try_except _build_index_faiss (fun _ => _build_index_default)
                 else _build_index_default) p) as [p1 [i|e]]; [|discriminate].
      cbv [bind get_proc put_proc ret]. intros H. injection H as <- <-.
      reflexivity. }
  split; [exact Hidx|].
  unfold _get_index, bind, get_proc. now rewrite Hidx.
Qed.

(** X5. When FAISS is importable and building the FAISS index raises, the
    in-memory index is built instead, in the same call, and it is the one
    kept in the global. *)
Theorem get_index_falls_back (p : proc) (e : exn) (index : index_t) :
  HAS_FAISS = true ->
  opt_truthy env_OPENAI_API_KEY = true ->
  INDEX p = None ->
  faiss_index_build (trace p) = Raise e ->
  default_index_build (trace p ++ [BuildIndexFaiss])%list = Ok index ->
  _get_index p
  = ({| trace := (trace p ++ [BuildIndexFaiss; BuildIndexDefault])%list;
        INDEX := Some index; session := session p |}, Ok index).
Proof.
  intros Hf Hkey Hidx Hfaiss Hdefault.
  unfold _get_index, bind at 1, get_proc at 1. rewrite Hidx.
  unfold bind at 1, _init_llama_settings, get_openai_api_key. rewrite Hkey.
  unfold ret at 1, bind at 1. rewrite Hf.
  unfold try_except, _build_index_faiss, _build_index_default, extern.
  rewrite Hf, Hfaiss. cbn [trace log_event]. rewrite Hdefault.
  cbv [bind get_proc put_proc ret set_INDEX log_event trace INDEX session].
  rewrite <- app_assoc. reflexivity.
Qed.

(** X6. A failed build is not remembered: when [_get_index] raises, the
    global is still empty, so the next request builds again; the knowledge
    handler answers such a request with its configuration text and the
    exception's type name and message. *)
Theorem get_index_failure_not_kept (q : string) (email : option string)
    (p p' : proc) (e : exn) :
  INDEX p = None ->
  _get_index p = (p', Raise e) ->
  INDEX p' = None /\
  answer_knowledge_query q email p
  = (p', Ok ("Knowledge assistant is not configured correctly."
             ++ PyStr.nl ++ PyStr.nl ++ "Technical details: " ++ exn_text e)).
Proof.
  intros Hidx H. split.
  - revert H. unfold _get_index, bind at 1, get_proc at 1. rewrite Hidx.
    unfold bind at 1, _init_llama_settings.
    destruct (opt_truthy get_openai_api_key);
      [|intros H; injection H as <- _; exact Hidx].
    unfold ret at 1, bind at 1.
    pose proof (build_step_cases p) as Hb. cbv zeta in Hb.
    destruct ((if HAS_FAISS
               then try_except _build_index_faiss (fun _ => _build_index_default)
               else _build_index_default) p) as [p1 [i|e1]] eqn:Eb.
    + cbv [bind get_proc put_proc ret]. discriminate.
    + intros H. injection H as <- _.
      destruct (Hb p1 (Raise e1) eq_refl) as [-> _]. exact Hidx.
  - unfold answer_knowledge_query, bind at 1, try_except, bind at 1.
    now rewrite H.
Qed.

(** X7. The one exception that leaves the knowledge handler is that of
    [index.as_query_engine]: when [answer_knowledge_query] raises, the index
    was obtained, the call that made the engine raised this exception, and it
    was the last call made. *)
Theorem knowledge_handler_raises_only_from_engine (q : string)
    (email : option string) (p p' : proc) (e : exn) :
  answer_knowledge_query q email p = (p', Raise e) ->
  exists p1 index,
    _get_index p = (p1, Ok index) /\
    index_as_query_engine (trace p1) index 3 = Raise e /\
    p' = log_event (AsQueryEngine index 3) p1.
Proof.
  unfold answer_knowledge_query, bind at 1, try_except, bind at 1.
  destruct (_get_index p) as [p1 [index|e1]]; [|discriminate].
  unfold ret at 1. unfold bind, extern.
  destruct (index_as_query_engine (trace p1) index 3) as [engine|e2] eqn:E.
  - destruct (query_engine_query _ engine _); discriminate.
  - intros H. injection H as <- <-. now exists p1, index.
Qed.

End KnowledgeIndex.

Lemma get_index_builds_once_witness :
  let p' := {| trace := [BuildIndexDefault]; INDEX := Some (Index 0);
               session := Demo.fresh_session |} in
  INDEX p' = Some (Index 0) /\ @_get_index Demo.world p' = (p', Ok (Index 0)).
Proof.
  exact (@get_index_builds_once Demo.world Demo.start _ (Index 0) eq_refl).
Defined.

Lemma get_index_falls_back_witness :
  @_get_index Cases.faiss_fails Demo.start
  = ({| trace := [BuildIndexFaiss; BuildIndexDefault];
        INDEX := Some (Index 0); session := Demo.fresh_session |}, Ok (Index 0)).
Proof.
  exact (@get_index_falls_back Cases.faiss_fails Demo.start
           (Exn "RuntimeError" "faiss missing") (Index 0)
           eq_refl eq_refl eq_refl eq_refl eq_refl).
Defined.

Lemma get_index_failure_not_kept_witness :
  let p' := {| trace := [BuildIndexDefault]; INDEX := None;
               session := Demo.fresh_session |} in
  INDEX p' = None /\
  @answer_knowledge_query Cases.no_index "How do I enable VoLTE?" None Demo.start
  = (p', Ok ("Knowledge assistant is not configured correctly."
             ++ PyStr.nl ++ PyStr.nl ++ "Technical details: "
             ++ exn_text Cases.no_documents)).
Proof.
  exact (@get_index_failure_not_kept Cases.no_index "How do I enable VoLTE?" None
           Demo.start _ Cases.no_documents eq_refl eq_refl).
Defined.

Lemma knowledge_handler_raises_only_from_engine_witness :
  exists p1 index,
    @_get_index Demo.world_without_engine Demo.start = (p1, Ok index) /\
    @index_as_query_engine Demo.world_without_engine (trace p1) index 3
    = Raise Demo.engine_failure /\
    {| trace := [BuildIndexDefault; AsQueryEngine (Index 0) 3];
       INDEX := Some (Index 0); session := Demo.fresh_session |}
    = log_event (AsQueryEngine index 3) p1.
Proof.
  exact (@knowledge_handler_raises_only_from_engine Demo.world_without_engine
           "How do I enable VoLTE?" None Demo.start _ Demo.engine_failure eq_refl).
Defined.

(** ** Rendering rows and the snapshot without an identifier *)

Section SnapshotMore.
Context `{W : World}.

Lemma map_result_raise {A B} (f : A -> result B) (xs : list A) (e : exn) :
  map_result f xs = Raise e -> exists x, In x xs /\ f x = Raise e.
Proof.
  induction xs as [|x xs IH]; [discriminate|].
  cbn [map_result]. destruct (f x) as [y|e1] eqn:E.
  - destruct (map_result f xs) as [ys|e2]; [discriminate|].
    intros H. injection H as <-.
    destruct (IH eq_refl) as [z [Hz Hfz]]. exists z. split; [now right | exact Hfz].
  - intros H. injection H as <-. exists x. split; [now left | exact E].
Qed.

(** X8. [_format_rows] shows at most five rows: the rows after the fifth do
    not change its result. No row at all gives the fixed line. When it
    raises, it is a [KeyError] for a column of the first row that one of the
    first five rows lacks. *)
Theorem format_rows_first_five (rows : list row) :
  _format_rows (firstn 5 rows) = _format_rows rows /\
  _format_rows [] = Ok ("  (no rows)" ++ PyStr.nl) /\
  (forall e, _format_rows rows = Raise e ->
     exists r col,
       In r (firstn 5 rows) /\ In col (Dict.keys (hd [] rows)) /\
       Dict.get col r = None /\ e = Exn "KeyError" (py_repr (VStr col))).
Proof.
  split; [|split; [reflexivity|]].
  - destruct rows as [|r0 rows]; [reflexivity|].
    change (firstn 5 (r0 :: rows)) with (r0 :: firstn 4 rows).
    unfold _format_rows.
    change (firstn 5 (r0 :: firstn 4 rows)) with (r0 :: firstn 4 (firstn 4 rows)).
    rewrite firstn_firstn. reflexivity.
  - intros e. destruct rows as [|r0 rows]; [discriminate|].
    unfold _format_rows. cbn [hd].
    destruct (map_result (format_row (Dict.keys r0)) (firstn 5 (r0 :: rows)))
      as [ls|e1] eqn:E; [discriminate|].
    intros H. injection H as <-.
    destruct (map_result_raise _ _ _ E) as [r [Hr Hfr]].
    unfold format_row in Hfr.
    destruct (map_result _ (Dict.keys r0)) as [parts|e2] eqn:E2; [discriminate|].
    injection Hfr as <-.
    destruct (map_result_raise _ _ _ E2) as [col [Hcol Hfc]].
    unfold getitem in Hfc.
    destruct (Dict.get col r) eqn:Eg; [discriminate|].
    injection Hfc as <-. now exists r, col.
Qed.

(** Without an identifier each table costs exactly its sampling query. *)
Lemma snapshot_tables_sampling (ident : option string) (tables : list value)
    (lines : list string) (p : proc) :
  opt_truthy ident = false ->
  exists p' lines',
    snapshot_tables ident tables lines p = (p', Ok lines') /\
    trace p' = (trace p ++ map sample_event tables)%list.
Proof.
  intros Hid. revert lines p.
  induction tables as [|t tables IH]; intros lines p.
  - exists p, lines. cbn. now rewrite app_nil_r.
  - cbn [snapshot_tables map]. unfold bind at 1, snapshot_table, bind.
    assert (Hfound :
      match ident with
      | Some id0 =>
          if opt_truthy ident
          then try_columns t id0 candidate_columns
                 (append lines (PyStr.nl ++ "Table: " ++ py_str t)) []
          else ret (append lines (PyStr.nl ++ "Table: " ++ py_str t), [])
      | None => ret (append lines (PyStr.nl ++ "Table: " ++ py_str t), [])
      end = ret (append lines (PyStr.nl ++ "Table: " ++ py_str t), [])).
    { destruct ident; [now rewrite Hid | reflexivity]. }
    rewrite Hfound. cbn [ret fst snd].
    destruct (sample_table_probe t
                (append lines (PyStr.nl ++ "Table: " ++ py_str t)) p)
      as [p1 [l1 [-> Htr]]].
    destruct (IH l1 p1) as [p' [l' [-> Htr']]].
    exists p', l'. split; [reflexivity|].
    now rewrite Htr', Htr, <- app_assoc.
Qed.

(** X9. With no customer identifier ([None] or the empty string) the
    snapshot builder makes no filter query: after the table listing it makes
    exactly one sampling query per table, in the order of the listing. *)
Theorem snapshot_without_identifier (ident : option string) (p p1 : proc)
    (tables : list value) :
  opt_truthy ident = false ->
  get_tables p = (p1, Ok tables) ->
  trace (fst (_build_db_snapshot ident p))
  = (trace p1 ++ map sample_event tables)%list.
Proof.
  intros Hid Htab. unfold _build_db_snapshot. rewrite Htab.
  destruct tables as [|t tables]; [cbn; now rewrite app_nil_r|].
  unfold bind.
  destruct (snapshot_tables_sampling ident (t :: tables)
              ["Database URI: " ++ get_db_uri; "Discovered tables:"] p1 Hid)
    as [p' [l' [-> Htr]]].
  exact Htr.
Qed.

(** The column loop makes at most one query per column. *)
Lemma try_columns_query_count table ident cols lines filtered p :
  (length (trace (fst (try_columns table ident cols lines filtered p)))
   <= length (trace p) + length cols)%nat.
Proof.
  revert lines filtered p. induction cols as [|col cols IH]; intros lines filtered p.
  - cbn. lia.
  - cbn [try_columns length]. unfold run_query, extern.
    set (p1 := log_event _ p).
    assert (Hp1 : length (trace p1) = S (length (trace p))).
    { subst p1. rewrite trace_log_event, length_app. cbn. lia. }
    destruct (sqlite_execute (trace p) _ _) as [[|r rows]|e].
    + specialize (IH lines [] p1). lia.
    + destruct (_format_rows (r :: rows)).
      * cbn [fst]. lia.
      * specialize (IH (append lines
                          ("  Rows for " ++ col ++ " = "
                           ++ py_repr (VStr ident) ++ ":")) (r :: rows) p1). lia.
    + specialize (IH lines filtered p1). lia.
Qed.

Lemma snapshot_table_query_count ident table lines p :
  (length (trace (fst (snapshot_table ident table lines p)))
   <= length (trace p) + 7)%nat.
Proof.
  unfold snapshot_table, bind.
  assert (Hsample : forall l q,
    length (trace (fst (sample_table table l q))) = S (length (trace q))).
  { intros l q. destruct (sample_table_probe table l q) as [q' [l' [-> Htr]]].
    cbn [fst]. rewrite Htr, length_app. cbn. lia. }
  destruct ident as [id0|]; [destruct (opt_truthy (Some id0))|].
  - pose proof (try_columns_query_count table id0 candidate_columns
                  (append lines (PyStr.nl ++ "Table: " ++ py_str table)) [] p) as Hc.
    destruct (try_columns_returns table id0 candidate_columns
                (append lines (PyStr.nl ++ "Table: " ++ py_str table)) [] p)
      as [p1 [found E]].
    rewrite E in Hc |- *. cbn [fst] in Hc. cbn [length candidate_columns] in Hc.
    destruct (snd found).
    + rewrite Hsample. lia.
    + cbn [ret fst]. lia.
  - cbn [ret snd fst]. rewrite Hsample. lia.
  - cbn [ret snd fst]. rewrite Hsample. lia.
Qed.

Lemma snapshot_tables_query_count ident tables lines p :
  (length (trace (fst (snapshot_tables ident tables lines p)))
   <= length (trace p) + 7 * length tables)%nat.
Proof.
  revert lines p. induction tables as [|t tables IH]; intros lines p.
  - cbn. lia.
  - cbn [snapshot_tables length]. unfold bind.
    pose proof (snapshot_table_query_count ident t lines p) as Ht.
    destruct (snapshot_table_returns ident t lines p) as [p1 [l1 E]].
    rewrite E in Ht |- *. cbn [fst] in Ht.
    specialize (IH l1 p1). lia.
Qed.

(** X10. The snapshot builder makes a bounded number of queries: the table
    listing, and at most seven per listed table (six candidate columns and
    one sample). *)
Theorem snapshot_query_bound (ident : option string) (p p1 : proc)
    (tables : list value) :
  get_tables p = (p1, Ok tables) ->
  (length (trace (fst (_build_db_snapshot ident p)))
   <= length (trace p) + 1 + 7 * length tables)%nat.
Proof.
  intros Htab.
  assert (Hp1 : length (trace p1) = (length (trace p) + 1)%nat).
  { revert Htab. unfold get_tables, bind, run_query, extern, lift.
    destruct (sqlite_execute (trace p) get_tables_sql []);
      intros H; injection H as <- _;
      rewrite trace_log_event, length_app; reflexivity. }
  unfold _build_db_snapshot. rewrite Htab.
  destruct tables as [|t tables]; [cbn [fst length]; lia|].
  unfold bind.
  pose proof (snapshot_tables_query_count ident (t :: tables)
                ["Database URI: " ++ get_db_uri; "Discovered tables:"] p1) as Hc.
  destruct (snapshot_tables_returns ident (t :: tables)
              ["Database URI: " ++ get_db_uri; "Discovered tables:"] p1)
    as [p' [l' E]].
  rewrite E in Hc |- *. unfold ret. cbn [fst length] in Hc |- *. lia.
Qed.

(** X11. A store that cannot list its tables does not stop the billing
    handler: the failure becomes the snapshot text, no further query is made,
    and the crew is run on that text. *)
Theorem billing_handler_store_down (ident : option string) (q : string)
    (p : proc) (e : exn) (answer : string) :
  let note := "(Failed to inspect database tables: " ++ exn_text e ++ ")" in
  let inputs := [("customer_identifier", opt_or_str ident "unknown");
                 ("query", q); ("db_snapshot", note)] in
  let listing := SqlExecute get_tables_sql [] in
  sqlite_execute (trace p) get_tables_sql [] = Raise e ->
  opt_truthy env_OPENAI_API_KEY = true ->
  crew_kickoff (trace p ++ [listing])%list get_openai_model "0.2" inputs = Ok answer ->
  _build_db_snapshot ident p = (log_event listing p, Ok note) /\
  process_billing_query ident q p
  = (log_event (CrewKickoff get_openai_model "0.2" inputs) (log_event listing p),
     Ok answer).
Proof.
  cbv zeta. intros Hdb Hkey Hcrew.
  assert (Hsnap : _build_db_snapshot ident p
                  = (log_event (SqlExecute get_tables_sql []) p,
                     Ok ("(Failed to inspect database tables: " ++ exn_text e ++ ")"))).
  { unfold _build_db_snapshot, get_tables, bind, run_query, extern.
    now rewrite Hdb. }
  split; [exact Hsnap|].
  unfold process_billing_query, bind at 1. rewrite Hsnap.
  unfold bind, create_billing_crew, billing_build_llm, get_openai_api_key.
  rewrite Hkey. unfold ret, extern. cbn [llm_model llm_temperature].
  rewrite trace_log_event, Hcrew. reflexivity.
Qed.

End SnapshotMore.

Lemma snapshot_without_identifier_witness :
  trace (fst (@_build_db_snapshot Demo.world None Demo.start))
  = ([SqlExecute get_tables_sql []]
     ++ map (@sample_event Demo.world)
          [VStr "customer_usage"; VStr "customers"; VStr "service_plans"])%list.
Proof.
  exact (@snapshot_without_identifier Demo.world None Demo.start
           {| trace := [SqlExecute get_tables_sql []]; INDEX := None;
              session := Demo.fresh_session |}
           [VStr "customer_usage"; VStr "customers"; VStr "service_plans"]
           eq_refl eq_refl).
Defined.

Lemma snapshot_query_bound_witness :
  (length (trace (fst (@_build_db_snapshot Demo.world
                         (Some "asha@example.com") Demo.start)))
   <= length (trace Demo.start) + 1 + 7 * 3)%nat.
Proof.
  exact (@snapshot_query_bound Demo.world (Some "asha@example.com") Demo.start
           {| trace := [SqlExecute get_tables_sql []]; INDEX := None;
              session := Demo.fresh_session |}
           [VStr "customer_usage"; VStr "customers"; VStr "service_plans"]
           eq_refl).
Defined.

Lemma billing_handler_store_down_witness :
  @_build_db_snapshot Cases.db_down (Some "asha@example.com") Demo.start
  = (log_event (SqlExecute get_tables_sql []) Demo.start,
     Ok ("(Failed to inspect database tables: "
         ++ exn_text Cases.cannot_open ++ ")")) /\
  @process_billing_query Cases.db_down (Some "asha@example.com")
    "What is my current bill?" Demo.start
  = (log_event
       (CrewKickoff (@get_openai_model Cases.db_down) "0.2"
          [("customer_identifier", opt_or_str (Some "asha@example.com") "unknown");
           ("query", "What is my current bill?");
           ("db_snapshot",
            "(Failed to inspect database tables: "
            ++ exn_text Cases.cannot_open ++ ")")])
       (log_event (SqlExecute get_tables_sql []) Demo.start),
     Ok "Your May bill is 799.").
Proof.
  exact (@billing_handler_store_down Cases.db_down (Some "asha@example.com")
           "What is my current bill?" Demo.start Cases.cannot_open
           "Your May bill is 799." eq_refl eq_refl eq_refl).
Defined.

(** ** The classifier under surrounding text *)

Lemma occurs_in_front (w q post : string) :
  PyStr.occurs_in w q -> PyStr.occurs_in w (q ++ post).
Proof.
  intros [pre [rest ->]]. exists pre, (rest ++ post).
  now rewrite !str_app_assoc.
Qed.

Section ClassifierMore.
Context `{W : World}.

Lemma mentions_embedded (terms : list string) (pre q post : string) :
  str_lower (pre ++ q ++ post) = str_lower pre ++ str_lower q ++ str_lower post ->
  mentions terms (str_lower q) ->
  mentions terms (str_lower (pre ++ q ++ post)).
Proof.
  intros Hlow [w [Hin Hw]]. exists w. split; [exact Hin|].
  rewrite Hlow. apply occurs_in_tail. now apply occurs_in_front.
Qed.

(** X12. Text put before or after a query cannot take a match away, as long
    as lowercasing the whole text lowercases the three pieces where they
    stand (as it does for ASCII text): a query classified as billing stays
    billing, and a query that is not [fallback] never becomes [fallback]. *)
Theorem surrounding_text_keeps_match (pre q post : string) :
  str_lower (pre ++ q ++ post) = str_lower pre ++ str_lower q ++ str_lower post ->
  (classify q = "billing_account" ->
   classify (pre ++ q ++ post) = "billing_account") /\
  (classify q <> "fallback" -> classify (pre ++ q ++ post) <> "fallback").
Proof.
  intros Hlow.
  assert (Hkeep : forall terms,
             any_in terms (str_lower q) = true ->
             any_in terms (str_lower (pre ++ q ++ post)) = true).
  { intros terms H. apply any_in_spec. apply mentions_embedded; [exact Hlow|].
    now apply any_in_spec. }
  split.
  - unfold classify at 1.
    destruct (any_in billing_terms (str_lower q)) eqn:Eb.
    + intros _. unfold classify. now rewrite (Hkeep _ Eb).
    + destruct (any_in network_terms _); [discriminate|].
      destruct (any_in plan_terms _); [discriminate|].
      destruct (any_in howto_terms _); discriminate.
  - unfold classify at 1.
    intros Hq.
    assert (Hsome : forall terms,
               any_in terms (str_lower (pre ++ q ++ post)) = true ->
               In terms [billing_terms; network_terms; plan_terms; howto_terms] ->
               classify (pre ++ q ++ post) <> "fallback").
    { intros terms Ht Hin. unfold classify. simpl in Hin.
      destruct Hin as [<-|[<-|[<-|[<-|[]]]]]; rewrite Ht;
        repeat match goal with
               | |- context [if any_in ?t ?x then _ else _] => destruct (any_in t x)
               end; discriminate. }
    destruct (any_in billing_terms (str_lower q)) eqn:Eb;
      [apply (Hsome _ (Hkeep _ Eb)); simpl; tauto|].
    destruct (any_in network_terms (str_lower q)) eqn:En;
      [apply (Hsome _ (Hkeep _ En)); simpl; tauto|].
    destruct (any_in plan_terms (str_lower q)) eqn:Ep;
      [apply (Hsome _ (Hkeep _ Ep)); simpl; tauto|].
    destruct (any_in howto_terms (str_lower q)) eqn:Eh;
      [apply (Hsome _ (Hkeep _ Eh)); simpl; tauto|].
    now destruct Hq.
Qed.

End ClassifierMore.

Lemma surrounding_text_keeps_match_witness :
  @str_lower Demo.world ("About " ++ "my bill" ++ " and the slow network")
  = "about my bill and the slow network" /\
  @classify Demo.world "my bill" = "billing_account" /\
  @classify Demo.world ("About " ++ "my bill" ++ " and the slow network")
  = "billing_account" /\
  @classify Demo.world ("About " ++ "my bill" ++ " and the slow network")
  <> "fallback".
Proof.
  destruct (@surrounding_text_keeps_match Demo.world
              "About " "my bill" " and the slow network" eq_refl) as [Hb Hf].
  split; [reflexivity|]. split; [reflexivity|]. split.
  - apply Hb. reflexivity.
  - apply Hf. discriminate.
Defined.

(** ** The whole run of the graph *)

Section GraphMore.
Context `{W : World}.

(** The handler the graph runs for a state, by the label of its query. *)
Lemma routed_handler (st : TelecomAssistantState) (f : node_fn) :
  Dict.get (route_query (classify_query st)) (sg_nodes workflow) = Some f ->
  (classify (query st) = "billing_account" /\ f = crew_ai_node) \/
  (classify (query st) = "network_troubleshooting" /\ f = autogen_node) \/
  (classify (query st) = "service_recommendation" /\ f = langchain_node) \/
  (classify (query st) = "knowledge_retrieval" /\ f = llamaindex_node) \/
  (classify (query st) = "fallback" /\ f = (fun s => ret (fallback_handler s))).
Proof.
  change (route_query (classify_query st)) with (route (classify (query st))).
  rewrite workflow_nodes.
  pose proof (classify_in_intent_labels (query st)) as Hin.
  unfold intent_labels in Hin. simpl in Hin.
  destruct Hin as [<-|[<-|[<-|[<-|[<-|[]]]]]]; cbn; intros H; injection H as <-;
    tauto.
Qed.

(** X13. A request that is not classified as a knowledge question always
    gets through the graph: [invoke] returns a state, whatever the store and
    the model services do; the step limit of the graph is never reached. *)
Theorem invoke_returns_unless_knowledge (st : TelecomAssistantState) (p : proc) :
  classify (query st) <> "knowledge_retrieval" ->
  exists p' st', invoke workflow st p = (p', Ok st').
Proof.
  intros Hk.
  destruct (invoke_workflow st p) as [f [Hf ->]].
  unfold bind.
  destruct (routed_handler st f Hf)
    as [[_ ->]|[[_ ->]|[[_ ->]|[[Hc _]|[_ ->]]]]].
  - destruct (guarded_nodes_return (classify_query st) p) as [[p' [a [-> _]]] _].
    do 2 eexists. reflexivity.
  - destruct (guarded_nodes_return (classify_query st) p) as [_ [[p' [a [-> _]]] _]].
    do 2 eexists. reflexivity.
  - destruct (guarded_nodes_return (classify_query st) p) as [_ [_ [p' [a [-> _]]]]].
    do 2 eexists. reflexivity.
  - contradiction.
  - do 2 eexists. reflexivity.
Qed.

(** X14. What a run hands back: the state it was given with the label of
    the query as classification, one response stored under the key of that
    label's handler, and that same response as final response; query,
    customer and transcript are as they were. *)
Theorem invoke_result_shape (st st' : TelecomAssistantState) (p p' : proc) :
  invoke workflow st p = (p', Ok st') ->
  exists k v,
    In (classify (query st), k) response_keys /\
    st' = {| query := query st;
             customer_info := customer_info st;
             classification := Some (classify (query st));
             intermediate_responses := Some [(k, v)];
             final_response := Some v;
             chat_history := chat_history st |}.
Proof.
  destruct (invoke_workflow st p) as [f [Hf ->]].
  unfold bind, ret.
  destruct (f (classify_query st) p) as [p1 [st1|e]] eqn:E; [|discriminate].
  intros H. injection H as _ <-.
  unfold response_keys.
  destruct (routed_handler st f Hf)
    as [[Hc ->]|[[Hc ->]|[[Hc ->]|[[Hc ->]|[Hc ->]]]]]; rewrite Hc in *.
  - destruct (guarded_nodes_return (classify_query st) p) as [[q1 [a [E1 _]]] _].
    rewrite E1 in E. injection E as _ <-.
    exists "crew_ai", a. split; [simpl; tauto|].
    unfold formulate_response, with_intermediate_responses, with_final_response,
      classify_query, with_classification. cbn. now rewrite Hc.
  - destruct (guarded_nodes_return (classify_query st) p) as [_ [[q1 [a [E1 _]]] _]].
    rewrite E1 in E. injection E as _ <-.
    exists "autogen", a. split; [simpl; tauto|].
    unfold formulate_response, with_intermediate_responses, with_final_response,
      classify_query, with_classification. cbn. now rewrite Hc.
  - destruct (guarded_nodes_return (classify_query st) p) as [_ [_ [q1 [a [E1 _]]]]].
    rewrite E1 in E. injection E as _ <-.
    exists "langchain", a. split; [simpl; tauto|].
    unfold formulate_response, with_intermediate_responses, with_final_response,
      classify_query, with_classification. cbn. now rewrite Hc.
  - unfold llamaindex_node, bind in E.
    destruct (answer_knowledge_query _ _ p) as [q1 [a|e]]; [|discriminate].
    injection E as _ <-.
    exists "llamaindex", a. split; [simpl; tauto|].
    unfold formulate_response, with_intermediate_responses, with_final_response,
      classify_query, with_classification. cbn. now rewrite Hc.
  - injection E as _ <-.
    exists "fallback", fallback_text. split; [simpl; tauto|].
    unfold formulate_response, with_intermediate_responses, with_final_response,
      fallback_handler, with_intermediate_responses,
      classify_query, with_classification. cbn. now rewrite Hc.
Qed.

(** X15. The network node's own [except] branch never runs: the handler it
    calls catches everything itself, so the node always stores exactly the
    text that [process_network_query] returned, and the node's apology text
    is never the answer because of an exception. *)
Theorem network_node_stores_handler_text (st : TelecomAssistantState) (p : proc) :
  exists p' answer,
    process_network_query (query st) (customer_identifier_of st) p = (p', Ok answer) /\
    autogen_node st p
    = (p', Ok (with_intermediate_responses [("autogen", answer)] st)).
Proof.
  destruct (process_network_query_returns (query st) (customer_identifier_of st) p)
    as [p' [a E]].
  exists p', a. split; [exact E|].
  unfold autogen_node, bind, try_except. now rewrite E.
Qed.

End GraphMore.

Lemma invoke_returns_unless_knowledge_witness :
  exists p' st',
    @invoke Cases.db_down (@workflow Cases.db_down)
      (Demo.request "What is my current bill?" (Some "asha@example.com"))
      Demo.start = (p', Ok st').
Proof.
  apply (@invoke_returns_unless_knowledge Cases.db_down). discriminate.
Defined.

Lemma invoke_result_shape_witness :
  exists k v,
    In (@classify Demo.world "My internet is slow", k) response_keys /\
    snd (@invoke Demo.world (@workflow Demo.world)
           (Demo.request "My internet is slow" None) Demo.start)
    = Ok {| query := "My internet is slow";
            customer_info := Some [("email", None)];
            classification := Some (@classify Demo.world "My internet is slow");
            intermediate_responses := Some [(k, v)];
            final_response := Some v;
            chat_history := [] |}.
Proof.
  destruct (@invoke_result_shape Demo.world
              (Demo.request "My internet is slow" None) _ Demo.start _ eq_refl)
    as [k [v [Hk Hst]]].
  exists k, v. split; [exact Hk|]. exact (f_equal Ok Hst).
Defined.

(** ** Failing model calls and absent customers *)

Section HandlersMore.
Context `{W : World}.

Lemma build_client_with_key (key : string) (p : proc) :
  env_OPENAI_API_KEY = Some key -> key <> EmptyString ->
  _build_client p = (p, Ok key).
Proof.
  intros Hkey Hne. unfold _build_client, get_openai_api_key. rewrite Hkey.
  destruct (key =? EmptyString) eqn:E; [|reflexivity].
  apply String.eqb_eq in E. contradiction.
Qed.

(** X16. A model failure inside the network handler ends the chain where it
    happens and becomes the handler's failure text: when the diagnostic call
    raises, the rewrite call is never made; when the rewrite call raises,
    the diagnostic text is dropped and only the failure is reported. *)
Theorem network_handler_model_failure (q : string) (ident : option string)
    (p : proc) (key : string) :
  let m1 := [("system", diagnostics_system_prompt);
             ("user", diagnostics_message q ident)] in
  let e1 := ChatCompletionsCreate get_openai_model m1 "0.2" in
  env_OPENAI_API_KEY = Some key ->
  key <> EmptyString ->
  (forall e,
      chat_completions_create (trace p) get_openai_model m1 "0.2" = Raise e ->
      process_network_query q ident p
      = (log_event e1 p, Ok ("Network troubleshooting failed: " ++ exn_text e))) /\
  (forall d e,
      let m2 := [("system", resolution_system_prompt);
                 ("user", resolution_message d)] in
      let e2 := ChatCompletionsCreate get_openai_model m2 "0.4" in
      chat_completions_create (trace p) get_openai_model m1 "0.2" = Ok d ->
      chat_completions_create (trace p ++ [e1])%list get_openai_model m2 "0.4"
      = Raise e ->
      process_network_query q ident p
      = (log_event e2 (log_event e1 p),
         Ok ("Network troubleshooting failed: " ++ exn_text e))).
Proof.
  cbv zeta. intros Hkey Hne.
  assert (Hclient : forall s, _build_client s = (s, Ok key))
    by (intros s; now apply build_client_with_key).
  split.
  - intros e H.
    unfold process_network_query, try_except, bind, _diagnostics_agent, bind, extern.
    now rewrite Hclient, H.
  - intros d e H1 H2.
    unfold process_network_query, try_except, bind,
      _diagnostics_agent, _resolution_agent, bind, extern.
    rewrite Hclient, H1, Hclient. cbn [trace log_event]. now rewrite H2.
Qed.

(** X17. Without a customer email ([None] or the empty string) the plan
    handler reads only the table list and the plan catalogue: it queries
    neither [customers] nor [customer_usage], and the one model call gets the
    two placeholder blobs with the query and the catalogue. *)
Theorem plan_handler_anonymous (email : option string) (user_query : string)
    (p : proc) (table_rows : list row) (tables : list value)
    (plans : list row) (plan_text content : string) :
  let h := trace p in
  let e1 := SqlExecute get_tables_sql [] in
  let e2 := SqlExecute plans_sql [] in
  let messages :=
    [("system", plan_system_prompt);
     ("user", plan_user_prompt user_query
                ("No customer profile available." ++ PyStr.nl)
                ("No usage data available." ++ PyStr.nl) plan_text)] in
  let e3 := ChatOpenAIInvoke get_openai_model "0.2" messages in
  opt_truthy email = false ->
  sqlite_execute h get_tables_sql [] = Ok table_rows ->
  map_result (getitem "name") table_rows = Ok tables ->
  py_in (VStr "service_plans") tables = true ->
  sqlite_execute (h ++ [e1])%list plans_sql [] = Ok plans ->
  plan_text_of plans = Ok plan_text ->
  opt_truthy env_OPENAI_API_KEY = true ->
  chat_openai_invoke (h ++ [e1; e2])%list get_openai_model "0.2" messages = Ok content ->
  recommend_personalized_plan email user_query p
  = (log_event e3 (log_event e2 (log_event e1 p)), Ok content).
Proof.
  cbv zeta. intros Hemail Htab Hnames Hsp Hplans Hpt Hkey Hllm.
  assert (Hprofile :
    _load_customer_profile email p
    = (log_event (SqlExecute plans_sql []) (log_event (SqlExecute get_tables_sql []) p),
       Ok {| pf_customer := None; pf_current_plan := None;
             pf_usage := None; pf_plans := Some plans |})).
  { unfold _load_customer_profile, get_tables.
    unfold bind at 1. unfold bind at 1.
    rewrite (run_query_answer_none _ _ _ Htab). unfold lift at 1.
    rewrite Hnames, Hsp.
    unfold bind at 1. unfold bind at 1.
    rewrite (run_query_answer_none plans_sql _ plans)
      by (rewrite trace_log_event; exact Hplans).
    unfold ret at 1.
    destruct email as [s|]; [|reflexivity].
    unfold opt_truthy in Hemail.
    destruct (s =? EmptyString); [reflexivity | discriminate]. }
  unfold recommend_personalized_plan. unfold bind at 1. rewrite Hprofile.
  cbn [pf_plans pf_customer pf_current_plan pf_usage].
  unfold bind at 1, lift at 1. rewrite Hpt.
  unfold bind at 1, lift at 1, customer_text_of.
  unfold bind at 1, lift at 1, usage_text_of.
  unfold bind at 1, service_build_llm, get_openai_api_key.
  rewrite Hkey. unfold ret at 1.
  cbn [llm_model llm_temperature]. unfold extern.
  rewrite !trace_log_event, <- !app_assoc. cbn [app].
  rewrite Hllm. reflexivity.
Qed.

(** X18. For an email that [customers] does not hold, the plan handler
    stops its lookups after the empty answer: it does not query
    [customer_usage], and the model call gets the same two placeholder blobs
    as for no email at all. *)
Theorem plan_handler_unknown_email (email user_query : string)
    (p : proc) (table_rows : list row) (tables : list value)
    (plans : list row) (plan_text content : string) :
  let h := trace p in
  let e1 := SqlExecute get_tables_sql [] in
  let e2 := SqlExecute plans_sql [] in
  let e3 := SqlExecute customer_sql [("email", VStr email)] in
  let messages :=
    [("system", plan_system_prompt);
     ("user", plan_user_prompt user_query
                ("No customer profile available." ++ PyStr.nl)
                ("No usage data available." ++ PyStr.nl) plan_text)] in
  let e4 := ChatOpenAIInvoke get_openai_model "0.2" messages in
  email <> EmptyString ->
  sqlite_execute h get_tables_sql [] = Ok table_rows ->
  map_result (getitem "name") table_rows = Ok tables ->
  py_in (VStr "service_plans") tables = true ->
  sqlite_execute (h ++ [e1])%list plans_sql [] = Ok plans ->
  sqlite_execute (h ++ [e1; e2])%list customer_sql [("email", VStr email)] = Ok [] ->
  plan_text_of plans = Ok plan_text ->
  opt_truthy env_OPENAI_API_KEY = true ->
  chat_openai_invoke (h ++ [e1; e2; e3])%list get_openai_model "0.2" messages
  = Ok content ->
  recommend_personalized_plan (Some email) user_query p
  = (log_event e4 (log_event e3 (log_event e2 (log_event e1 p))), Ok content).
Proof.
  cbv zeta. intros Hemail Htab Hnames Hsp Hplans Hcust Hpt Hkey Hllm.
  assert (Hprofile :
    _load_customer_profile (Some email) p
    = (log_event (SqlExecute customer_sql [("email", VStr email)])
         (log_event (SqlExecute plans_sql [])
            (log_event (SqlExecute get_tables_sql []) p)),
       Ok {| pf_customer := None; pf_current_plan := None;
             pf_usage := None; pf_plans := Some plans |})).
  { unfold _load_customer_profile, get_tables.
    unfold bind at 1. unfold bind at 1.
    rewrite (run_query_answer_none _ _ _ Htab). unfold lift at 1.
    rewrite Hnames, Hsp.
    unfold bind at 1. unfold bind at 1.
    rewrite (run_query_answer_none plans_sql _ plans)
      by (rewrite trace_log_event; exact Hplans).
    unfold ret at 1.
    destruct (email =? EmptyString) eqn:E;
      [apply String.eqb_eq in E; contradiction|].
    unfold bind at 1.
    rewrite (run_query_answer customer_sql _ _ [])
      by (rewrite !trace_log_event, <- app_assoc; exact Hcust).
    reflexivity. }
  unfold recommend_personalized_plan. unfold bind at 1. rewrite Hprofile.
  cbn [pf_plans pf_customer pf_current_plan pf_usage].
  unfold bind at 1, lift at 1. rewrite Hpt.
  unfold bind at 1, lift at 1, customer_text_of.
  unfold bind at 1, lift at 1, usage_text_of.
  unfold bind at 1, service_build_llm, get_openai_api_key.
  rewrite Hkey. unfold ret at 1.
  cbn [llm_model llm_temperature]. unfold extern.
  rewrite !trace_log_event, <- !app_assoc. cbn [app].
  rewrite Hllm. reflexivity.
Qed.


End HandlersMore.

Lemma network_handler_model_failure_witness :
  @process_network_query Cases.model_down "My internet is slow" None Demo.start
  = (log_event
       (ChatCompletionsCreate (@get_openai_model Cases.model_down)
          [("system", diagnostics_system_prompt);
           ("user", diagnostics_message "My internet is slow" None)] "0.2")
       Demo.start,
     Ok ("Network troubleshooting failed: " ++ exn_text Cases.rate_limited)).
Proof.
  apply (@network_handler_model_failure Cases.model_down "My internet is slow"
           None Demo.start "sk-demo").
  - reflexivity.
  - discriminate.
  - reflexivity.
Defined.

Lemma plan_handler_anonymous_witness :
  snd (@recommend_personalized_plan Demo.world None
         "Recommend me a cheaper plan" Demo.start)
  = Ok "1. Basic Plan (BASIC_199)" /\
  length (trace (fst (@recommend_personalized_plan Demo.world None
                        "Recommend me a cheaper plan" Demo.start))) = 3%nat.
Proof.
  rewrite (@plan_handler_anonymous Demo.world None "Recommend me a cheaper plan"
             Demo.start Demo.table_names
             [VStr "customer_usage"; VStr "customers"; VStr "service_plans"]
             [Demo.plan_basic; Demo.plan_standard]
             (PyStr.text
                ["- Basic Plan (BASIC_199): ₹199 / month | 2GB | 300 min | 100 SMS";
                 "- Standard Plan (STD_500): ₹799 / month | 5GB | Unlimited | Unlimited"])
             "1. Basic Plan (BASIC_199)"
             eq_refl eq_refl eq_refl eq_refl eq_refl eq_refl eq_refl eq_refl).
  split; reflexivity.
Defined.

Lemma plan_handler_unknown_email_witness :
  snd (@recommend_personalized_plan Demo.world (Some "nobody@example.com")
         "Recommend me a cheaper plan" Demo.start)
  = Ok "1. Basic Plan (BASIC_199)" /\
  length (trace (fst (@recommend_personalized_plan Demo.world
                        (Some "nobody@example.com")
                        "Recommend me a cheaper plan" Demo.start))) = 4%nat.
Proof.
  rewrite (@plan_handler_unknown_email Demo.world "nobody@example.com"
             "Recommend me a cheaper plan"
             Demo.start Demo.table_names
             [VStr "customer_usage"; VStr "customers"; VStr "service_plans"]
             [Demo.plan_basic; Demo.plan_standard]
             (PyStr.text
                ["- Basic Plan (BASIC_199): ₹199 / month | 2GB | 300 min | 100 SMS";
                 "- Standard Plan (STD_500): ₹799 / month | 5GB | Unlimited | Unlimited"])
             "1. Basic Plan (BASIC_199)").
  - split; reflexivity.
  - discriminate.
  - reflexivity.
  - reflexivity.
  - reflexivity.
  - reflexivity.
  - reflexivity.
  - reflexivity.
  - reflexivity.
  - reflexivity.
Defined.


(** ** Login, logout and the chat tab *)

Section PageMore.
Context `{W : World}.

Lemma set_session_same (p : proc) : set_session (session p) p = p.
Proof. now destruct p. Qed.

(** X20. Logging in needs an email with an at sign and nothing else: for a
    logged-out session, [sidebar_login] makes the session logged in exactly
    when Login is pressed with a non-empty email that contains ["@"]; it then
    stores that email and the chosen user type and asks for a rerun, keeping
    the transcript; in every other case the process is left as it was. No
    call to the outside is made either way. *)
Theorem login_needs_at_sign (w : Widgets) (p : proc) :
  ss_authenticated (session p) = Some false ->
  exists p',
    sidebar_login w p = (p', Ok (logged_in p')) /\
    trace p' = trace p /\
    (logged_in p' = true <->
     w_login w = true /\ w_email w <> EmptyString /\
     PyStr.occurs_in "@" (w_email w)) /\
    (logged_in p' = true ->
     ss_email (session p') = Some (Some (w_email w)) /\
     ss_user_type (session p') = Some (Some (w_user_type w)) /\
     ss_chat_history (session p') = ss_chat_history (session p)) /\
    (logged_in p' = false -> p' = p).
Proof.
  intros Ha.
  assert (Hvalid :
    negb (w_email w =? EmptyString) && PyStr.str_in "@" (w_email w) = true <->
    w_email w <> EmptyString /\ PyStr.occurs_in "@" (w_email w)).
  { rewrite andb_true_iff, negb_true_iff, str_in_spec, String.eqb_neq. tauto. }
  unfold sidebar_login. unfold bind at 1.
  rewrite (attr_present _ _ p false Ha). cbn [negb].
  destruct (w_login w).
  - destruct (negb (w_email w =? EmptyString) && PyStr.str_in "@" (w_email w))
      eqn:E.
    + cbv [bind modify_session ret].
      match goal with |- exists p', (?a, _) = _ /\ _ => exists a end.
      split; [reflexivity|].
      cbn [trace session set_session set_authenticated set_user_type set_email
           logged_in ss_authenticated ss_email ss_user_type ss_chat_history].
      repeat split; try tauto; try reflexivity; try discriminate.
    + exists p. unfold ret, logged_in. rewrite Ha.
      repeat split; try tauto; discriminate.
  - exists p. unfold ret, logged_in. rewrite Ha.
    repeat split; try tauto; discriminate.
Qed.

(** X21. Logout forgets the customer and nothing else: for a logged-in
    session, pressing Logout sets the login flag to false, the user type and
    the email to [None] and the transcript to the empty list, asks for a
    rerun, and leaves the graph keys, the calls made so far and the knowledge
    index as they were. *)
Theorem logout_forgets_customer (w : Widgets) (p : proc)
    (u e : option string) :
  ss_authenticated (session p) = Some true ->
  ss_user_type (session p) = Some u ->
  ss_email (session p) = Some e ->
  w_logout w = true ->
  sidebar_login w p
  = ({| trace := trace p; INDEX := INDEX p;
        session := {| ss_authenticated := Some false;
                      ss_user_type := Some None;
                      ss_email := Some None;
                      ss_chat_history := Some [];
                      ss_graph := ss_graph (session p);
                      ss_graph_loaded := ss_graph_loaded (session p);
                      ss_graph_error := ss_graph_error (session p) |} |},
     Ok true).
Proof.
  intros Ha Hu He Hw.
  unfold sidebar_login. unfold bind at 1.
  rewrite (attr_present _ _ p true Ha). cbn [negb].
  unfold bind at 1. rewrite (attr_present _ _ p u Hu).
  unfold bind at 1. rewrite (attr_present _ _ p e He).
  rewrite Hw. reflexivity.
Qed.

Lemma show_turns_ok (h : list turn) :
  forallb shown h = true -> exists us, map_result show_turn h = Ok us.
Proof.
  intros H. apply map_result_ok. intros t Ht.
  rewrite forallb_forall in H. specialize (H t Ht).
  unfold shown in H. unfold show_turn, turn_item.
  destruct (Dict.get "role" t); [|discriminate].
  destruct (Dict.get "content" t); [|discriminate].
  now exists tt.
Qed.

(** With its keys set, a request from the page always comes back as text. *)
Lemma run_query_through_graph_returns (q : string) (p : proc)
    (g : bool) (e : option string) (h : list turn) :
  ss_graph (session p) = Some g ->
  ss_email (session p) = Some e ->
  ss_chat_history (session p) = Some h ->
  exists p' response,
    run_query_through_graph q p = (p', Ok response) /\ session p' = session p.
Proof.
  intros Hg He Hh.
  pose proof (keeps_run_query_through_graph q p) as Hkeep.
  assert (Hok : exists p' response, run_query_through_graph q p = (p', Ok response)).
  { unfold run_query_through_graph. unfold bind at 1, get_session at 1.
    destruct (ss_graph_loaded (session p)) as [[|]|];
      try (do 2 eexists; reflexivity).
    unfold bind at 1. rewrite (attr_present _ _ p g Hg).
    destruct g; [|do 2 eexists; reflexivity].
    unfold run_loaded_graph. unfold bind at 1. rewrite (attr_present _ _ p e He).
    unfold bind at 1. rewrite (attr_present _ _ p h Hh).
    unfold try_except, bind.
    destruct (invoke workflow (initial_state q e h) p) as [p1 [st1|e1]];
      do 2 eexists; reflexivity. }
  destruct Hok as [p' [response E]].
  exists p', response. split; [exact E|]. now rewrite E in Hkeep.
Qed.

(** The chat tab on a session whose keys are set. *)
Lemma customer_view_effect (w : Widgets) (p : proc)
    (g : bool) (e : option string) (h : list turn) :
  ss_graph (session p) = Some g ->
  ss_email (session p) = Some e ->
  ss_chat_history (session p) = Some h ->
  forallb shown h = true ->
  (opt_truthy (w_chat_input w) = false /\ customer_view w p = (p, Ok tt)) \/
  (opt_truthy (w_chat_input w) = true /\
   exists p2 response,
     run_query_through_graph (opt_str (w_chat_input w))
       (set_session
          (set_chat_history
             (append h [("role", "user"); ("content", opt_str (w_chat_input w))])
             (session p)) p)
     = (p2, Ok response) /\
     customer_view w p
     = (set_session
          (set_chat_history
             (append
                (append h [("role", "user"); ("content", opt_str (w_chat_input w))])
                [("role", "assistant"); ("content", response)])
             (session p2)) p2, Ok tt) /\
     session p2
     = set_chat_history
         (append h [("role", "user"); ("content", opt_str (w_chat_input w))])
         (session p)).
Proof.
  intros Hg He Hh Hshown.
  destruct (show_turns_ok h Hshown) as [us Hus].
  set (prompt := opt_str (w_chat_input w)).
  assert (Hcv :
    customer_view w p
    = if opt_truthy (w_chat_input w)
      then (append_turn "user" prompt ;;;
            response <- run_query_through_graph prompt ;;
            append_turn "assistant" response) p
      else (p, Ok tt)).
  { unfold customer_view. unfold bind at 1. rewrite (attr_present _ _ p h Hh).
    unfold bind at 1, lift at 1. rewrite Hus.
    destruct (opt_truthy (w_chat_input w)); reflexivity. }
  rewrite Hcv. clear Hcv.
  destruct (opt_truthy (w_chat_input w)); [right | left; split; reflexivity].
  split; [reflexivity|].
  set (p1 := set_session
               (set_chat_history
                  (append h [("role", "user"); ("content", prompt)]) (session p)) p).
  assert (H1 : append_turn "user" prompt p = (p1, Ok tt)).
  { unfold append_turn, bind. rewrite (attr_present _ _ p h Hh). reflexivity. }
  assert (Hs1 : session p1
                = set_chat_history
                    (append h [("role", "user"); ("content", prompt)]) (session p))
    by (subst p1; now destruct p).
  destruct (run_query_through_graph_returns prompt p1 g e
              (append h [("role", "user"); ("content", prompt)]))
    as [p2 [response [Hrun Hsess]]];
    try (rewrite Hs1; cbn; assumption); try (rewrite Hs1; reflexivity).
  exists p2, response. split; [exact Hrun|]. split.
  - unfold bind at 1. rewrite H1. unfold bind at 1. rewrite Hrun.
    unfold append_turn, bind.
    rewrite (attr_present _ _ p2
               (append h [("role", "user"); ("content", prompt)])).
    + reflexivity.
    + rewrite Hsess, Hs1. reflexivity.
  - now rewrite Hsess.
Qed.

(** X22. One submitted message adds exactly two turns to the transcript of
    an initialised session. The chat tab first stores the user's turn, then
    sends the message through [run_query_through_graph] from that very
    state, and stores the text that call returned as the assistant's turn on
    the state that call left; it changes nothing else and does not raise. *)
Theorem chat_exchange_adds_two_turns (w : Widgets) (p : proc)
    (g : bool) (e : option string) (h : list turn) (prompt : string) :
  let user_turn := [("role", "user"); ("content", prompt)] in
  let p1 := set_session (set_chat_history (h ++ [user_turn])%list (session p)) p in
  ss_graph (session p) = Some g ->
  ss_email (session p) = Some e ->
  ss_chat_history (session p) = Some h ->
  forallb shown h = true ->
  w_chat_input w = Some prompt ->
  prompt <> EmptyString ->
  exists p2 response,
    run_query_through_graph prompt p1 = (p2, Ok response) /\
    session p2 = session p1 /\
    customer_view w p
    = (set_session
         (set_chat_history
            (h ++ [user_turn; [("role", "assistant"); ("content", response)]])%list
            (session p2)) p2,
       Ok tt) /\
    forallb shown
      (h ++ [user_turn; [("role", "assistant"); ("content", response)]])%list
    = true.
Proof.
  cbv zeta. intros Hg He Hh Hshown Hw Hne.
  destruct (customer_view_effect w p g e h Hg He Hh Hshown)
    as [[Hidle _]|[_ [p2 [response [Hrun [Hview Hsess]]]]]].
  - rewrite Hw in Hidle. unfold opt_truthy in Hidle.
    destruct (prompt =? EmptyString) eqn:E; [|discriminate].
    apply String.eqb_eq in E. contradiction.
  - rewrite Hw in Hrun, Hview, Hsess. cbn [opt_str] in Hrun, Hview, Hsess.
    unfold append in Hrun, Hview, Hsess.
    exists p2, response.
    split; [exact Hrun|]. split; [exact Hsess|]. split.
    + rewrite Hview. now rewrite <- app_assoc.
    + rewrite forallb_app, Hshown. reflexivity.
Qed.

End PageMore.

Lemma login_needs_at_sign_witness :
  exists p',
    sidebar_login (press_login "asha@example.com") logged_out_page
    = (p', Ok (logged_in p')) /\
    trace p' = trace logged_out_page /\
    (logged_in p' = true <->
     w_login (press_login "asha@example.com") = true /\
     w_email (press_login "asha@example.com") <> EmptyString /\
     PyStr.occurs_in "@" (w_email (press_login "asha@example.com"))) /\
    (logged_in p' = true ->
     ss_email (session p') = Some (Some (w_email (press_login "asha@example.com"))) /\
     ss_user_type (session p')
     = Some (Some (w_user_type (press_login "asha@example.com"))) /\
     ss_chat_history (session p') = ss_chat_history (session logged_out_page)) /\
    (logged_in p' = false -> p' = logged_out_page).
Proof.
  exact (login_needs_at_sign (press_login "asha@example.com")
           logged_out_page eq_refl).
Defined.

Lemma logout_forgets_customer_witness :
  sidebar_login press_logout Demo.proc_of_asha
  = ({| trace := []; INDEX := None;
        session := {| ss_authenticated := Some false;
                      ss_user_type := Some None;
                      ss_email := Some None;
                      ss_chat_history := Some [];
                      ss_graph := Some true;
                      ss_graph_loaded := Some true;
                      ss_graph_error := Some None |} |},
     Ok true).
Proof.
  exact (logout_forgets_customer press_logout Demo.proc_of_asha
           (Some "Customer") (Some "asha@example.com")
           eq_refl eq_refl eq_refl eq_refl).
Defined.

Lemma chat_exchange_adds_two_turns_witness :
  let user_turn := [("role", "user"); ("content", "My internet is slow")] in
  let p1 := set_session
              (set_chat_history (transcript Demo.proc_of_asha ++ [user_turn])%list
                 (session Demo.proc_of_asha)) Demo.proc_of_asha in
  exists p2 response,
    @run_query_through_graph Demo.world "My internet is slow" p1
    = (p2, Ok response) /\
    session p2 = session p1 /\
    @customer_view Demo.world (submit "My internet is slow") Demo.proc_of_asha
    = (set_session
         (set_chat_history
            (transcript Demo.proc_of_asha
             ++ [user_turn; [("role", "assistant"); ("content", response)]])%list
            (session p2)) p2,
       Ok tt) /\
    forallb shown
      (transcript Demo.proc_of_asha
       ++ [user_turn; [("role", "assistant"); ("content", response)]])%list
    = true.
Proof.
  apply (@chat_exchange_adds_two_turns Demo.world (submit "My internet is slow")
           Demo.proc_of_asha true (Some "asha@example.com")
           (transcript Demo.proc_of_asha) "My internet is slow");
    try reflexivity.
  discriminate.
Defined.

(** ** A graph that does not compile, and a page that does not crash *)

Section PageRuns.
Context `{W : World}.

(** X23. A failed compile of the graph is not tried again in the session:
    the first [init_session] makes the one compile call and records the
    failure; the next [init_session] makes no call and changes nothing; and
    every request is answered with the initialization error text holding the
    exception's message, without any call to a handler. *)
Theorem failed_compile_is_not_retried (p : proc) (e : exn) :
  ss_graph (session p) = None ->
  state_graph_compile (trace p) = Raise e ->
  exists p1,
    init_session p = (p1, Ok tt) /\
    trace p1 = (trace p ++ [CompileGraph])%list /\
    ss_graph_loaded (session p1) = Some false /\
    init_session p1 = (p1, Ok tt) /\
    (forall q,
        run_query_through_graph q p1
        = (p1, Ok ("⚠️ System initialization error: " ++ exn_msg e))).
Proof.
  destruct p as [tr idx [a u e0 h g gl ge]]. cbn [session trace ss_graph].
  intros -> Hc.
  unfold init_session, init_key, try_except, bind, create_graph, extern,
    get_session, modify_session, ret.
  destruct a, u, e0, h; cbn -[workflow]; rewrite Hc; cbn -[workflow];
    eexists; repeat split.
Qed.

(** [init_session] returns and leaves every key of the page set. *)
Lemma init_session_keys (p : proc) :
  exists p1 u e g,
    init_session p = (p1, Ok tt) /\
    ss_chat_history (session p1) = Some (transcript p) /\
    ss_authenticated (session p1) = Some (logged_in p) /\
    ss_user_type (session p1) = Some u /\
    ss_email (session p1) = Some e /\
    ss_graph (session p1) = Some g.
Proof.
  destruct p as [tr idx [a u e h g gl ge]].
  unfold init_session, transcript, logged_in.
  destruct a as [a|], u as [u|], e as [e|], h as [h|], g as [g|];
    cbn -[create_graph workflow];
    try (do 4 eexists; repeat split; reflexivity);
    unfold try_except, bind, create_graph, extern, modify_session;
    cbn -[workflow];
    destruct (state_graph_compile tr);
    cbn -[workflow]; do 4 eexists; repeat split; reflexivity.
Qed.

(** [sidebar_login] returns and keeps every key set; the transcript is as
    before or empty. *)
Lemma sidebar_login_keys (w : Widgets) (p : proc) (b g : bool)
    (u e : option string) (h : list turn) :
  ss_authenticated (session p) = Some b ->
  ss_user_type (session p) = Some u ->
  ss_email (session p) = Some e ->
  ss_chat_history (session p) = Some h ->
  ss_graph (session p) = Some g ->
  exists p2 r b2 u2 e2 h2,
    sidebar_login w p = (p2, Ok r) /\
    ss_authenticated (session p2) = Some b2 /\
    ss_user_type (session p2) = Some u2 /\
    ss_email (session p2) = Some e2 /\
    ss_chat_history (session p2) = Some h2 /\
    ss_graph (session p2) = Some g /\
    (h2 = h \/ h2 = []).
Proof.
  intros Ha Hu He Hh Hg.
  destruct p as [tr idx [a0 u0 e0 h0 g0 gl ge]]. simpl in *. subst.
  unfold sidebar_login, attr, bind, get_session, modify_session, ret. simpl.
  destruct b; simpl.
  - destruct (w_logout w); simpl; do 6 eexists; repeat split; tauto.
  - destruct (w_login w); simpl.
    + destruct (negb (w_email w =? EmptyString) && PyStr.str_in "@" (w_email w));
        simpl; do 6 eexists; repeat split; tauto.
    + do 6 eexists. repeat split; tauto.
Qed.

(** One run of [main] on a transcript that can be shown returns, and the
    transcript can still be shown. *)
Lemma main_returns (w : Widgets) (p : proc) :
  forallb shown (transcript p) = true ->
  exists p' r, main w p = (p', Ok r) /\ forallb shown (transcript p') = true.
Proof.
  intros Hshown.
  destruct (init_session_keys p) as [p1 [u [e [g [Hinit [Hh [Ha [Hu [He Hg]]]]]]]]].
  destruct (sidebar_login_keys w p1 _ g u e _ Ha Hu He Hh Hg)
    as [p2 [r [b2 [u2 [e2 [h2 [Hside [Ha2 [Hu2 [He2 [Hh2 [Hg2 Hcase]]]]]]]]]]]].
  assert (Hshown2 : forallb shown h2 = true)
    by (destruct Hcase as [->| ->]; [exact Hshown | reflexivity]).
  unfold main. unfold bind at 1. rewrite Hinit.
  unfold bind at 1. rewrite Hside.
  destruct r.
  - exists p2, true. split; [reflexivity|].
    now rewrite (transcript_of_history p2 h2 Hh2).
  - unfold bind at 1. rewrite (attr_present _ _ p2 b2 Ha2).
    assert (Hstay : forallb shown (transcript p2) = true)
      by now rewrite (transcript_of_history p2 h2 Hh2).
    destruct b2.
    + unfold bind at 1. unfold bind at 1. rewrite (attr_present _ _ p2 u2 Hu2).
      destruct u2 as [u0|]; [destruct (u0 =? "Customer")|];
        try (exists p2, false; split; [reflexivity | exact Hstay]).
      destruct (customer_view_effect w p2 g e2 h2 Hg2 He2 Hh2 Hshown2)
        as [[_ ->]|[_ [p3 [response [_ [-> _]]]]]].
      * exists p2, false. split; [reflexivity | exact Hstay].
      * eexists. exists false. split; [reflexivity|].
        unfold transcript, append. cbn.
        rewrite !forallb_app, Hshown2. reflexivity.
    + exists p2, false. split; [reflexivity | exact Hstay].
Qed.

(** X24. The page does not crash: whenever the transcript holds only turns
    with a role and a content (as every turn the page appends has), one
    interaction with the page returns, whatever the store, the model services
    and the graph do, and the transcript again holds only such turns. *)
Theorem page_does_not_crash (w : Widgets) (p : proc) :
  forallb shown (transcript p) = true ->
  exists p',
    script_run w p = (p', Ok tt) /\ forallb shown (transcript p') = true.
Proof.
  intros Hshown.
  destruct (main_returns w p Hshown) as [p1 [r [Hmain Hshown1]]].
  unfold script_run, bind at 1. rewrite Hmain.
  destruct r; [|exists p1; split; [reflexivity | exact Hshown1]].
  destruct (main_returns (rerun_widgets w) p1 Hshown1) as [p2 [r2 [Hmain2 Hshown2]]].
  unfold bind. rewrite Hmain2.
  exists p2. split; [reflexivity | exact Hshown2].
Qed.

End PageRuns.

Lemma failed_compile_is_not_retried_witness :
  exists p1,
    @init_session Cases.compile_fails Demo.start = (p1, Ok tt) /\
    trace p1 = (trace Demo.start ++ [CompileGraph])%list /\
    ss_graph_loaded (session p1) = Some false /\
    @init_session Cases.compile_fails p1 = (p1, Ok tt) /\
    (forall q,
        @run_query_through_graph Cases.compile_fails q p1
        = (p1, Ok ("⚠️ System initialization error: "
                   ++ exn_msg Cases.compile_error))).
Proof.
  exact (@failed_compile_is_not_retried Cases.compile_fails Demo.start
           Cases.compile_error eq_refl eq_refl).
Defined.

Lemma page_does_not_crash_witness :
  exists p',
    @script_run Demo.world_without_engine (submit "How do I enable VoLTE?")
      Demo.proc_of_asha = (p', Ok tt) /\
    forallb shown (transcript p') = true.
Proof.
  exact (@page_does_not_crash Demo.world_without_engine
           (submit "How do I enable VoLTE?") Demo.proc_of_asha eq_refl).
Defined.

(** ** What a request can raise, and what the page shows then *)

Section RequestErrors.
Context `{W : World}.

(** X25. The graph itself never fails: when [invoke] raises, the query was
    classified as a knowledge question and the exception is the one the
    knowledge handler raised on the classified state; neither the step limit
    nor a missing node or edge is ever the cause. *)
Theorem invoke_raises_only_from_knowledge (st : TelecomAssistantState)
    (p p' : proc) (e : exn) :
  invoke workflow st p = (p', Raise e) ->
  classify (query st) = "knowledge_retrieval" /\
  answer_knowledge_query (query st) (info_get "email" (customer_info_of st)) p
  = (p', Raise e).
Proof.
  destruct (invoke_workflow st p) as [f [Hf ->]].
  unfold bind.
  destruct (routed_handler st f Hf)
    as [[_ ->]|[[_ ->]|[[_ ->]|[[Hc ->]|[_ ->]]]]].
  - destruct (guarded_nodes_return (classify_query st) p) as [[q1 [a [-> _]]] _].
    discriminate.
  - destruct (guarded_nodes_return (classify_query st) p) as [_ [[q1 [a [-> _]]] _]].
    discriminate.
  - destruct (guarded_nodes_return (classify_query st) p) as [_ [_ [q1 [a [-> _]]]]].
    discriminate.
  - unfold llamaindex_node, bind.
    change (query (classify_query st)) with (query st).
    change (customer_info_of (classify_query st)) with (customer_info_of st).
    destruct (answer_knowledge_query _ _ p) as [q1 [a|e1]]; [discriminate|].
    intros H. injection H as <- <-. split; [exact Hc | reflexivity].
  - discriminate.
Qed.

(** X26. With the graph loaded, what the page shows for a request is the
    final response of the run, which every returned state has, so the stand-in
    text for a missing final response is never shown; when the run raises,
    the page shows the error line with the exception's message and without
    its type name. *)
Theorem page_shows_final_response_or_error (q : string) (p : proc)
    (e : option string) (h : list turn) :
  ss_graph_loaded (session p) = Some true ->
  ss_graph (session p) = Some true ->
  ss_email (session p) = Some e ->
  ss_chat_history (session p) = Some h ->
  (forall p' st',
      invoke workflow (initial_state q e h) p = (p', Ok st') ->
      exists v,
        final_response st' = Some v /\
        run_query_through_graph q p = (p', Ok v)) /\
  (forall p' ex,
      invoke workflow (initial_state q e h) p = (p', Raise ex) ->
      run_query_through_graph q p
      = (p', Ok ("❌ Error while processing your request (possible DB/agent issue): "
                 ++ exn_msg ex))).
Proof.
  intros Hl Hg He Hh.
  assert (Hrun :
    run_query_through_graph q p
    = try_except
        (result <- invoke workflow (initial_state q e h) ;;
         ret (match final_response result with
              | Some r => r
              | None => "I couldn't generate a response."
              end))
        (fun ex => ret ("❌ Error while processing your request (possible DB/agent issue): "
                        ++ exn_msg ex)) p).
  { unfold run_query_through_graph. unfold bind at 1, get_session at 1.
    rewrite Hl. unfold bind at 1. rewrite (attr_present _ _ p true Hg).
    unfold run_loaded_graph. unfold bind at 1. rewrite (attr_present _ _ p e He).
    unfold bind at 1. rewrite (attr_present _ _ p h Hh). reflexivity. }
  rewrite Hrun. unfold try_except, bind, ret. split.
  - intros p' st' H. rewrite H.
    destruct (invoke_workflow (initial_state q e h) p) as [f [_ Hinv]].
    rewrite Hinv in H. unfold bind, ret in H.
    destruct (f _ p) as [p1 [st1|e1]]; [|discriminate].
    injection H as _ <-.
    eexists. split; reflexivity.
  - intros p' ex H. now rewrite H.
Qed.

End RequestErrors.

Lemma invoke_raises_only_from_knowledge_witness :
  @classify Demo.world_without_engine "How do I enable VoLTE?"
  = "knowledge_retrieval" /\
  snd (@answer_knowledge_query Demo.world_without_engine "How do I enable VoLTE?"
         (Some "asha@example.com") Demo.start)
  = Raise Demo.engine_failure.
Proof.
  destruct (@invoke_raises_only_from_knowledge Demo.world_without_engine
              (Demo.request "How do I enable VoLTE?" (Some "asha@example.com"))
              Demo.start _ Demo.engine_failure eq_refl) as [Hc Ha].
  split; [exact Hc|]. exact (f_equal snd Ha).
Defined.

Lemma page_shows_final_response_or_error_witness :
  (exists v,
      @run_query_through_graph Demo.world "My internet is slow" Demo.proc_of_asha
      = (fst (@invoke Demo.world (@workflow Demo.world)
                (initial_state "My internet is slow" (Some "asha@example.com")
                   (transcript Demo.proc_of_asha)) Demo.proc_of_asha), Ok v)) /\
  snd (@run_query_through_graph Demo.world_without_engine
         "How do I enable VoLTE?" Demo.proc_of_asha)
  = Ok ("❌ Error while processing your request (possible DB/agent issue): "
        ++ exn_msg Demo.engine_failure).
Proof.
  split.
  - destruct (proj1 (@page_shows_final_response_or_error Demo.world
                       "My internet is slow" Demo.proc_of_asha
                       (Some "asha@example.com") (transcript Demo.proc_of_asha)
                       eq_refl eq_refl eq_refl eq_refl) _ _ eq_refl)
      as [v [_ Hv]].
    exists v. exact Hv.
  - exact (f_equal snd
             (proj2 (@page_shows_final_response_or_error Demo.world_without_engine
                       "How do I enable VoLTE?" Demo.proc_of_asha
                       (Some "asha@example.com") (transcript Demo.proc_of_asha)
                       eq_refl eq_refl eq_refl eq_refl) _ Demo.engine_failure eq_refl)).
Defined.
